(** * StudySahayak: the content-to-knowledge-graph derivation pipeline

    A shallow embedding of [src/app.py] ([extract_text_from_content],
    [generate_graph_data], [generate_legacy_graph_data],
    [create_simple_graph_from_text]) and of [src/services/ai_service.py]
    ([generate_hierarchical_graph_structure],
    [_create_enhanced_fallback_hierarchy],
    [_extract_from_structured_content]).

    The Python code is dynamically typed and drives its fallback tiers by
    exceptions, so the embedding works on Python values ([pyval]) and every
    function that can raise returns an [option]: [None] stands for "an
    exception propagates out of this call".  All handlers in the modelled
    code are [except Exception], hence the kind of the exception is not
    recorded; the one selective handler, [except json.JSONDecodeError], is
    attached to [json.loads], whose failure is a separate [None].

    Left out: logging, the text of the prompt, and the cleaning of the
    answer of the model, which is seen after [json.loads] ([reply]).

    The file has three parts: the embedding (modules [Str], [Py],
    [AIService], [App]), the properties the specification states together
    with the inputs of the examples, and the proofs. *)

From Stdlib Require Import ZArith Ascii String List.
From stdpp Require Import base option list strings gmap pretty.

Local Open Scope string_scope.
Local Open Scope list_scope.
Local Open Scope nat_scope.
Set Warnings "-register-all".

(** ** Characters and strings

    A [string] is read as a Python [str] whose characters are code points
    below 256, one [ascii] per character, so that [String.length] is
    Python's [len]. *)

Module Str.

(** [str.isspace] on code points below 256. *)
Definition is_space (c : ascii) : bool :=
  let n := nat_of_ascii c in
  (((9 <=? n) && (n <=? 13)) || ((28 <=? n) && (n <=? 32))
   || (n =? 133) || (n =? 160))%nat.

(** [str.lower] on one code point below 256: A-Z and the accented capitals
    of Latin-1 (all of 192..222 but the multiplication sign 215). *)
Definition lower_char (c : ascii) : ascii :=
  let n := nat_of_ascii c in
  if (((65 <=? n) && (n <=? 90))
      || ((192 <=? n) && (n <=? 222) && negb (n =? 215)))%nat
  then ascii_of_nat (n + 32) else c.

Fixpoint lower (s : string) : string :=
  match s with
  | EmptyString => EmptyString
  | String c s' => String (lower_char c) (lower s')
  end.

(** [s[:n]] *)
Fixpoint take (n : nat) (s : string) : string :=
  match n, s with
  | S n', String c s' => String c (take n' s')
  | _, _ => EmptyString
  end.

Fixpoint lstrip (s : string) : string :=
  match s with
  | String c s' => if is_space c then lstrip s' else s
  | EmptyString => EmptyString
  end.

(** [s.strip()] *)
Definition strip (s : string) : string :=
  String.rev (lstrip (String.rev (lstrip s))).

Fixpoint is_prefix (p s : string) : bool :=
  match p, s with
  | EmptyString, _ => true
  | String a p', String b s' => bool_decide (a = b) && is_prefix p' s'
  | String _ _, EmptyString => false
  end.

(** [p in s] for two strings *)
Fixpoint is_infix (p s : string) : bool :=
  is_prefix p s ||
  match s with
  | EmptyString => false
  | String _ s' => is_infix p s'
  end.

(** [s.split(sep)] for a non-empty separator: the occurrences of [sep]
    are found from the left and do not overlap.  [skip] counts the
    characters of an occurrence that are still to be passed over, [cur]
    holds the current fragment in reverse. *)
Fixpoint split_go (sep : string) (skip : nat) (cur : string) (s : string)
  : list string :=
  match s with
  | EmptyString => [String.rev cur]
  | String c s' =>
      match skip with
      | S k => split_go sep k cur s'
      | O =>
          if is_prefix sep s
          then String.rev cur :: split_go sep (String.length sep - 1) EmptyString s'
          else split_go sep 0 (String c cur) s'
      end
  end.

Definition split (sep s : string) : list string :=
  split_go sep 0 EmptyString s.

(** [list(s)]: the characters of a string, each as a string *)
Fixpoint chars (s : string) : list string :=
  match s with
  | EmptyString => []
  | String c s' => String c EmptyString :: chars s'
  end.

(** [sep.join(parts)] *)
Fixpoint join (sep : string) (parts : list string) : string :=
  match parts with
  | [] => EmptyString
  | [p] => p
  | p :: rest => p +:+ sep +:+ join sep rest
  end.

Definition newline : string := String "010" EmptyString.
Definition blank_line : string := String "010" (String "010" EmptyString).

(** [s.endswith(suffix)] *)
Fixpoint ends_with (suffix s : string) : bool :=
  String.eqb suffix s ||
  match s with
  | EmptyString => false
  | String _ s' => ends_with suffix s'
  end.

(** [s.rsplit(sep, 1)] for a separator of one character: the string cut
    at the last [sep], or the string alone when it has none. *)
Fixpoint rsplit1 (sep : ascii) (s : string) : list string :=
  match s with
  | EmptyString => [EmptyString]
  | String c s' =>
      match rsplit1 sep s' with
      | [head; tail] => [String c head; tail]
      | _ => if decide (c = sep) then [EmptyString; s'] else [String c s']
      end
  end.

(** [s[n:]] *)
Fixpoint drop (n : nat) (s : string) : string :=
  match n, s with
  | S n', String _ s' => drop n' s'
  | _, _ => s
  end.

(** [s.replace(c, '')] for one character [c] *)
Fixpoint remove (c : ascii) (s : string) : string :=
  match s with
  | EmptyString => EmptyString
  | String a s' => if decide (a = c) then remove c s' else String a (remove c s')
  end.

(** [s.split()]: the maximal runs of characters that are not white space.
    [cur] holds the current run in reverse. *)
Fixpoint words_go (cur : string) (s : string) : list string :=
  match s with
  | EmptyString =>
      match cur with
      | EmptyString => []
      | String _ _ => [String.rev cur]
      end
  | String c s' =>
      if is_space c
      then match cur with
           | EmptyString => words_go EmptyString s'
           | String _ _ => String.rev cur :: words_go EmptyString s'
           end
      else words_go (String c cur) s'
  end.

Definition words (s : string) : list string := words_go EmptyString s.

End Str.

(** ** Python values

    The values [json.loads] can return and the ones the pipeline builds
    from them.  A [dict] is kept as an association list in insertion order
    (the order [for k in d] and [d.items()] follow); its keys are
    strings, as in every JSON document, and pairwise distinct.  Numbers
    are Python integers; the floats of a JSON text with a fraction or an
    exponent are left out. *)

Inductive pyval : Type :=
| PyNone
| PyBool (b : bool)
| PyInt (z : Z)
| PyStr (s : string)
| PyList (l : list pyval)
| PyDict (d : list (string * pyval)).

Abbreviation pydict := (list (string * pyval)).

(** The hashable values, as dictionary keys: [True == 1] and [False == 0]
    hash and compare alike, so a [bool] key is the integer key. *)
Inductive pykey : Type :=
| KNone
| KInt (z : Z)
| KStr (s : string).

#[global] Instance pykey_eq_dec : EqDecision pykey.
Proof. solve_decision. Defined.

#[global] Instance pykey_countable : Countable pykey.
Proof.
  refine (inj_countable'
    (λ k, match k with
          | KNone => inl ()
          | KInt z => inr (inl z)
          | KStr s => inr (inr s)
          end)
    (λ x, match x with
          | inl _ => KNone
          | inr (inl z) => KInt z
          | inr (inr s) => KStr s
          end) _).
  by intros [].
Defined.

Module Py.

(** [bool(v)] *)
Definition truthy (v : pyval) : bool :=
  match v with
  | PyNone => false
  | PyBool b => b
  | PyInt z => negb (z =? 0)%Z
  | PyStr s => match s with EmptyString => false | String _ _ => true end
  | PyList l => match l with [] => false | _ :: _ => true end
  | PyDict d => match d with [] => false | _ :: _ => true end
  end.

Fixpoint lookup (k : string) (d : pydict) : option pyval :=
  match d with
  | [] => None
  | (k', v) :: d' => if String.eqb k' k then Some v else lookup k d'
  end.

(** [k in d] for a dict [d] *)
Definition has_key (k : string) (d : pydict) : bool :=
  match lookup k d with Some _ => true | None => false end.

(** [d.get(k, dflt)] for a dict [d] *)
Definition dict_get (d : pydict) (k : string) (dflt : pyval) : pyval :=
  default dflt (lookup k d).

(** [v.get(k, dflt)]: only a dict has [get] (else AttributeError). *)
Definition get (v : pyval) (k : string) (dflt : pyval) : option pyval :=
  match v with
  | PyDict d => Some (dict_get d k dflt)
  | _ => None
  end.

(** [v[k]] for a string [k]: KeyError on a dict without [k], TypeError on
    a list or a string, which take integer indices. *)
Definition subscript (v : pyval) (k : string) : option pyval :=
  match v with
  | PyDict d => lookup k d
  | _ => None
  end.

(** [iter(v)]: the elements of a list, the characters of a string, the
    keys of a dict; the other values are not iterable (TypeError). *)
Definition iter (v : pyval) : option (list pyval) :=
  match v with
  | PyList l => Some l
  | PyStr s => Some (PyStr <$> Str.chars s)
  | PyDict d => Some ((λ kv, PyStr kv.1) <$> d)
  | _ => None
  end.

(** [v.items()] *)
Definition items (v : pyval) : option (list (string * pyval)) :=
  match v with
  | PyDict d => Some d
  | _ => None
  end.

(** [len(v)] *)
Definition len (v : pyval) : option nat :=
  match v with
  | PyList l => Some (length l)
  | PyStr s => Some (String.length s)
  | PyDict d => Some (length d)
  | _ => None
  end.

(** [s in v] for a string [s]: key of a dict, element of a list,
    substring of a string; TypeError on the rest. *)
Definition contains (s : string) (v : pyval) : option bool :=
  match v with
  | PyDict d => Some (has_key s d)
  | PyList l =>
      Some (existsb (λ x, match x with
                          | PyStr t => bool_decide (t = s)
                          | _ => false
                          end) l)
  | PyStr t => Some (Str.is_infix s t)
  | _ => None
  end.

(** [v[:n] + '...' if len(v) > n else v]: [len] must exist; past [n] the
    slice of a list cannot be added to a string and a dict has no slices,
    so only a string passes. *)
Definition ellipsis (n : nat) (v : pyval) : option pyval :=
  l ← len v;
  if decide (n < l) then
    match v with
    | PyStr s => Some (PyStr (Str.take n s +:+ "..."))
    | _ => None
    end
  else Some v.

(** [v.lower()]: a method of [str] only. *)
Definition lower (v : pyval) : option string :=
  match v with
  | PyStr s => Some (Str.lower s)
  | _ => None
  end.

(** [hash(v)]: lists and dicts are unhashable (TypeError). *)
Definition hashkey (v : pyval) : option pykey :=
  match v with
  | PyNone => Some KNone
  | PyBool b => Some (KInt (if b then 1 else 0))
  | PyInt z => Some (KInt z)
  | PyStr s => Some (KStr s)
  | PyList _ | PyDict _ => None
  end.

(** [v == 1] *)
Definition eq_one (v : pyval) : bool :=
  match v with
  | PyInt z => (z =? 1)%Z
  | PyBool b => b
  | _ => false
  end.

(** [' '.join(parts)]: every part must be a string (TypeError). *)
Definition join (sep : string) (parts : list pyval) : option string :=
  Str.join sep <$>
    mapM (λ v, match v with PyStr s => Some s | _ => None end) parts.

(** [str(n)] for a counter *)
Definition str (n : nat) : string := pretty n.

(** [try: body  except Exception: handler] *)
Definition try_except {A} (body handler : option A) : option A :=
  match body with
  | Some a => Some a
  | None => handler
  end.

(** [for x in xs: body], threading the variables the loop assigns *)
Fixpoint for_each {S A} (body : S → A → option S) (xs : list A) (s : S)
  : option S :=
  match xs with
  | [] => Some s
  | x :: xs' => s' ← body s x; for_each body xs' s'
  end.

End Py.

(** ** The environment of the pipeline

    Three functions of the Python standard library are taken as they are:
    [json.loads], [json.dumps] and [str] on a dict. *)

(** What [json.loads] does with a text: it returns the parsed value, it
    raises [json.JSONDecodeError], or it raises another exception, which
    [except json.JSONDecodeError] does not catch ([ValueError] on an
    integer of more than 4300 digits, [RecursionError] on a deep
    nesting). *)
Inductive json_result : Type :=
| JsonValue (v : pyval)
| JsonDecodeError
| JsonOtherError.

Class Runtime := {
  json_loads : string → json_result;
  json_dumps : pydict → string;
  dict_str : pydict → string
}.

(** The [content] field of a stored record: [store_content] receives
    either the structured document (a dict) or the processed text. *)
Inductive content_field : Type :=
| Text (s : string)
| Document (d : pydict).

Record content_record := ContentRecord {
  rec_title : option pyval;
  rec_content : content_field
}.

(** What the configured model answers to the hierarchy prompt, seen
    through [json.loads(self._clean_json_response(response.text))]:
    the call raises, the cleaned answer is not JSON, or it parses.  An
    exception of [json.loads] other than [json.JSONDecodeError] is caught
    by the outer handler like one of the call, and counts as the former. *)
Inductive reply : Type :=
| ReplyRaises
| ReplyNotJson
| ReplyJson (v : pyval).

(** [self.model] of [AIService]: [None] without an API key. *)
Inductive backend : Type :=
| ModelNone
| Model (r : reply).

(** ** The graph *)

Record node := Node {
  node_id : string;
  node_name : pyval;
  node_type : pyval;
  node_level : pyval;
  node_size : Z;
  node_content : pyval;
  node_color : option string;
  node_complexity : option pyval;
  node_importance : option pyval;
  node_prerequisites : option pyval;
  node_examples : option pyval;
  node_applications : option pyval;
  node_children : option (list pyval)
}.

Record link := Link {
  link_source : string;
  link_target : string;
  link_value : Z;
  link_type : option pyval;
  link_description : option pyval
}.

Record metadata := Metadata {
  total_levels : nat;
  total_concepts : nat;
  complexity : pyval
}.

Record graph := Graph {
  nodes : list node;
  links : list link;
  learning_path : option pyval;
  difficulty_progression : option pyval;
  graph_metadata : option metadata
}.

(** A node dict with the six keys every builder writes. *)
Definition plain_node (i : string) (name type level : pyval) (size : Z)
    (content : pyval) : node :=
  Node i name type level size content None None None None None None None.

Definition with_color (c : string) (n : node) : node :=
  Node (node_id n) (node_name n) (node_type n) (node_level n) (node_size n)
       (node_content n) (Some c) (node_complexity n) (node_importance n)
       (node_prerequisites n) (node_examples n) (node_applications n)
       (node_children n).

Definition with_children (ch : list pyval) (n : node) : node :=
  Node (node_id n) (node_name n) (node_type n) (node_level n) (node_size n)
       (node_content n) (node_color n) (node_complexity n) (node_importance n)
       (node_prerequisites n) (node_examples n) (node_applications n)
       (Some ch).

(** A link dict with the three keys of the legacy builders. *)
Definition plain_link (s t : string) (v : Z) : link := Link s t v None None.

(** ** ai_service.py *)

Module AIService.

(** [_extract_from_structured_content], one section of [main_sections] *)
Definition extract_section (text_parts : list pyval) (section : pyval)
  : option (list pyval) :=
  t ← Py.get section "section_title" PyNone;
  let text_parts := if Py.truthy t then text_parts ++ [t] else text_parts in
  c ← Py.get section "content" PyNone;
  let text_parts := if Py.truthy c then text_parts ++ [c] else text_parts in
  kp ← Py.get section "key_points" PyNone;
  if Py.truthy kp
  then pts ← Py.iter kp; Some (text_parts ++ pts)
  else Some text_parts.

(** [_extract_from_structured_content] on a dict (the [isinstance(.., str)]
    branch belongs to callers that pass a string; both callers here pass
    a dict). *)
Definition _extract_from_structured_content (d : pydict) : option string :=
  let title := Py.dict_get d "title" PyNone in
  let text_parts := if Py.truthy title then [title] else [] in
  let summary := Py.dict_get d "executive_summary" PyNone in
  let text_parts :=
    if Py.truthy summary then text_parts ++ [summary] else text_parts in
  let sections := Py.dict_get d "main_sections" PyNone in
  text_parts ←
    (if Py.truthy sections
     then secs ← Py.iter sections; Py.for_each extract_section secs text_parts
     else Some text_parts);
  let takeaways := Py.dict_get d "key_takeaways" PyNone in
  text_parts ←
    (if Py.truthy takeaways
     then ts ← Py.iter takeaways; Some (text_parts ++ ts)
     else Some text_parts);
  Py.join " " text_parts.

(** [[s.strip() for s in text.split('.') if s.strip() and len(s.strip()) > 20]] *)
Definition sentences (text_content : string) : list string :=
  filter (λ s, s ≠ "" ∧ 20 < String.length s)
         (Str.strip <$> Str.split "." text_content).

(** [[p.strip() for p in text.split('\n\n') if p.strip()]] *)
Definition paragraphs (text_content : string) : list string :=
  filter (λ p, p ≠ "") (Str.strip <$> Str.split Str.blank_line text_content).

(** [sentences[:4] if len(sentences) >= 4 else paragraphs[:4]] *)
Definition main_concepts (text_content : string) : list string :=
  if decide (4 ≤ length (sentences text_content))
  then take 4 (sentences text_content)
  else take 4 (paragraphs text_content).

(** [sentences[4:8] if len(sentences) >= 8 else paragraphs[4:8] if
    len(paragraphs) >= 8 else []] *)
Definition sub_concepts (text_content : string) : list string :=
  if decide (8 ≤ length (sentences text_content))
  then take 4 (drop 4 (sentences text_content))
  else if decide (8 ≤ length (paragraphs text_content))
       then take 4 (drop 4 (paragraphs text_content))
       else [].

(** [concept[:n] + "..." if len(concept) > n else concept] *)
Definition shorten (n : nat) (concept : string) : string :=
  if decide (n < String.length concept)
  then Str.take n concept +:+ "..."
  else concept.

Definition level_1_node (i : nat) (concept : string) : pyval :=
  PyDict [("id", PyStr ("main_" +:+ Py.str i));
          ("title", PyStr (shorten 60 concept));
          ("description", PyStr concept);
          ("type", PyStr "concept");
          ("importance", PyStr (if decide (i < 2) then "high" else "medium"))].

Definition level_2_node (i : nat) (concept : string) : pyval :=
  PyDict [("id", PyStr ("sub_" +:+ Py.str i));
          ("title", PyStr (shorten 50 concept));
          ("description", PyStr concept);
          ("type", PyStr "definition");
          ("importance", PyStr "medium")].

Definition hierarchy_levels (main sub : list string) : list pyval :=
  (if decide (main ≠ [])
   then [PyDict [("level", PyInt 1);
                 ("title", PyStr "Main Concepts");
                 ("nodes", PyList (imap level_1_node main))]]
   else [])
  ++
  (if decide (sub ≠ [])
   then [PyDict [("level", PyInt 2);
                 ("title", PyStr "Supporting Details");
                 ("nodes", PyList (imap level_2_node sub))]]
   else []).

Definition relationship (i : nat) : pyval :=
  PyDict [("source", PyStr ("main_" +:+ Py.str i));
          ("target", PyStr ("sub_" +:+ Py.str i));
          ("relationship_type", PyStr "related");
          ("strength", PyStr "medium")].

(** [range(min(len(main_concepts), len(sub_concepts)))], under
    [if len(hierarchy_levels) >= 2] *)
Definition relationships (main sub : list string) : list pyval :=
  if decide (2 ≤ length (hierarchy_levels main sub))
  then relationship <$> seq 0 (length main `min` length sub)
  else [].

Definition main_ids (from to : nat) : list pyval :=
  (λ i, PyStr ("main_" +:+ Py.str i)) <$> seq from (to - from).

Definition sub_ids (from to : nat) : list pyval :=
  (λ i, PyStr ("sub_" +:+ Py.str i)) <$> seq from (to - from).

(** The dict the [try] block of [_create_enhanced_fallback_hierarchy]
    returns, from its [main_concepts] and [sub_concepts]. *)
Definition hierarchy_dict (main sub : list string) : pydict :=
  [("main_topic",
      PyDict [("title", PyStr "Content Analysis");
              ("description", PyStr "Structured breakdown of the content")]);
   ("hierarchy_levels", PyList (hierarchy_levels main sub));
   ("relationships", PyList (relationships main sub));
   ("learning_path",
      PyList (if decide (main ≠ [])
              then [PyDict [("step", PyInt 1);
                            ("focus", PyStr "main_0");
                            ("description",
                               PyStr "Start with the fundamental concepts")]]
              else []));
   ("difficulty_progression",
      PyDict [("beginner_nodes", PyList (main_ids 0 (2 `min` length main)));
              ("intermediate_nodes",
                 PyList (main_ids 2 (length main)
                         ++ sub_ids 0 (2 `min` length sub)));
              ("advanced_nodes", PyList (sub_ids 2 (length sub)))])].

Definition fallback_hierarchy (text_content : string) : pydict :=
  hierarchy_dict (main_concepts text_content) (sub_concepts text_content).

(** The dict returned by the [except] block. *)
Definition minimal_hierarchy : pydict :=
  [("main_topic",
      PyDict [("title", PyStr "Content");
              ("description", PyStr "Basic content structure")]);
   ("hierarchy_levels",
      PyList [PyDict [("level", PyInt 1);
                      ("title", PyStr "Main Topic");
                      ("nodes",
                         PyList [PyDict [("id", PyStr "main_topic");
                                         ("title", PyStr "Main Content");
                                         ("description",
                                            PyStr "Primary content area");
                                         ("type", PyStr "concept");
                                         ("importance", PyStr "high")]])]]);
   ("relationships", PyList []);
   ("learning_path", PyList []);
   ("difficulty_progression",
      PyDict [("beginner_nodes", PyList [PyStr "main_topic"]);
              ("intermediate_nodes", PyList []);
              ("advanced_nodes", PyList [])])].

(** The [try] block of [_create_enhanced_fallback_hierarchy]:
    [None] when it raises. *)
Definition fallback_try (content : content_field) : option pydict :=
  text_content ←
    match content with
    | Document d => _extract_from_structured_content d
    | Text s => Some s
    end;
  Some (fallback_hierarchy text_content).

Definition _create_enhanced_fallback_hierarchy (content : content_field)
  : pydict :=
  match fallback_try content with
  | Some h => h
  | None => minimal_hierarchy
  end.

Section with_runtime.
Context `{Runtime}.

(** [text_content] of [generate_hierarchical_graph_structure], which
    feeds the prompt. *)
Definition prompt_text (content : content_field) : option string :=
  match content with
  | Document d =>
      if Py.has_key "main_sections" d
      then _extract_from_structured_content d
      else Some (Str.take 2000 (json_dumps d))
  | Text s => Some (Str.take 2000 s)
  end.

Definition generate_hierarchical_graph_structure (model : backend)
    (content : content_field) : pydict :=
  match model with
  | ModelNone => _create_enhanced_fallback_hierarchy content
  | Model r =>
      match prompt_text content, r with
      | Some _, ReplyJson (PyDict hierarchy_data) =>
          if negb (Py.truthy (Py.dict_get hierarchy_data "hierarchy_levels" PyNone))
          then _create_enhanced_fallback_hierarchy content
          else hierarchy_data
      | _, _ => _create_enhanced_fallback_hierarchy content
      end
  end.

End with_runtime.

End AIService.

(** ** app.py *)

Module App.

Import AIService.

(** *** [create_simple_graph_from_text] *)

(** The variables a builder loop assigns: [nodes], [links] and the
    counter ([node_id] in the legacy builder, the index [i] here). *)
Record builder := Builder {
  b_nodes : list node;
  b_links : list link;
  b_next : nat
}.

Definition emit (n : node) (l : link) (st : builder) : builder :=
  Builder (b_nodes st ++ [n]) (b_links st ++ [l]) (S (b_next st)).

(** One round of [for i, paragraph in enumerate(paragraphs[:10])];
    [b_next] holds [i]. *)
Definition add_paragraph (st : builder) (paragraph : string) : builder :=
  let i := b_next st in
  emit (plain_node (Py.str (i + 1))
          (PyStr (shorten 50 paragraph))
          (PyStr (if decide (i < 5) then "sub_topic" else "key_point"))
          (PyInt 1)
          (if decide (i < 5) then 25%Z else 20%Z)
          (PyStr paragraph))
       (plain_link "0" (Py.str (i + 1)) 2)
       st.

(** [text.split] exists on a string only (else AttributeError). *)
Definition create_simple_graph_from_text (text title : pyval) : option graph :=
  match text with
  | PyStr text =>
      let paragraphs := paragraphs text in
      let root :=
        plain_node "0" title (PyStr "main_topic") (PyInt 0) 40
                   (PyStr (shorten 200 text)) in
      let st := foldl add_paragraph (Builder [root] [] 0) (take 10 paragraphs) in
      Some (Graph (b_nodes st) (b_links st) None None None)
  | _ => None
  end.

(** *** [extract_text_from_content] *)

(** [if 'content' in section: text_parts.append(section['content'])] *)
Definition extract_section_content (text_parts : list pyval) (section : pyval)
  : option (list pyval) :=
  present ← Py.contains "content" section;
  if present : bool
  then c ← Py.subscript section "content"; Some (text_parts ++ [c])
  else Some text_parts.

(** [if k in parsed_content: text_parts.append(parsed_content[k])] *)
Definition append_key (k : string) (parsed_content : pydict)
    (text_parts : list pyval) : list pyval :=
  match Py.lookup k parsed_content with
  | Some v => text_parts ++ [v]
  | None => text_parts
  end.

Section with_runtime.
Context `{Runtime}.

Definition extract_text_from_content (content_data : content_field)
  : option pyval :=
  match content_data with
  | Text s =>
      match json_loads s with
      | JsonValue (PyDict parsed_content) =>
          let text_parts := append_key "executive_summary" parsed_content [] in
          let text_parts := append_key "introduction" parsed_content text_parts in
          text_parts ←
            match Py.lookup "main_sections" parsed_content with
            | Some sections =>
                secs ← Py.iter sections;
                Py.for_each extract_section_content secs text_parts
            | None => Some text_parts
            end;
          let text_parts := append_key "conclusion" parsed_content text_parts in
          if decide (text_parts ≠ [])
          then PyStr <$> Py.join " " text_parts
          else match Py.lookup "content" parsed_content with
               | Some c => Some c
               | None => Some (PyStr s)
               end
      | JsonValue _ => Some (PyStr s)
      | JsonDecodeError => Some (PyStr s)
      | JsonOtherError => None
      end
  | Document d => Some (PyStr (dict_str d))
  end.

End with_runtime.

(** *** [generate_legacy_graph_data] *)

(** A key point of a section, and a key takeaway: the two loops build the
    same node and link. *)
Definition add_point (parent_id : nat) (st : builder) (point : pyval)
  : option builder :=
  name ← Py.ellipsis 30 point;
  Some (emit (plain_node (Py.str (b_next st)) name (PyStr "key_point")
                         (PyInt 2) 20 point)
             (plain_link (Py.str parent_id) (Py.str (b_next st)) 2)
             st).

(** One round of [for i, section in enumerate(structured_data['main_sections'])].
    [section_node['children']] receives every point of the inner loop. *)
Definition add_section (st_i : builder * nat) (section : pyval)
  : option (builder * nat) :=
  let '(st, i) := st_i in
  name ← Py.get section "section_title" (PyStr ("Section " +:+ Py.str (i + 1)));
  c ← Py.get section "content" (PyStr "");
  content ← Py.ellipsis 200 c;
  key_points ← Py.get section "key_points" PyNone;
  points ← (if Py.truthy key_points then Py.iter key_points else Some []);
  let section_id := b_next st in
  let section_node :=
    with_children points
      (plain_node (Py.str section_id) name (PyStr "sub_topic") (PyInt 1) 30
                  content) in
  st ← Py.for_each (add_point section_id) points
         (emit section_node (plain_link "0" (Py.str section_id) 3) st);
  Some (st, S i).

Definition add_concept (concepts_main_id : nat) (st : builder)
    (item : string * pyval) : option builder :=
  let '(concept, definition) := item in
  Some (emit (plain_node (Py.str (b_next st)) (PyStr concept) (PyStr "concept")
                         (PyInt 2) 25 definition)
             (plain_link (Py.str concepts_main_id) (Py.str (b_next st)) 2)
             st).

(** [# Process main sections] *)
Definition add_sections (sd : pydict) (st : builder) : option builder :=
  let main_sections := Py.dict_get sd "main_sections" PyNone in
  if Py.truthy main_sections
  then secs ← Py.iter main_sections;
       fst <$> Py.for_each add_section secs (st, 0)
  else Some st.

(** [# Process concepts glossary] *)
Definition add_glossary (sd : pydict) (st : builder) : option builder :=
  let glossary := Py.dict_get sd "concepts_glossary" PyNone in
  if Py.truthy glossary
  then
    let concepts_main_id := b_next st in
    let st :=
      emit (plain_node (Py.str concepts_main_id) (PyStr "Key Concepts")
              (PyStr "sub_topic") (PyInt 1) 30
              (PyStr "Important concepts and definitions"))
           (plain_link "0" (Py.str concepts_main_id) 3) st in
    its ← Py.items glossary;
    Py.for_each (add_concept concepts_main_id) its st
  else Some st.

(** [# Process key takeaways] *)
Definition add_takeaways (sd : pydict) (st : builder) : option builder :=
  let key_takeaways := Py.dict_get sd "key_takeaways" PyNone in
  if Py.truthy key_takeaways
  then
    let takeaways_id := b_next st in
    let st :=
      emit (plain_node (Py.str takeaways_id) (PyStr "Key Takeaways")
              (PyStr "sub_topic") (PyInt 1) 30
              (PyStr "Main lessons and insights"))
           (plain_link "0" (Py.str takeaways_id) 3) st in
    ts ← Py.iter key_takeaways;
    Py.for_each (add_point takeaways_id) ts st
  else Some st.

(** [title_node] *)
Definition title_node (content_title : option pyval) (sd : pydict) : node :=
  plain_node (Py.str 0)
    (Py.dict_get sd "title" (default (PyStr "Content") content_title))
    (PyStr "main_topic") (PyInt 0) 40
    (Py.dict_get sd "executive_summary" (PyStr "Main content")).

(** The builder on the parsed document, from [nodes = []] to the
    [return].  Only a dict has [get] (else AttributeError). *)
Definition legacy_structured (content_title : option pyval)
    (structured_data : pyval) : option graph :=
  match structured_data with
  | PyDict sd =>
      st ← add_sections sd (Builder [title_node content_title sd] [] 1);
      st ← add_glossary sd st;
      st ← add_takeaways sd st;
      Some (Graph (b_nodes st) (b_links st) None None None)
  | _ => None
  end.

Section with_runtime.
Context `{Runtime}.

Definition generate_legacy_graph_data (content : content_record)
  : option graph :=
  let title := default (PyStr "Content") (rec_title content) in
  Py.try_except
    (match rec_content content with
     | Text content_data =>
         match json_loads content_data with
         | JsonValue structured_data =>
             legacy_structured (rec_title content) structured_data
         | JsonDecodeError =>
             create_simple_graph_from_text (PyStr content_data) title
         | JsonOtherError => None
         end
     | Document d => legacy_structured (rec_title content) (PyDict d)
     end)
    (text ← extract_text_from_content (rec_content content);
     create_simple_graph_from_text text title).

End with_runtime.

(** *** [generate_graph_data] *)

Definition level_colors : gmap pykey string :=
  {[ KInt 1 := "#3b82f6"; KInt 2 := "#10b981"; KInt 3 := "#f59e0b";
     KInt 4 := "#ef4444"; KInt 5 := "#8b5cf6" ]}.

Definition size_map : gmap pykey Z :=
  {[ KStr "high" := 35%Z; KStr "medium" := 28%Z; KStr "low" := 22%Z ]}.

Definition type_colors : gmap pykey string :=
  {[ KStr "concept" := "#3b82f6"; KStr "definition" := "#10b981";
     KStr "principle" := "#f59e0b"; KStr "example" := "#ef4444";
     KStr "application" := "#8b5cf6" ]}.

Definition strength_values : gmap pykey Z :=
  {[ KStr "strong" := 3%Z; KStr "medium" := 2%Z; KStr "weak" := 1%Z ]}.

(** [table.get(v, dflt)]: the key is hashed (TypeError on a list or a
    dict). *)
Definition table_get {A} (table : gmap pykey A) (v : pyval) (dflt : A)
  : option A :=
  k ← Py.hashkey v; Some (default dflt (table !! k)).

(** The variables of the conversion: [nodes], [links], [node_id_map] and
    [node_counter]. *)
Record assembly := Assembly {
  a_nodes : list node;
  a_links : list link;
  node_id_map : gmap pykey string;
  node_counter : nat
}.

Definition hierarchy_link (node_id : string) : link :=
  Link "0" node_id 3 (Some (PyStr "hierarchy")) None.

(** The key under which a hierarchy node is recorded:
    [node_data.get('id', node_title.lower())].  The default is evaluated
    before [get] is called, so the title must be a string even when the
    node has an id. *)
Definition node_key (node_data node_title : pyval) : option pykey :=
  lowered ← Py.lower node_title;
  id ← Py.get node_data "id" (PyStr lowered);
  Py.hashkey id.

(** [concept_node] *)
Definition concept_node (node_counter : nat) (level_num node_data : pyval)
  : option node :=
  node_title ← Py.get node_data "title" (PyStr ("Node " +:+ Py.str node_counter));
  importance ← Py.get node_data "importance" (PyStr "medium");
  node_size ← table_get size_map importance 28%Z;
  node_type ← Py.get node_data "type" (PyStr "concept");
  level_color ← table_get level_colors level_num "#6b7280";
  color ← table_get type_colors node_type level_color;
  description ← Py.get node_data "description" (PyStr "");
  prerequisites ← Py.get node_data "prerequisites" (PyList []);
  examples ← Py.get node_data "examples" (PyList []);
  applications ← Py.get node_data "applications" (PyList []);
  Some (Node (Py.str node_counter) node_title node_type level_num node_size
             description (Some color) None (Some importance)
             (Some prerequisites) (Some examples) (Some applications) None).

(** One round of [for node_data in level_data.get('nodes', [])] *)
Definition process_node (level_num : pyval) (st : assembly)
    (node_data : pyval) : option assembly :=
  let node_id := Py.str (node_counter st) in
  n ← concept_node (node_counter st) level_num node_data;
  key ← node_key node_data (node_name n);
  Some (Assembly
          (a_nodes st ++ [n])
          (a_links st ++ (if Py.eq_one level_num then [hierarchy_link node_id]
                          else []))
          (<[key := node_id]> (node_id_map st))
          (S (node_counter st))).

(** One round of [for level_data in hierarchy_data.get('hierarchy_levels', [])].
    [level_title] is assigned and never read. *)
Definition process_level (st : assembly) (level_data : pyval)
  : option assembly :=
  level_num ← Py.get level_data "level" (PyInt 1);
  level_nodes ← Py.get level_data "nodes" (PyList []);
  nds ← Py.iter level_nodes;
  Py.for_each (process_node level_num) nds st.

(** One round of [for relationship in hierarchy_data.get('relationships', [])]:
    the link the round appends, if it appends one. *)
Definition relationship_link (node_id_map : gmap pykey string)
    (relationship : pyval) : option (option link) :=
  source ← Py.get relationship "source" (PyStr "");
  source_key ← Py.hashkey source;
  target ← Py.get relationship "target" (PyStr "");
  target_key ← Py.hashkey target;
  match node_id_map !! source_key, node_id_map !! target_key with
  | Some source_id, Some target_id =>
      if Py.truthy (PyStr source_id) && Py.truthy (PyStr target_id)
         && bool_decide (source_id ≠ target_id)
      then
        rel_type ← Py.get relationship "relationship_type" (PyStr "related");
        strength ← Py.get relationship "strength" (PyStr "medium");
        link_value ← table_get strength_values strength 2%Z;
        description ← Py.get relationship "description" (PyStr "");
        Some (Some (Link source_id target_id link_value (Some rel_type)
                         (Some description)))
      else Some None
  | _, _ => Some None
  end.

Definition process_relationship (node_id_map : gmap pykey string)
    (links : list link) (relationship : pyval) : option (list link) :=
  l ← relationship_link node_id_map relationship;
  Some (links ++ option_list l).

Definition basic_nodes : list node :=
  [ with_color "#3b82f6"
      (plain_node "1" (PyStr "Key Concept 1") (PyStr "concept") (PyInt 1) 30
                  (PyStr "Primary concept from the content"));
    with_color "#10b981"
      (plain_node "2" (PyStr "Key Concept 2") (PyStr "definition") (PyInt 1) 28
                  (PyStr "Secondary concept from the content")) ].

Definition basic_links : list link :=
  [ Link "0" "1" 3 (Some (PyStr "hierarchy")) None;
    Link "0" "2" 3 (Some (PyStr "hierarchy")) None;
    Link "1" "2" 2 (Some (PyStr "related")) None ].

Definition initial_assembly (main_node : node) : assembly :=
  Assembly [main_node] [] {[ KStr "main" := "0" ]} 1.

(** [main_node] *)
Definition main_node (content_title : option pyval) (hierarchy_data : pydict)
  : option node :=
  let main_topic := Py.dict_get hierarchy_data "main_topic" (PyDict []) in
  name ← Py.get main_topic "title" (default (PyStr "Main Topic") content_title);
  description ← Py.get main_topic "description" (PyStr "Central concept");
  complexity ← Py.get main_topic "complexity_level" (PyStr "intermediate");
  Some (Node (Py.str 0) name (PyStr "main_topic") (PyInt 0) 50 description
             (Some "#1e3a8a") (Some complexity) None None None None None).

(** The conversion of the hierarchy to the graph: the [try] block of
    [generate_graph_data] from [nodes = []] to its [return]. *)
Definition assemble (content_title : option pyval) (hierarchy_data : pydict)
  : option graph :=
  root ← main_node content_title hierarchy_data;
  let hierarchy_levels :=
    Py.dict_get hierarchy_data "hierarchy_levels" (PyList []) in
  levels ← Py.iter hierarchy_levels;
  st ← Py.for_each process_level levels (initial_assembly root);
  rels ← Py.iter (Py.dict_get hierarchy_data "relationships" (PyList []));
  links ← Py.for_each (process_relationship (node_id_map st)) rels (a_links st);
  let learning_path := Py.dict_get hierarchy_data "learning_path" (PyList []) in
  let difficulty_progression :=
    Py.dict_get hierarchy_data "difficulty_progression" (PyDict []) in
  let '(nodes, links) :=
    if decide (length (a_nodes st) = 1)
    then (a_nodes st ++ basic_nodes, links ++ basic_links)
    else (a_nodes st, links) in
  total_levels ← Py.len hierarchy_levels;
  complexity ←
    Py.get (Py.dict_get hierarchy_data "main_topic" (PyDict []))
           "complexity_level" (PyStr "intermediate");
  Some (Graph nodes links (Some learning_path) (Some difficulty_progression)
              (Some (Metadata total_levels (length nodes) complexity))).

Section with_runtime.
Context `{Runtime}.

Definition generate_graph_data (model : backend) (content : content_record)
  : option graph :=
  Py.try_except
    (let hierarchy_data :=
       generate_hierarchical_graph_structure model (rec_content content) in
     if Py.has_key "error" hierarchy_data
     then generate_legacy_graph_data content
     else assemble (rec_title content) hierarchy_data)
    (generate_legacy_graph_data content).

End with_runtime.

End App.

(** ** config.py *)

Module Config.

Definition ALLOWED_VIDEO_EXTENSIONS : gset string :=
  {[ "mp4"; "avi"; "mov"; "wmv"; "flv"; "webm" ]}.

Definition ALLOWED_PDF_EXTENSIONS : gset string := {[ "pdf" ]}.

End Config.

(** ** utils/validators.py *)

Module Validators.

(** The messages of [validate_upload].  The two format messages list the
    allowed extensions in the iteration order of a set, which Python does
    not fix; the model keeps which message it is. *)
Inductive upload_error : Type :=
| No_file_provided
| Invalid_filename
| Invalid_video_format
| Invalid_PDF_format.

(** [{'valid': True}], or [{'valid': False, 'error': ...}] *)
Inductive validation : Type :=
| Valid
| Invalid (error : upload_error).

#[global] Instance upload_error_eq_dec : EqDecision upload_error.
Proof. solve_decision. Defined.

#[global] Instance validation_eq_dec : EqDecision validation.
Proof. solve_decision. Defined.

(** [filename.rsplit('.', 1)[-1].lower() if '.' in filename else ''] *)
Definition file_extension (filename : string) : string :=
  if Str.is_infix "." filename
  then Str.lower (default "" (last (Str.rsplit1 "." filename)))
  else "".

(** [allowed_file]: [None] is the IndexError of [rsplit('.', 1)[1]]. *)
Definition allowed_file (filename file_type : string) : option bool :=
  if negb (Str.is_infix "." filename) then Some false
  else
    ext ← Str.rsplit1 "." filename !! 1;
    let ext := Str.lower ext in
    if decide (file_type = "video")
    then Some (bool_decide (ext ∈ Config.ALLOWED_VIDEO_EXTENSIONS))
    else if decide (file_type = "pdf")
         then Some (bool_decide (ext ∈ Config.ALLOWED_PDF_EXTENSIONS))
         else Some false.

Section with_secure_filename.

(** [werkzeug.utils.secure_filename] is taken as it is. *)
Variable secure_filename : string → string.

(** [validate_upload].  [file] is the name of the uploaded file, [None]
    when there is no file object; a file object is false when its name is
    empty. *)
Definition validate_upload (file : option string) (content_type : string)
  : validation :=
  match file with
  | None => Invalid No_file_provided
  | Some name =>
      if decide (name = "") then Invalid No_file_provided
      else
        let filename := secure_filename name in
        if decide (filename = "") then Invalid Invalid_filename
        else
          let file_ext := file_extension filename in
          if decide (content_type = "video")
          then if decide (file_ext ∉ Config.ALLOWED_VIDEO_EXTENSIONS)
               then Invalid Invalid_video_format
               else Valid
          else if decide (content_type = "pdf")
               then if decide (file_ext ∉ Config.ALLOWED_PDF_EXTENSIONS)
                    then Invalid Invalid_PDF_format
                    else Valid
               else Valid
  end.

End with_secure_filename.

End Validators.

(** ** app.py: the upload form *)

Module Upload.

Import Validators.

(** Where [frontend_upload] goes with the form it receives, up to the
    point where the content is processed. *)
Inductive upload_route : Type :=
| Nothing_to_upload
    (* flash 'Please select a file or enter text content' *)
| Text_upload
    (* content_type = 'text' *)
| Unsupported_file_type
    (* flash 'Unsupported file type' *)
| Refused (error : upload_error)
    (* flash validation_result['error'] *)
| File_upload (content_type : string).
    (* the file is saved and processed as a video or as a pdf *)

Definition video_suffixes : list string :=
  [".mp4"; ".avi"; ".mov"; ".mkv"; ".webm"; ".flv"; ".wmv"].

Section with_secure_filename.
Variable secure_filename : string → string.

(** [file] is the name of [request.files.get('file')] and [text_content]
    is [request.form.get('text_content')]; each is [None] when the form
    has no such field. *)
Definition frontend_upload_route (file text_content : option string)
  : upload_route :=
  let is_true (field : option string) :=
    match field with
    | Some (String _ _) => true
    | _ => false
    end in
  if negb (is_true file) && negb (is_true text_content) then Nothing_to_upload
  else if is_true text_content then Text_upload
  else
    match file with
    | Some name =>
        let filename := secure_filename name in
        let content_type :=
          if existsb (λ suffix, Str.ends_with suffix (Str.lower filename))
                     video_suffixes
          then Some "video"
          else if Str.ends_with ".pdf" (Str.lower filename)
               then Some "pdf"
               else None in
        match content_type with
        | Some content_type =>
            match validate_upload secure_filename file content_type with
            | Valid => File_upload content_type
            | Invalid error => Refused error
            end
        | None => Unsupported_file_type
        end
    | None => Nothing_to_upload
    end.

End with_secure_filename.

End Upload.

(** ** services/content_processor.py *)

Module ContentProcessor.

(** [_clean_text] *)
Definition _clean_text (text : string) : string :=
  match text with
  | EmptyString => ""
  | String _ _ =>
      let text := Str.join " " (Str.words text) in
      let text := Str.remove "000" text in
      Str.strip text
  end.

(** The dict [process_text] returns: [text] and, under [metadata],
    [word_count], [character_count] and [type]. *)
Record processed := Processed {
  processed_text : string;
  word_count : nat;
  character_count : nat;
  processed_type : string
}.

(** [process_text]: on a string nothing in its [try] block raises. *)
Definition process_text (text_content : string) : processed :=
  let cleaned_text := _clean_text text_content in
  Processed cleaned_text (length (Str.words cleaned_text))
            (String.length cleaned_text) "text".

End ContentProcessor.

(** ** services/ai_service.py: the text of an answer *)

Module AIReplies.

(** [self.model] and what it answers to a prompt, as text: no model
    without an API key, and [None] for the answer when
    [generate_content] or [response.text] raises. *)
Inductive text_model : Type :=
| No_model
| Answers (text : option string).

(** [generate_title].  The prompt holds [content[:500]]. *)
Definition generate_title (model : text_model) (content : string) : string :=
  match model with
  | No_model => "Untitled Content"
  | Answers None => "Generated Content"
  | Answers (Some text) =>
      let title := Str.remove "'" (Str.remove "034" (Str.strip text)) in
      if decide (60 < String.length title) then Str.take 60 title else title
  end.

(** [re.sub(r'```json\s*', '', s)]: every [```json] is removed with the
    white space that follows it; the search goes on after the removed
    text.  [skip] counts the characters of a fence still to be passed
    over, and [after_fence] tells that the white space is being removed. *)
Fixpoint remove_json_fences (skip : nat) (after_fence : bool) (s : string)
  : string :=
  match s with
  | EmptyString => EmptyString
  | String c s' =>
      match skip with
      | S k => remove_json_fences k true s'
      | O =>
          if after_fence && Str.is_space c
          then remove_json_fences 0 true s'
          else if Str.is_prefix "```json" s
               then remove_json_fences 6 true s'
               else String c (remove_json_fences 0 false s')
      end
  end.

Fixpoint all_space (s : string) : bool :=
  match s with
  | EmptyString => true
  | String c s' => Str.is_space c && all_space s'
  end.

(** [re.sub(r'```\s*$', '', s)]: the text is cut at the first [```] that
    only white space follows up to the end. *)
Fixpoint remove_closing_fence (s : string) : string :=
  match s with
  | EmptyString => EmptyString
  | String c s' =>
      if Str.is_prefix "```" s && all_space (Str.drop 3 s)
      then EmptyString
      else String c (remove_closing_fence s')
  end.

(** [s] up to its last [c], when it has one. *)
Fixpoint through_last (c : ascii) (s : string) : option string :=
  match s with
  | EmptyString => None
  | String a s' =>
      match through_last c s' with
      | Some t => Some (String a t)
      | None => if decide (a = c) then Some (String a EmptyString) else None
      end
  end.

(** [re.search(r'\{.*\}', s, re.DOTALL)]: the match starts at the first
    opening brace and, the star being greedy, ends at the last closing
    brace after it; there is none when no closing brace follows the
    first opening one. *)
Fixpoint search_braces (s : string) : option string :=
  match s with
  | EmptyString => None
  | String a s' =>
      if decide (a = "{"%char)
      then String a <$> through_last "}" s'
      else search_braces s'
  end.

(** [_clean_json_response] *)
Definition _clean_json_response (response_text : string) : string :=
  let response_text := remove_json_fences 0 false response_text in
  let response_text := remove_closing_fence response_text in
  let response_text := Str.strip response_text in
  match search_braces response_text with
  | Some json_match => json_match
  | None => response_text
  end.

(** [_create_fallback_structure] *)
Definition _create_fallback_structure (text_content content_type language : string)
  : pydict :=
  [("title", PyStr "Structured Content");
   ("executive_summary", PyStr (AIService.shorten 200 text_content));
   ("introduction",
      PyStr "This content has been processed and structured for better understanding.");
   ("main_sections",
      PyList [PyDict [("section_title", PyStr "Main Content");
                      ("content", PyStr text_content);
                      ("key_points",
                         PyList [PyStr "Content has been processed";
                                 PyStr "Review the material carefully"])]]);
   ("key_takeaways",
      PyList [PyStr "Important information extracted";
              PyStr "Content organized for learning"]);
   ("conclusion",
      PyStr "This material provides valuable insights for study and reference.");
   ("concepts_glossary", PyDict []);
   ("metadata",
      PyDict [("content_type", PyStr content_type);
              ("language", PyStr language);
              ("estimated_read_time",
                 PyStr (Py.str (1 `max` (length (Str.words text_content) / 200))
                        +:+ " minutes"))])].

End AIReplies.

(** * Specification *)

(** ** The properties of a graph the specification states *)

(** Link referential integrity: both ends of every link are ids of nodes
    of the same graph. *)
Definition link_integrity (g : graph) : Prop :=
  Forall (λ l, link_source l ∈ node_id <$> nodes g
               ∧ link_target l ∈ node_id <$> nodes g) (links g).

(** Root invariant: the first node is the root, with id "0" and level 0,
    and no other node has id "0". *)
Definition root_invariant (g : graph) : Prop :=
  ∃ root rest,
    nodes g = root :: rest ∧ node_id root = "0" ∧ node_level root = PyInt 0
    ∧ Forall (λ n, node_id n ≠ "0") rest.

(** ** The invariant of the three builders

    The ids of the nodes are the decimal numerals 0, 1, 2, ... in the order
    of the list, and each link joins two numerals below the number of
    nodes. *)
Definition numbered (ns : list node) : Prop :=
  node_id <$> ns = Py.str <$> seq 0 (length ns).

Definition link_below (bound : nat) (l : link) : Prop :=
  ∃ a b, a < bound ∧ b < bound
         ∧ link_source l = Py.str a ∧ link_target l = Py.str b.

Definition well_numbered (ns : list node) (ls : list link) : Prop :=
  numbered ns
  ∧ Forall (link_below (length ns)) ls
  ∧ ∃ root, head ns = Some root ∧ node_level root = PyInt 0.

(** The builders of [create_simple_graph_from_text] and of
    [generate_legacy_graph_data] keep their counter in step with the
    number of nodes ([off] is 1 for the former, whose counter is the
    index [i], and 0 for the latter). *)
Definition counted (off : nat) (st : App.builder) : Prop :=
  off + App.b_next st = length (App.b_nodes st)
  ∧ well_numbered (App.b_nodes st) (App.b_links st).

(** The conversion of [generate_graph_data] keeps [node_counter] in step
    with the number of nodes, and [node_id_map] holds ids of nodes. *)
Definition assembled (st : App.assembly) : Prop :=
  App.node_counter st = length (App.a_nodes st)
  ∧ well_numbered (App.a_nodes st) (App.a_links st)
  ∧ ∀ k i, App.node_id_map st !! k = Some i →
           ∃ a, a < length (App.a_nodes st) ∧ i = Py.str a.

(** The nodes of a hierarchy in the order the conversion meets them,
    each with the [level] of its level. *)
Definition level_entries (level_data : pyval) : list (pyval * pyval) :=
  default []
    (level_num ← Py.get level_data "level" (PyInt 1);
     level_nodes ← Py.get level_data "nodes" (PyList []);
     fmap (M := list) (pair level_num) <$> Py.iter level_nodes).

Definition hierarchy_entries (levels : list pyval) : list (pyval * pyval) :=
  levels ≫= level_entries.

(** [n] is the graph node of the hierarchy node [entry.2] of a level
    numbered [entry.1]. *)
Definition converted (entry : pyval * pyval) (n : node) : Prop :=
  ∃ counter, App.concept_node counter entry.1 entry.2 = Some n.

(** The links from the root to the nodes whose level equals 1. *)
Definition level_1_links (ns : list node) : list link :=
  (λ n, App.hierarchy_link (node_id n))
    <$> filter (λ n, Py.eq_one (node_level n) = true) ns.

(** A graph returned by one of the three builders: the conversion of a
    hierarchy, the legacy structured builder, the simple text builder. *)
Inductive built : graph → Prop :=
| built_from_hierarchy title hierarchy_data g :
    App.assemble title hierarchy_data = Some g → built g
| built_from_document title structured_data g :
    App.legacy_structured title structured_data = Some g → built g
| built_from_text text title g :
    App.create_simple_graph_from_text text title = Some g → built g.

(** The weight of a relationship, in the words of the specification:
    strong 3, medium 2, weak 1, and 2 for anything else. *)
Definition strength_value (strength : string) : Z :=
  if decide (strength = "strong") then 3
  else if decide (strength = "weak") then 1
  else 2.

(** The key under which the conversion records a hierarchy node met
    when [node_counter] is [counter]. *)
Definition declared_key (counter : nat) (node_data : pyval) : option pykey :=
  node_title ← Py.get node_data "title" (PyStr ("Node " +:+ Py.str counter));
  App.node_key node_data node_title.

(** The size of a hierarchy node, in the words of the specification:
    35 for the importance high, 28 for medium, 22 for low, and 28 for
    anything else. *)
Definition importance_size (importance : pyval) : Z :=
  match importance with
  | PyStr s =>
      if decide (s = "high") then 35
      else if decide (s = "low") then 22
      else 28
  | _ => 28
  end.

(** The colour of a hierarchy node, in the words of the specification:
    the one of its type in the type table, else the one of its level in
    the level table, else gray. *)
Definition type_color (type : pyval) : option string :=
  match type with
  | PyStr s =>
      if decide (s = "concept") then Some "#3b82f6"
      else if decide (s = "definition") then Some "#10b981"
      else if decide (s = "principle") then Some "#f59e0b"
      else if decide (s = "example") then Some "#ef4444"
      else if decide (s = "application") then Some "#8b5cf6"
      else None
  | _ => None
  end.

Definition level_color (level : pyval) : option string :=
  match Py.hashkey level with
  | Some (KInt z) =>
      if decide (z = 1)%Z then Some "#3b82f6"
      else if decide (z = 2)%Z then Some "#10b981"
      else if decide (z = 3)%Z then Some "#f59e0b"
      else if decide (z = 4)%Z then Some "#ef4444"
      else if decide (z = 5)%Z then Some "#8b5cf6"
      else None
  | _ => None
  end.

Definition color_of (type level : pyval) : string :=
  default (default "#6b7280" (level_color level)) (type_color type).

(** [n] has the level of its hierarchy level, and the type, the size and
    the colour the specification gives to the hierarchy node [entry.2]. *)
Definition styled (entry : pyval * pyval) (n : node) : Prop :=
  ∃ importance,
    Py.get entry.2 "importance" (PyStr "medium") = Some importance
    ∧ Py.get entry.2 "type" (PyStr "concept") = Some (node_type n)
    ∧ node_level n = entry.1
    ∧ node_size n = importance_size importance
    ∧ node_color n = Some (color_of (node_type n) entry.1).

(** A Hierarchy object: a dict with the five members of the contract,
    each of its kind. *)
Definition is_hierarchy (h : pydict) : Prop :=
  (∃ main_topic, Py.lookup "main_topic" h = Some (PyDict main_topic))
  ∧ (∃ levels, Py.lookup "hierarchy_levels" h = Some (PyList levels))
  ∧ (∃ rels, Py.lookup "relationships" h = Some (PyList rels))
  ∧ (∃ path, Py.lookup "learning_path" h = Some (PyList path))
  ∧ (∃ progression,
       Py.lookup "difficulty_progression" h = Some (PyDict progression)).

(** ** Inputs of the examples *)

Module Examples.

(** The double quote character *)
Definition dq : string := String "034" EmptyString.

(** The text of the JSON document whose only member, [main_sections], is
    the number 5. *)
Definition malformed_document : string :=
  "{" +:+ dq +:+ "main_sections" +:+ dq +:+ ": 5}".

(** [json.loads] on the texts of the examples: the document above parses,
    the plain texts are not JSON.  [json.dumps] and [str] of a dict are
    called on a stored dict only, which no example has. *)
Definition runtime : Runtime := {|
  json_loads s :=
    if decide (s = malformed_document)
    then JsonValue (PyDict [("main_sections", PyInt 5)])
    else JsonDecodeError;
  json_dumps _ := "";
  dict_str _ := ""
|}.

(** A record whose content is the given text. *)
Definition text_record (text : string) : content_record :=
  ContentRecord (Some (PyStr "Notes")) (Text text).

(** The model answers with a hierarchy whose nodes are plain strings
    instead of objects. *)
Definition string_nodes_hierarchy : pydict :=
  [("hierarchy_levels",
      PyList [PyDict [("level", PyInt 1);
                      ("title", PyStr "Key Concepts");
                      ("nodes", PyList [PyStr "Photosynthesis"])]])].

Definition reply_with_string_nodes : backend :=
  Model (ReplyJson (PyDict string_nodes_hierarchy)).

(** The model answers with an empty [hierarchy_levels]. *)
Definition reply_empty_hierarchy : backend :=
  Model (ReplyJson (PyDict [("hierarchy_levels", PyList [])])).

(** The well-formed hierarchy of the specification: topic
    Photosynthesis, one level with the nodes a (high) and b (low), one
    strong relationship from a to b. *)
Definition photosynthesis : pydict :=
  [("main_topic", PyDict [("title", PyStr "Photosynthesis")]);
   ("hierarchy_levels",
      PyList [PyDict [("level", PyInt 1);
                      ("title", PyStr "Key Concepts");
                      ("nodes",
                         PyList [PyDict [("id", PyStr "a");
                                         ("title", PyStr "Light reactions");
                                         ("type", PyStr "concept");
                                         ("importance", PyStr "high")];
                                 PyDict [("id", PyStr "b");
                                         ("title", PyStr "Calvin cycle");
                                         ("type", PyStr "principle");
                                         ("importance", PyStr "low")]])]]);
   ("relationships",
      PyList [PyDict [("source", PyStr "a");
                      ("target", PyStr "b");
                      ("relationship_type", PyStr "feeds");
                      ("strength", PyStr "strong")]])].

(** The state of the conversion of [photosynthesis] after its levels. *)
Definition photosynthesis_root : node :=
  Node "0" (PyStr "Photosynthesis") (PyStr "main_topic") (PyInt 0) 50
       (PyStr "Central concept") (Some "#1e3a8a") (Some (PyStr "intermediate"))
       None None None None None.

Definition photosynthesis_levels : list pyval :=
  default [] (Py.iter (Py.dict_get photosynthesis "hierarchy_levels" (PyList []))).

(** A relationship from the pre-seeded key to the node a. *)
Definition main_to_a : pydict :=
  [("source", PyStr "main"); ("target", PyStr "a");
   ("relationship_type", PyStr "introduces"); ("strength", PyStr "weak")].

(** The relationship of [photosynthesis]. *)
Definition a_to_b : pydict :=
  [("source", PyStr "a"); ("target", PyStr "b");
   ("relationship_type", PyStr "feeds"); ("strength", PyStr "strong")].

(** A paragraph of 75 characters without a full stop. *)
Definition long_paragraph : string :=
  "Photosynthesis converts light energy into chemical energy stored in glucose".

(** A sentence of 200 characters. *)
Definition sentence_200 : string := Str.join "" (replicate 20 "abcdefghij").

(** A hierarchy one of whose nodes declares the id main. *)
Definition declares_main : list pyval :=
  [PyDict [("level", PyInt 1);
           ("nodes", PyList [PyDict [("id", PyStr "main");
                                     ("title", PyStr "Overview")]])]].

(** A structured document whose [main_sections] is the number 5. *)
Definition malformed_stored_document : pydict :=
  [("title", PyStr "Notes"); ("main_sections", PyInt 5)].

(** A hierarchy with a node without id, a type outside the type table,
    a level outside the level table, and four relationships: from an
    undeclared id, between two nodes, from a node to itself, and from
    the pre-seeded key with a strength outside the table. *)
Definition with_dangling_reference : pydict :=
  [("hierarchy_levels",
      PyList [PyDict [("nodes",
                         PyList [PyDict [("title", PyStr "Alpha")];
                                 PyDict [("id", PyStr "b");
                                         ("title", PyStr "Beta");
                                         ("type", PyStr "note")]])];
              PyDict [("level", PyInt 7);
                      ("nodes",
                         PyList [PyDict [("id", PyStr "c");
                                         ("title", PyStr "Gamma");
                                         ("type", PyStr "note");
                                         ("importance", PyStr "low")]])]]);
   ("relationships",
      PyList [PyDict [("source", PyStr "ghost"); ("target", PyStr "b")];
              PyDict [("source", PyStr "alpha"); ("target", PyStr "b");
                      ("strength", PyStr "weak")];
              PyDict [("source", PyStr "b"); ("target", PyStr "b")];
              PyDict [("source", PyStr "main"); ("target", PyStr "c");
                      ("strength", PyStr "odd")]])].

(** What the examples look at in a graph. *)
Definition node_summary (g : graph) : list (string * pyval * Z * option string) :=
  (λ n, (node_id n, node_name n, node_size n, node_color n)) <$> nodes g.

Definition link_summary (g : graph) : list (string * string * Z * option pyval) :=
  (λ l, (link_source l, link_target l, link_value l, link_type l)) <$> links g.

(** A structured document with one section of two key points, a
    glossary of one entry and one takeaway. *)
Definition small_document : pyval :=
  PyDict [("title", PyStr "Cells");
          ("main_sections",
             PyList [PyDict [("section_title", PyStr "Membrane");
                             ("content", PyStr "The membrane encloses the cell");
                             ("key_points",
                                PyList [PyStr "Lipid bilayer";
                                        PyStr "Selective transport"])]]);
          ("concepts_glossary", PyDict [("osmosis", PyStr "Diffusion of water")]);
          ("key_takeaways", PyList [PyStr "Cells are the unit of life"])].

End Examples.

(** ** Further properties of the builders *)

(** The links of a rooted tree laid out in the order of its nodes: the
    link number i ends at the node number i + 1 and starts at a node
    before it. *)
Definition tree_links (ls : list link) : Prop :=
  ∀ i l, ls !! i = Some l →
         link_target l = Py.str (S i)
         ∧ ∃ a, a ≤ i ∧ link_source l = Py.str a.

(** The builders of [create_simple_graph_from_text] and of
    [generate_legacy_graph_data] append one link with each node after
    the root. *)
Definition grown (off : nat) (st : App.builder) : Prop :=
  off + App.b_next st = length (App.b_nodes st)
  ∧ length (App.b_links st) + 1 = length (App.b_nodes st)
  ∧ tree_links (App.b_links st).

(** A graph returned by one of the two builders that do not go through a
    hierarchy. *)
Inductive built_without_hierarchy : graph → Prop :=
| without_hierarchy_document title structured_data g :
    App.legacy_structured title structured_data = Some g →
    built_without_hierarchy g
| without_hierarchy_text text title g :
    App.create_simple_graph_from_text text title = Some g →
    built_without_hierarchy g.

(** The node [create_simple_graph_from_text] builds for the paragraph
    number [i]. *)
Definition paragraph_node (i : nat) (paragraph : string) : node :=
  plain_node (Py.str (i + 1))
    (PyStr (AIService.shorten 50 paragraph))
    (PyStr (if decide (i < 5) then "sub_topic" else "key_point"))
    (PyInt 1)
    (if decide (i < 5) then 25%Z else 20%Z)
    (PyStr paragraph).

(** The node number [a] has the level [z]. *)
Definition has_level (ns : list node) (a : nat) (z : Z) : Prop :=
  ∃ n, ns !! a = Some n ∧ node_level n = PyInt z.

(** The levels of the legacy builder are depths: the link number i goes
    from a node of level 0 or 1 to the node number i + 1, which is one
    level below, with the value 3 from the level 0 and 2 from the
    level 1. *)
Definition leveled (ns : list node) (ls : list link) : Prop :=
  ∀ i l, ls !! i = Some l →
         ∃ a z, (0 ≤ z ≤ 1)%Z
                ∧ link_source l = Py.str a
                ∧ has_level ns a z
                ∧ has_level ns (S i) (z + 1)
                ∧ link_value l = (3 - z)%Z.

Definition layered (st : App.builder) : Prop :=
  grown 0 st
  ∧ leveled (App.b_nodes st) (App.b_links st)
  ∧ has_level (App.b_nodes st) 0 0.

(** Every character of a string passes the test [P]. *)
Fixpoint chars_all (P : ascii → bool) (s : string) : bool :=
  match s with
  | EmptyString => true
  | String c s' => P c && chars_all P s'
  end.

(** The characters of a cleaned text: no NUL, and no white space but the
    space. *)
Definition clean_char (c : ascii) : bool :=
  negb (bool_decide (c = "000"%char))
  && (bool_decide (c = " "%char) || negb (Str.is_space c)).

Definition not_nul (c : ascii) : bool := negb (bool_decide (c = "000"%char)).

(** A string that does not begin with white space. *)
Definition starts_clean (s : string) : Prop :=
  match s with
  | EmptyString => True
  | String c _ => Str.is_space c = false
  end.

Definition no_quote (c : ascii) : bool :=
  negb (bool_decide (c = "034"%char)) && negb (bool_decide (c = "'"%char)).

Definition no_backtick (c : ascii) : bool := negb (bool_decide (c = "`"%char)).

Definition no_brace (c : ascii) : bool :=
  negb (bool_decide (c = "{"%char)) && negb (bool_decide (c = "}"%char)).

(** The relationships the specification speaks of: objects whose
    [source], [target] and [strength] are strings, the absent ones taking
    the defaults of the code. *)
Definition relationship_strings (r : pyval)
  : option (pydict * string * string * string) :=
  match r with
  | PyDict d =>
      match Py.dict_get d "source" (PyStr ""),
            Py.dict_get d "target" (PyStr ""),
            Py.dict_get d "strength" (PyStr "medium") with
      | PyStr source, PyStr target, PyStr strength =>
          Some (d, source, target, strength)
      | _, _, _ => None
      end
  | _ => None
  end.

(** The link of a relationship under the node-id mapping [m], in the
    words of the specification: none unless its source and its target
    are both keys of [m] and are bound to two different ids; then the
    link joins these ids, with the value of its strength and the
    relationship_type as its type. *)
Definition specified_link (m : gmap pykey string) (r : pyval) : option link :=
  match relationship_strings r with
  | Some (d, source, target, strength) =>
      match m !! KStr source, m !! KStr target with
      | Some source_id, Some target_id =>
          if decide (source_id = target_id) then None
          else Some (Link source_id target_id (strength_value strength)
                       (Some (Py.dict_get d "relationship_type" (PyStr "related")))
                       (Some (Py.dict_get d "description" (PyStr ""))))
      | _, _ => None
      end
  | None => None
  end.

(** * Properties *)

(** ** The string functions on sample inputs *)

Example split_full_stops :
  Str.split "." "A. B. C." = ["A"; " B"; " C"; ""].
Proof. reflexivity. Qed.

Example split_empty : Str.split "." "" = [""].
Proof. reflexivity. Qed.

(** Three line feeds hold one separator, found from the left. *)
Example split_blank_lines :
  Str.split Str.blank_line
    ("ab" +:+ Str.blank_line +:+ Str.newline +:+ "cd" +:+ Str.blank_line)
  = ["ab"; Str.newline +:+ "cd"; ""].
Proof. reflexivity. Qed.

Example strip_both_ends :
  Str.strip (Str.newline +:+ "  a b " +:+ Str.newline) = "a b".
Proof. reflexivity. Qed.

Example lower_title : Str.lower "Main Topic" = "main topic".
Proof. reflexivity. Qed.

Example str_counter : Py.str 12 = "12".
Proof. reflexivity. Qed.

Example sentences_of_short_fragments :
  AIService.sentences "A. B. C." = []
  ∧ AIService.paragraphs "A. B. C." = ["A. B. C."].
Proof. split; reflexivity. Qed.

(** ** Decimal numerals *)

Lemma pretty_N_go_length (x : N) (s : string) :
  String.length s ≤ String.length (pretty_N_go x s).
Proof.
  revert s. induction (N.lt_wf_0 x) as [x _ IH]; intros s.
  destruct (decide (x = 0)%N) as [->|Hx]; [by rewrite pretty_N_go_0|].
  rewrite pretty_N_go_step by lia.
  etrans; [|apply IH, N.div_lt; lia]. simpl; lia.
Qed.

Lemma str_nonempty (n : nat) : Py.str n ≠ "".
Proof.
  unfold Py.str, pretty, pretty_nat, pretty, pretty_N.
  case_decide; [done|].
  rewrite pretty_N_go_step by lia.
  intros Heq.
  pose proof (pretty_N_go_length (N.of_nat n `div` 10)
                (String (pretty_N_char (N.of_nat n `mod` 10)) "")) as Hlen.
  rewrite Heq in Hlen. simpl in Hlen. lia.
Qed.

Lemma str_inj (a b : nat) : Py.str a = Py.str b → a = b.
Proof. apply (inj pretty). Qed.

Lemma str_zero (n : nat) : Py.str n = "0" → n = 0.
Proof. intros Hn. by apply str_inj. Qed.

(** ** Loops *)

Section for_each.
Context {S A : Type} (body : S → A → option S).

Lemma for_each_app (xs ys : list A) (s : S) :
  Py.for_each body (xs ++ ys) s
  = Py.for_each body xs s ≫= Py.for_each body ys.
Proof.
  revert s. induction xs as [|x xs IH]; intros s; simpl; [done|].
  destruct (body s x); simpl; [apply IH|done].
Qed.

(** A property kept by every round holds after the loop. *)
Lemma for_each_invariant (P : S → Prop) (xs : list A) (s s' : S) :
  (∀ s x s', x ∈ xs → P s → body s x = Some s' → P s') →
  P s → Py.for_each body xs s = Some s' → P s'.
Proof.
  revert s. induction xs as [|x xs IH]; intros s Hstep Hs Hrun; simpl in Hrun.
  - by simplify_eq.
  - destruct (body s x) as [s1|] eqn:Hbody; simplify_eq/=.
    eapply IH; [|eapply Hstep; [|done..]|done].
    + intros ???? ; apply Hstep. by right.
    + by left.
Qed.

(** A loop whose rounds never raise, on the states a property [P]
    describes, runs to its end. *)
Lemma for_each_total (P : S → Prop) (xs : list A) (s : S) :
  (∀ s x, x ∈ xs → P s → ∃ s', body s x = Some s' ∧ P s') →
  P s → ∃ s', Py.for_each body xs s = Some s' ∧ P s'.
Proof.
  revert s. induction xs as [|x xs IH]; intros s Hstep Hs; simpl.
  - eauto.
  - destruct (Hstep s x) as (s1 & -> & Hs1); [by left|done|]. simpl.
    apply IH; [|done]. intros ????; apply Hstep; [by right|done].
Qed.

End for_each.

(** ** The numbering invariant *)

Lemma numbered_snoc (ns : list node) (n : node) :
  numbered ns → node_id n = Py.str (length ns) → numbered (ns ++ [n]).
Proof.
  unfold numbered. intros Hns Hn.
  rewrite fmap_app, length_app, seq_app, fmap_app, Hns. simpl. by rewrite Hn.
Qed.

Lemma link_below_mono (a b : nat) (l : link) :
  a ≤ b → link_below a l → link_below b l.
Proof. intros ? (x & y & ? & ? & ? & ?). exists x, y. repeat split; [lia..|done|done]. Qed.

Lemma well_numbered_snoc ns ls n new_links :
  well_numbered ns ls →
  node_id n = Py.str (length ns) →
  Forall (link_below (S (length ns))) new_links →
  well_numbered (ns ++ [n]) (ls ++ new_links).
Proof.
  intros (Hnum & Hls & root & Hroot & Hlevel) Hn Hnew.
  assert (length (ns ++ [n]) = S (length ns)) as Hlen
    by (rewrite length_app; simpl; lia).
  split; [by apply numbered_snoc|]. split.
  - rewrite Hlen. apply Forall_app. split; [|done].
    eapply Forall_impl; [done|]. intros l. apply link_below_mono. lia.
  - exists root. split; [|done]. destruct ns; simplify_eq/=. done.
Qed.

Lemma numbered_lookup (ns : list node) (a : nat) :
  numbered ns → a < length ns → Py.str a ∈ node_id <$> ns.
Proof.
  intros -> Ha. apply list_elem_of_fmap. exists a. split; [done|].
  apply elem_of_seq. lia.
Qed.

(** The invariant gives the two properties of the specification. *)
Lemma well_numbered_link_integrity (g : graph) :
  well_numbered (nodes g) (links g) → link_integrity g.
Proof.
  intros (Hnum & Hls & _). unfold link_integrity.
  eapply Forall_impl; [done|]. intros l (a & b & Ha & Hb & -> & ->).
  split; by apply numbered_lookup.
Qed.

Lemma well_numbered_root_invariant (g : graph) :
  well_numbered (nodes g) (links g) → root_invariant g.
Proof.
  intros (Hnum & _ & root & Hroot & Hlevel).
  destruct (nodes g) as [|r rest] eqn:Hnodes; simplify_eq/=.
  unfold numbered in Hnum.
  rewrite fmap_cons in Hnum. cbn [length seq] in Hnum.
  rewrite fmap_cons in Hnum. injection Hnum as Hid Hrest.
  exists root, rest. repeat split; [done..|].
  apply Forall_forall. intros n Hn Hzero.
  assert (node_id n ∈ node_id <$> rest) as Hin
    by (apply list_elem_of_fmap; eauto).
  rewrite Hrest in Hin.
  apply list_elem_of_fmap in Hin as (k & Hk & Hseq).
  apply elem_of_seq in Hseq. rewrite Hzero in Hk.
  symmetry in Hk. apply str_zero in Hk. lia.
Qed.

(** ** The simple text builder and the legacy structured builder *)

Import AIService App.

Lemma emit_counted off st n l a :
  counted off st →
  node_id n = Py.str (off + b_next st) →
  link_source l = Py.str a → a ≤ off + b_next st →
  link_target l = Py.str (off + b_next st) →
  counted off (emit n l st).
Proof.
  intros [Hnext Hwn] Hn Hsrc Ha Htgt. split; simpl.
  - rewrite length_app. simpl. lia.
  - apply well_numbered_snoc; [done|by rewrite <-Hnext|].
    apply Forall_singleton. exists a, (off + b_next st).
    rewrite <-Hnext. repeat split; [lia|lia|done|done].
Qed.

Lemma foldl_invariant {S A} (P : S → Prop) (f : S → A → S) xs s :
  (∀ s x, P s → P (f s x)) → P s → P (foldl f s xs).
Proof. intros Hstep. revert s. induction xs; simpl; auto. Qed.

Lemma create_simple_graph_from_text_numbered text title g :
  create_simple_graph_from_text text title = Some g →
  well_numbered (nodes g) (links g).
Proof.
  destruct text as [| | |text| |]; simpl; intros Hg; simplify_eq.
  simpl. apply (foldl_invariant (counted 1)).
  - intros st paragraph Hst. unfold add_paragraph.
    eapply (emit_counted 1 _ _ _ 0);
      [done|simpl; f_equal; lia|done|lia|simpl; f_equal; lia].
  - split; [done|]. repeat split; simpl; [done|by eexists].
Qed.

Lemma add_point_counted parent st point st' :
  counted 0 st ∧ parent < b_next st →
  add_point parent st point = Some st' →
  counted 0 st' ∧ parent < b_next st'.
Proof.
  intros [Hst Hparent]. unfold add_point. intros Hrun.
  destruct (Py.ellipsis 30 point) as [name|]; simplify_eq/=.
  split; [|lia].
  eapply (emit_counted 0 _ _ _ parent); [done|done|done|simpl; lia|done].
Qed.

Lemma add_points_counted parent st points st' :
  counted 0 st ∧ parent < b_next st →
  Py.for_each (add_point parent) points st = Some st' →
  counted 0 st' ∧ parent < b_next st'.
Proof.
  intros Hst.
  apply (for_each_invariant (add_point parent)
           (λ st, counted 0 st ∧ parent < b_next st)); [|done].
  intros ???? . apply add_point_counted.
Qed.

Lemma add_section_counted st_i section st_i' :
  counted 0 st_i.1 ∧ 0 < b_next st_i.1 →
  add_section st_i section = Some st_i' →
  counted 0 st_i'.1 ∧ 0 < b_next st_i'.1.
Proof.
  destruct st_i as [st i]. simpl. intros [Hst Hpos] Hrun.
  unfold add_section in Hrun.
  destruct (Py.get section "section_title" _) as [name|]; simplify_eq/=.
  destruct (Py.get section "content" _) as [c|]; simplify_eq/=.
  destruct (Py.ellipsis 200 c) as [content|]; simplify_eq/=.
  destruct (Py.get section "key_points" _) as [key_points|]; simplify_eq/=.
  destruct (if Py.truthy key_points then _ else _) as [points|];
    simplify_eq/=.
  destruct (Py.for_each _ points _) as [st1|] eqn:Hpoints; simplify_eq/=.
  apply add_points_counted in Hpoints as [Hst1 Hlt]; [split; [done|lia]|].
  split; [|simpl; lia].
  eapply (emit_counted 0 _ _ _ 0); [done|done|done|lia|done].
Qed.

Lemma add_sections_counted sd st st' :
  counted 0 st ∧ 0 < b_next st →
  add_sections sd st = Some st' →
  counted 0 st' ∧ 0 < b_next st'.
Proof.
  intros Hst. unfold add_sections.
  destruct (Py.truthy _); [|by intros; simplify_eq].
  destruct (Py.iter _) as [secs|]; simpl; [|done].
  destruct (Py.for_each _ secs _) as [st_i|] eqn:Hsecs; simpl; [|done].
  intros ?; simplify_eq.
  revert Hsecs.
  apply (for_each_invariant add_section
           (λ st_i, counted 0 st_i.1 ∧ 0 < b_next st_i.1)); [|done].
  intros ????. apply add_section_counted.
Qed.

Lemma add_glossary_counted sd st st' :
  counted 0 st ∧ 0 < b_next st →
  add_glossary sd st = Some st' →
  counted 0 st' ∧ 0 < b_next st'.
Proof.
  intros [Hst Hpos]. unfold add_glossary.
  destruct (Py.truthy _); [|by intros; simplify_eq].
  destruct (Py.items _) as [its|]; simpl; [|done].
  intros Hrun.
  cut (counted 0 st' ∧ b_next st < b_next st'); [intros []; split; [done|lia]|].
  revert Hrun.
  apply (for_each_invariant (add_concept (b_next st))
           (λ st1, counted 0 st1 ∧ b_next st < b_next st1)).
  - intros st1 [concept definition] st2 _ [Hst1 Hlt] Hrun.
    simpl in Hrun. simplify_eq. split; [|simpl; lia].
    eapply (emit_counted 0 _ _ _ (b_next st)); [done|done|done|simpl; lia|done].
  - split; [|simpl; lia].
    eapply (emit_counted 0 _ _ _ 0); [done|done|done|lia|done].
Qed.

Lemma add_takeaways_counted sd st st' :
  counted 0 st ∧ 0 < b_next st →
  add_takeaways sd st = Some st' →
  counted 0 st' ∧ 0 < b_next st'.
Proof.
  intros [Hst Hpos]. unfold add_takeaways.
  destruct (Py.truthy _); [|by intros; simplify_eq].
  destruct (Py.iter _) as [ts|]; simpl; [|done].
  intros Hrun. apply add_points_counted in Hrun as [? ?]; [split; [done|lia]|].
  split; [|simpl; lia].
  eapply (emit_counted 0 _ _ _ 0); [done|done|done|lia|done].
Qed.

Lemma legacy_structured_numbered title structured_data g :
  legacy_structured title structured_data = Some g →
  well_numbered (nodes g) (links g).
Proof.
  destruct structured_data as [| | | | |sd]; simpl; try done. intros Hrun.
  destruct (add_sections sd _) as [st1|] eqn:H1; simplify_eq/=.
  destruct (add_glossary sd st1) as [st2|] eqn:H2; simplify_eq/=.
  destruct (add_takeaways sd st2) as [st3|] eqn:H3; simplify_eq/=.
  apply add_sections_counted in H1.
  - apply (add_glossary_counted _ _ _ H1) in H2.
    apply (add_takeaways_counted _ _ _ H2) in H3. apply H3.
  - split; [|simpl; lia]. split; [done|].
    repeat split; simpl; [done|by eexists].
Qed.

(** ** The conversion of a hierarchy *)

Lemma main_node_root title hierarchy_data root :
  main_node title hierarchy_data = Some root →
  node_id root = "0" ∧ node_level root = PyInt 0 ∧ node_size root = 50%Z
  ∧ node_color root = Some "#1e3a8a".
Proof.
  unfold main_node. intros Hroot.
  destruct (Py.get _ "title" _); simplify_eq/=.
  destruct (Py.get _ "description" _); simplify_eq/=.
  destruct (Py.get _ "complexity_level" _); simplify_eq/=.
  done.
Qed.

Lemma initial_assembly_assembled root :
  node_id root = "0" → node_level root = PyInt 0 →
  assembled (initial_assembly root).
Proof.
  intros Hid Hlevel. split; [done|]. split.
  - split; [by unfold numbered; simpl; rewrite Hid|].
    split; [done|]. by exists root.
  - intros k i Hk. simpl in Hk.
    apply lookup_singleton_Some in Hk as [_ <-]. exists 0. simpl. split; [lia|done].
Qed.

Lemma concept_node_id counter level_num node_data n :
  concept_node counter level_num node_data = Some n →
  node_id n = Py.str counter.
Proof.
  unfold concept_node. intros Hn.
  repeat (match type of Hn with
          | (mbind _ ?x) = Some _ => destruct x; simplify_eq/=
          end).
  done.
Qed.

Lemma process_node_inv level_num st node_data st' :
  process_node level_num st node_data = Some st' →
  ∃ n key,
    concept_node (node_counter st) level_num node_data = Some n
    ∧ node_key node_data (node_name n) = Some key
    ∧ st' = Assembly (a_nodes st ++ [n])
              (a_links st ++ (if Py.eq_one level_num
                              then [hierarchy_link (Py.str (node_counter st))]
                              else []))
              (<[key := Py.str (node_counter st)]> (node_id_map st))
              (S (node_counter st)).
Proof.
  unfold process_node. intros Hrun.
  destruct (concept_node _ _ _) as [n|]; simplify_eq/=.
  destruct (node_key _ _) as [key|] eqn:Hkey; simplify_eq/=.
  by exists n, key.
Qed.

Lemma process_node_assembled level_num st node_data st' :
  assembled st →
  process_node level_num st node_data = Some st' →
  assembled st'.
Proof.
  intros (Hcount & Hwn & Hmap) Hrun.
  apply process_node_inv in Hrun as (n & key & Hn & _ & ->).
  apply concept_node_id in Hn.
  assert (length (a_nodes st ++ [n]) = S (length (a_nodes st))) as Hlen
    by (rewrite length_app; simpl; lia).
  split; [simpl; lia|]. split; simpl.
  - apply well_numbered_snoc; [done|by rewrite <-Hcount|].
    destruct (Py.eq_one level_num); [|done].
    apply Forall_singleton. exists 0, (node_counter st).
    repeat split; lia.
  - intros k i Hk. rewrite Hlen.
    apply lookup_insert_Some in Hk as [[_ <-]|[_ Hk]].
    + exists (node_counter st). split; [lia|done].
    + apply Hmap in Hk as (a & Ha & ->). exists a. split; [lia|done].
Qed.

Lemma process_level_assembled st level_data st' :
  assembled st →
  process_level st level_data = Some st' →
  assembled st'.
Proof.
  intros Hst. unfold process_level. intros Hrun.
  destruct (Py.get level_data "level" _) as [level_num|]; simplify_eq/=.
  destruct (Py.get level_data "nodes" _) as [level_nodes|]; simplify_eq/=.
  destruct (Py.iter level_nodes) as [nds|]; simplify_eq/=.
  revert Hrun. apply (for_each_invariant _ assembled); [|done].
  intros ???? ?. by apply process_node_assembled.
Qed.

Lemma process_levels_assembled levels st st' :
  assembled st →
  Py.for_each process_level levels st = Some st' →
  assembled st'.
Proof.
  intros Hst. apply (for_each_invariant _ assembled); [|done].
  intros ???? ?. by apply process_level_assembled.
Qed.

(** What a relationship appends, when it appends: both ends are values
    of [node_id_map]. *)
Lemma relationship_link_inv m relationship l :
  relationship_link m relationship = Some (Some l) →
  ∃ source_key target_key,
    m !! source_key = Some (link_source l)
    ∧ m !! target_key = Some (link_target l)
    ∧ link_source l ≠ link_target l.
Proof.
  unfold relationship_link. intros Hrun.
  destruct (Py.get relationship "source" _) as [source|]; simplify_eq/=.
  destruct (Py.hashkey source) as [source_key|]; simplify_eq/=.
  destruct (Py.get relationship "target" _) as [target|]; simplify_eq/=.
  destruct (Py.hashkey target) as [target_key|]; simplify_eq/=.
  destruct (m !! source_key) as [source_id|] eqn:Hs; simplify_eq/=.
  destruct (m !! target_key) as [target_id|] eqn:Ht; simplify_eq/=.
  destruct (_ && _) eqn:Hcond; simplify_eq/=.
  destruct (Py.get relationship "relationship_type" _); simplify_eq/=.
  destruct (Py.get relationship "strength" _) as [strength|]; simplify_eq/=.
  destruct (table_get _ strength _); simplify_eq/=.
  destruct (Py.get relationship "description" _); simplify_eq/=.
  exists source_key, target_key. repeat split; [done..|].
  apply andb_prop in Hcond as [_ Hne]. by apply bool_decide_eq_true in Hne.
Qed.

(** The loop over the relationships appends, in order, the links of the
    rounds that append one. *)
Lemma process_relationships_inv m rels ls ls' :
  Py.for_each (process_relationship m) rels ls = Some ls' →
  ∃ outs, mapM (relationship_link m) rels = Some outs
          ∧ ls' = ls ++ omap id outs.
Proof.
  revert ls. induction rels as [|r rels IH]; intros ls Hrun;
    cbn [Py.for_each] in Hrun.
  - simplify_eq. exists []. by rewrite app_nil_r.
  - destruct (process_relationship m ls r) as [ls1|] eqn:Hstep; [|done].
    cbn [mbind option_bind] in Hrun.
    apply IH in Hrun as (outs & Houts & ->).
    unfold process_relationship in Hstep.
    destruct (relationship_link m r) as [out|] eqn:Hr; [|done].
    cbn [mbind option_bind] in Hstep. injection Hstep as <-.
    exists (out :: outs). split.
    + unfold mapM in *. simpl. rewrite Hr. simpl. by rewrite Houts.
    + rewrite <-app_assoc. f_equal. by destruct out.
Qed.

Lemma relationship_links_below m rels outs bound :
  (∀ k i, m !! k = Some i → ∃ a, a < bound ∧ i = Py.str a) →
  mapM (relationship_link m) rels = Some outs →
  Forall (link_below bound) (omap id outs).
Proof.
  intros Hm Houts. apply mapM_Some in Houts.
  induction Houts as [|r out rels outs Hr _ IH]; simpl; [done|].
  destruct out as [l|]; simpl; [|done].
  constructor; [|done].
  apply relationship_link_inv in Hr as (ks & kt & Hs & Ht & _).
  apply Hm in Hs as (a & Ha & Hsa). apply Hm in Ht as (b & Hb & Htb).
  by exists a, b.
Qed.

(** The steps of a conversion that returns. *)
Lemma assemble_inv title hierarchy_data g :
  assemble title hierarchy_data = Some g →
  ∃ root levels st rels outs,
    main_node title hierarchy_data = Some root
    ∧ Py.iter (Py.dict_get hierarchy_data "hierarchy_levels" (PyList []))
      = Some levels
    ∧ Py.for_each process_level levels (initial_assembly root) = Some st
    ∧ Py.iter (Py.dict_get hierarchy_data "relationships" (PyList []))
      = Some rels
    ∧ mapM (relationship_link (node_id_map st)) rels = Some outs
    ∧ nodes g = a_nodes st
                ++ (if decide (length (a_nodes st) = 1) then basic_nodes else [])
    ∧ links g = a_links st ++ omap id outs
                ++ (if decide (length (a_nodes st) = 1) then basic_links else []).
Proof.
  unfold assemble. intros Hrun.
  destruct (main_node _ _) as [root|]; simplify_eq/=.
  destruct (Py.iter (Py.dict_get _ "hierarchy_levels" _)) as [levels|];
    simplify_eq/=.
  destruct (Py.for_each process_level _ _) as [st|] eqn:Hst; simplify_eq/=.
  destruct (Py.iter (Py.dict_get _ "relationships" _)) as [rels|];
    simplify_eq/=.
  destruct (Py.for_each (process_relationship _) _ _) as [ls|] eqn:Hrels;
    simplify_eq/=.
  apply process_relationships_inv in Hrels as (outs & Houts & ->).
  exists root, levels, st, rels, outs.
  destruct (decide (length (a_nodes st) = 1));
    destruct (Py.len _); simplify_eq/=;
    destruct (Py.get _ "complexity_level" _); simplify_eq/=;
    rewrite ?app_nil_r, <-?app_assoc; done.
Qed.

Lemma assemble_numbered title hierarchy_data g :
  assemble title hierarchy_data = Some g →
  well_numbered (nodes g) (links g).
Proof.
  intros (root & levels & st & rels & outs & Hroot & _ & Hst & _ & Houts
          & -> & ->)%assemble_inv.
  apply main_node_root in Hroot as (Hid & Hlevel & _).
  apply process_levels_assembled in Hst as (Hcount & Hwn & Hmap);
    [|by apply initial_assembly_assembled].
  pose proof (relationship_links_below _ _ _ _ Hmap Houts) as Hrel.
  destruct Hwn as (Hnum & Hls & r & Hr & Hrlevel).
  case_decide as Hone.
  - destruct (a_nodes st) as [|r0 [|]] eqn:Hnodes; try done.
    simpl in Hr. injection Hr as ->.
    unfold numbered in Hnum. simpl in Hnum. injection Hnum as Hr0.
    split; [|split].
    + unfold numbered. simpl. by rewrite Hr0.
    + simpl. rewrite !Forall_app. repeat split.
      * eapply Forall_impl; [done|]. intros l. apply link_below_mono. lia.
      * eapply Forall_impl; [done|]. intros l. apply link_below_mono. lia.
      * repeat constructor.
        -- exists 0, 1. repeat split; lia.
        -- exists 0, 2. repeat split; lia.
        -- exists 1, 2. repeat split; lia.
    + by exists r.
  - rewrite !app_nil_r. split; [done|]. split; [|by exists r].
    apply Forall_app. by split.
Qed.

(** ** The pipeline *)

Section pipeline.
Context `{Runtime}.

Lemma generate_legacy_graph_data_numbered content g :
  generate_legacy_graph_data content = Some g →
  well_numbered (nodes g) (links g).
Proof.
  unfold generate_legacy_graph_data, Py.try_except. intros Hrun.
  destruct (match rec_content content with Text _ => _ | Document _ => _ end)
    as [g'|] eqn:Hbody.
  - simplify_eq.
    destruct (rec_content content) as [s|d].
    + destruct (json_loads s); [| |done].
      * by eapply legacy_structured_numbered.
      * by eapply create_simple_graph_from_text_numbered.
    + by eapply legacy_structured_numbered.
  - destruct (extract_text_from_content _) as [text|]; simplify_eq/=.
    by eapply create_simple_graph_from_text_numbered.
Qed.

(** Whatever tier answers, the graph [generate_graph_data] returns is
    numbered from the root. *)
Lemma generate_graph_data_numbered model content g :
  generate_graph_data model content = Some g →
  well_numbered (nodes g) (links g).
Proof.
  unfold generate_graph_data, Py.try_except. intros Hrun.
  destruct (Py.has_key "error" _).
  - destruct (generate_legacy_graph_data content) eqn:Hlegacy;
      simplify_eq; by eapply generate_legacy_graph_data_numbered.
  - destruct (assemble _ _) eqn:Hasm.
    + simplify_eq. by eapply assemble_numbered.
    + by eapply generate_legacy_graph_data_numbered.
Qed.

(** Every graph the pipeline returns has the root invariant and link
    referential integrity. *)
Lemma generate_graph_data_sound model content g :
  generate_graph_data model content = Some g →
  root_invariant g ∧ link_integrity g.
Proof.
  intros Hg%generate_graph_data_numbered.
  split; [by apply well_numbered_root_invariant
         |by apply well_numbered_link_integrity].
Qed.


(** When [json.loads] raises another exception on the text, the legacy
    builder raises: neither its inner handler nor the one of
    [extract_text_from_content], which its outer handler calls, catches
    it.  The pipeline then returns only what the conversion returns. *)
Lemma generate_legacy_graph_data_other_error title text :
  json_loads text = JsonOtherError →
  generate_legacy_graph_data (ContentRecord title (Text text)) = None.
Proof.
  intros Hraises.
  unfold generate_legacy_graph_data, Py.try_except, extract_text_from_content.
  simpl. by rewrite Hraises.
Qed.

Lemma generate_graph_data_other_error model title text :
  json_loads text = JsonOtherError →
  generate_graph_data model (ContentRecord title (Text text))
  = let hierarchy_data :=
      generate_hierarchical_graph_structure model (Text text) in
    if Py.has_key "error" hierarchy_data then None
    else assemble title hierarchy_data.
Proof.
  intros Hraises. unfold generate_graph_data, Py.try_except. simpl.
  rewrite (generate_legacy_graph_data_other_error _ _ Hraises).
  destruct (Py.has_key "error" _); [done|]. by destruct (assemble _ _).
Qed.

End pipeline.

(** C1 (the code departs from the claim).  The claim: for every record
    whose content is a string, the pipeline returns a graph whose first
    node is the root with id 0 and level 0, the only node with that id.
    The graphs the pipeline returns are as claimed
    ([generate_graph_data_sound]), and one is returned for every text that
    [json.loads] refuses with its own error or parses to a value that is
    not an object ([generate_graph_data_returns_unless_json_object]).  But
    none is returned here: the stored text is the JSON object whose
    [main_sections] is the number 5, and the model answers with a
    hierarchy whose nodes are strings.  The conversion raises on
    [node_data.get], the legacy builder raises on iterating the number,
    and its handler raises again in [extract_text_from_content], which
    iterates the same number and catches [json.JSONDecodeError] only.  No
    handler is left and the exception leaves [generate_graph_data]. *)
Theorem generate_graph_data_raises_on_malformed_document :
  let content := Examples.text_record Examples.malformed_document in
  let model := Examples.reply_with_string_nodes in
  @json_loads Examples.runtime Examples.malformed_document
  = JsonValue (PyDict [("main_sections", PyInt 5)])
  ∧ @generate_hierarchical_graph_structure Examples.runtime model
      (rec_content content)
    = Examples.string_nodes_hierarchy
  ∧ assemble (rec_title content) Examples.string_nodes_hierarchy = None
  ∧ legacy_structured (rec_title content)
      (PyDict [("main_sections", PyInt 5)]) = None
  ∧ @extract_text_from_content Examples.runtime (rec_content content) = None
  ∧ @generate_legacy_graph_data Examples.runtime content = None
  ∧ @generate_graph_data Examples.runtime model content = None.
Proof. repeat split; vm_compute; reflexivity. Qed.

(** C2.  Link referential integrity: in every graph built by the
    conversion of a hierarchy, by the legacy structured builder or by the
    simple text builder, the source and the target of every link are ids
    of nodes of that graph. *)
Theorem built_link_integrity (g : graph) :
  built g → link_integrity g.
Proof.
  intros Hg. apply well_numbered_link_integrity.
  destruct Hg as [title hd g Hg|title sd g Hg|text title g Hg].
  - by eapply assemble_numbered.
  - by eapply legacy_structured_numbered.
  - by eapply create_simple_graph_from_text_numbered.
Qed.

Lemma built_link_integrity_witness :
  ∃ g, assemble None Examples.photosynthesis = Some g ∧ link_integrity g.
Proof.
  eexists. split; [vm_compute; reflexivity|].
  apply built_link_integrity.
  apply (built_from_hierarchy None Examples.photosynthesis).
  vm_compute. reflexivity.
Defined.

(** ** The shape of a converted hierarchy *)

Lemma concept_node_level counter level_num node_data n :
  concept_node counter level_num node_data = Some n →
  node_level n = level_num.
Proof.
  unfold concept_node. intros Hn.
  repeat (match type of Hn with
          | (mbind _ ?x) = Some _ => destruct x; simplify_eq/=
          end).
  done.
Qed.

Lemma process_nodes_shape level_num nds st st' :
  Py.for_each (process_node level_num) nds st = Some st' →
  ∃ ns, a_nodes st' = a_nodes st ++ ns
        ∧ Forall2 converted (pair level_num <$> nds) ns
        ∧ a_links st' = a_links st ++ level_1_links ns.
Proof.
  revert st. induction nds as [|nd nds IH]; intros st Hrun;
    cbn [Py.for_each] in Hrun.
  - simplify_eq. exists []. by rewrite !app_nil_r.
  - destruct (process_node level_num st nd) as [st1|] eqn:Hstep; [|done].
    cbn [mbind option_bind] in Hrun.
    apply IH in Hrun as (ns & Hnodes & Hconv & Hlinks).
    apply process_node_inv in Hstep as (n & key & Hn & _ & ->).
    simpl in *. exists (n :: ns). split; [|split].
    + by rewrite Hnodes, <-app_assoc.
    + constructor; [by exists (node_counter st)|done].
    + rewrite Hlinks, <-app_assoc. f_equal.
      unfold level_1_links. rewrite filter_cons.
      rewrite (concept_node_level _ _ _ _ Hn).
      destruct (Py.eq_one level_num); case_decide; try done.
      rewrite fmap_cons. by rewrite (concept_node_id _ _ _ _ Hn).
Qed.

Lemma process_level_shape level_data st st' :
  process_level st level_data = Some st' →
  ∃ ns, a_nodes st' = a_nodes st ++ ns
        ∧ Forall2 converted (level_entries level_data) ns
        ∧ a_links st' = a_links st ++ level_1_links ns.
Proof.
  unfold process_level, level_entries. intros Hrun.
  destruct (Py.get level_data "level" _) as [level_num|]; simplify_eq/=.
  destruct (Py.get level_data "nodes" _) as [level_nodes|]; simplify_eq/=.
  destruct (Py.iter level_nodes) as [nds|]; simplify_eq/=.
  by apply process_nodes_shape.
Qed.

Lemma level_1_links_app ns1 ns2 :
  level_1_links (ns1 ++ ns2) = level_1_links ns1 ++ level_1_links ns2.
Proof. unfold level_1_links. by rewrite filter_app, fmap_app. Qed.

(** The loop over the levels appends one graph node per hierarchy node,
    in order, and one link from the root per node of a level 1. *)
Lemma process_levels_shape levels st st' :
  Py.for_each process_level levels st = Some st' →
  ∃ ns, a_nodes st' = a_nodes st ++ ns
        ∧ Forall2 converted (hierarchy_entries levels) ns
        ∧ a_links st' = a_links st ++ level_1_links ns.
Proof.
  revert st. induction levels as [|level_data levels IH]; intros st Hrun;
    cbn [Py.for_each] in Hrun.
  - simplify_eq. exists []. by rewrite !app_nil_r.
  - destruct (process_level st level_data) as [st1|] eqn:Hstep; [|done].
    cbn [mbind option_bind] in Hrun.
    apply IH in Hrun as (ns2 & Hnodes2 & Hconv2 & Hlinks2).
    apply process_level_shape in Hstep as (ns1 & Hnodes1 & Hconv1 & Hlinks1).
    exists (ns1 ++ ns2). split; [|split].
    + by rewrite Hnodes2, Hnodes1, <-app_assoc.
    + unfold hierarchy_entries. simpl. by apply Forall2_app.
    + by rewrite Hlinks2, Hlinks1, level_1_links_app, <-app_assoc.
Qed.

(** The graph of a conversion that returns: the root, the graph nodes of
    the hierarchy nodes, and the two synthetic nodes when there is none;
    the links from the root to the level-1 nodes, the links of the
    relationships, and the three synthetic links. *)
Lemma assemble_shape title hierarchy_data g :
  assemble title hierarchy_data = Some g →
  ∃ root levels ns m rels outs,
    main_node title hierarchy_data = Some root
    ∧ Py.iter (Py.dict_get hierarchy_data "hierarchy_levels" (PyList []))
      = Some levels
    ∧ Forall2 converted (hierarchy_entries levels) ns
    ∧ Py.iter (Py.dict_get hierarchy_data "relationships" (PyList []))
      = Some rels
    ∧ mapM (relationship_link m) rels = Some outs
    ∧ nodes g = root :: ns ++ (if decide (ns = []) then basic_nodes else [])
    ∧ links g = level_1_links ns ++ omap id outs
                ++ (if decide (ns = []) then basic_links else []).
Proof.
  intros (root & levels & st & rels & outs & Hroot & Hlevels & Hst & Hrels
          & Houts & Hnodes & Hlinks)%assemble_inv.
  apply process_levels_shape in Hst as (ns & Hns & Hconv & Hls).
  simpl in Hns, Hls.
  exists root, levels, ns, (node_id_map st), rels, outs.
  repeat split; [done..| |].
  - rewrite Hnodes, Hns. simpl. destruct ns; simpl; [done|].
    by rewrite app_nil_r.
  - rewrite Hlinks, Hns, Hls. simpl. destruct ns; simpl; [done|].
    by rewrite !app_nil_r.
Qed.

(** A conversion that returns gives at least two nodes. *)
Lemma assemble_two_nodes title hierarchy_data g :
  assemble title hierarchy_data = Some g → 2 ≤ length (nodes g).
Proof.
  intros (root & levels & ns & m & rels & outs & _ & _ & _ & _ & _ & -> & _)
    %assemble_shape.
  destruct ns; simpl; lia.
Qed.

(** ** The conversion of the fallback hierarchy *)

Lemma concept_node_level_1 counter level_num i concept n :
  concept_node counter level_num (level_1_node i concept) = Some n →
  node_name n = PyStr (shorten 60 concept) ∧ node_content n = PyStr concept.
Proof.
  unfold concept_node, level_1_node. cbn. intros Hn.
  destruct (table_get level_colors level_num _); simplify_eq/=. done.
Qed.

Lemma process_node_level_1 st i concept :
  ∃ st', process_node (PyInt 1) st (level_1_node i concept) = Some st'.
Proof. unfold process_node, concept_node, node_key, level_1_node. cbn. eauto. Qed.

Lemma process_node_level_2 st i concept :
  ∃ st', process_node (PyInt 2) st (level_2_node i concept) = Some st'.
Proof. unfold process_node, concept_node, node_key, level_2_node. cbn. eauto. Qed.

Lemma process_level_dict st level_num title nds :
  process_level st (PyDict [("level", level_num); ("title", title);
                            ("nodes", PyList nds)])
  = Py.for_each (process_node level_num) nds st.
Proof. reflexivity. Qed.

Lemma process_fallback_levels main sub st :
  ∃ st', Py.for_each process_level (hierarchy_levels main sub) st = Some st'.
Proof.
  assert (∀ st, ∃ st', Py.for_each (process_node (PyInt 1))
                         (imap level_1_node main) st = Some st') as Hmain.
  { intros s.
    destruct (for_each_total (process_node (PyInt 1)) (λ _, True)
                (imap level_1_node main) s) as (s' & ? & _); [|done|eauto].
    intros s1 x (j & c & -> & _)%elem_of_lookup_imap _.
    destruct (process_node_level_1 s1 j c) as [s2 ?]. eauto. }
  assert (∀ st, ∃ st', Py.for_each (process_node (PyInt 2))
                         (imap level_2_node sub) st = Some st') as Hsub.
  { intros s.
    destruct (for_each_total (process_node (PyInt 2)) (λ _, True)
                (imap level_2_node sub) s) as (s' & ? & _); [|done|eauto].
    intros s1 x (j & c & -> & _)%elem_of_lookup_imap _.
    destruct (process_node_level_2 s1 j c) as [s2 ?]. eauto. }
  unfold hierarchy_levels.
  destruct (decide (main ≠ [])), (decide (sub ≠ [])); cbn [app Py.for_each];
    rewrite ?process_level_dict.
  - destruct (Hmain st) as [st1 ->]. cbn [mbind option_bind].
    rewrite process_level_dict.
    destruct (Hsub st1) as [st2 ->]. eauto.
  - destruct (Hmain st) as [st1 ->]. eauto.
  - destruct (Hsub st) as [st1 ->]. eauto.
  - eauto.
Qed.

Lemma relationship_link_fallback m i :
  ∃ out, relationship_link m (relationship i) = Some out.
Proof.
  unfold relationship_link, relationship. cbn.
  destruct (m !! KStr ("main_" +:+ Py.str i)) as [source_id|]; [|eauto].
  destruct (m !! KStr ("sub_" +:+ Py.str i)) as [target_id|]; [|eauto].
  destruct (_ && _); cbn; eauto.
Qed.

Lemma process_fallback_relationships m main sub ls :
  ∃ ls', Py.for_each (process_relationship m) (relationships main sub) ls
         = Some ls'.
Proof.
  destruct (for_each_total (process_relationship m) (λ _, True)
              (relationships main sub) ls) as (ls' & ? & _); [|done|eauto].
  intros ls1 r Hr _. unfold relationships in Hr.
  case_decide; [|by apply elem_of_nil in Hr].
  apply list_elem_of_fmap in Hr as (j & -> & _).
  unfold process_relationship.
  destruct (relationship_link_fallback m j) as [out ->]. cbn. eauto.
Qed.

Lemma iter_len v l : Py.iter v = Some l → is_Some (Py.len v).
Proof. destruct v; simpl; intros; simplify_eq; eauto. Qed.

(** The conversion returns as soon as its root and its two loops do. *)
Lemma assemble_returns title hierarchy_data root levels st rels ls :
  main_node title hierarchy_data = Some root →
  Py.iter (Py.dict_get hierarchy_data "hierarchy_levels" (PyList []))
  = Some levels →
  Py.for_each process_level levels (initial_assembly root) = Some st →
  Py.iter (Py.dict_get hierarchy_data "relationships" (PyList []))
  = Some rels →
  Py.for_each (process_relationship (node_id_map st)) rels (a_links st)
  = Some ls →
  is_Some (assemble title hierarchy_data).
Proof.
  intros Hroot Hlevels Hst Hrels Hls. unfold assemble.
  rewrite Hroot. cbn [mbind option_bind].
  rewrite Hlevels. cbn [mbind option_bind].
  rewrite Hst. cbn [mbind option_bind].
  rewrite Hrels. cbn [mbind option_bind].
  rewrite Hls. cbn [mbind option_bind].
  destruct (iter_len _ _ Hlevels) as [total ->].
  unfold main_node in Hroot.
  destruct (Py.get _ "title" _); simplify_eq/=.
  destruct (Py.get _ "description" _); simplify_eq/=.
  destruct (Py.get _ "complexity_level" _); simplify_eq/=.
  by destruct (decide _).
Qed.

(** The conversion never raises on a hierarchy of the fallback builder. *)
Lemma assemble_hierarchy_dict title main sub :
  is_Some (assemble title (hierarchy_dict main sub)).
Proof.
  destruct (process_fallback_levels main sub
              (initial_assembly
                 (Node (Py.str 0) (PyStr "Content Analysis") (PyStr "main_topic")
                    (PyInt 0) 50 (PyStr "Structured breakdown of the content")
                    (Some "#1e3a8a") (Some (PyStr "intermediate"))
                    None None None None None))) as [st Hst].
  destruct (process_fallback_relationships (node_id_map st) main sub
              (a_links st)) as [ls Hls].
  eapply assemble_returns; [reflexivity|reflexivity|exact Hst|reflexivity
                           |exact Hls].
Qed.

(** ** The pipeline without a model *)

Section without_model.
Context `{Runtime}.

(** Without a model the pipeline converts the fallback hierarchy of the
    text and never reaches the legacy builder. *)
Lemma generate_graph_data_without_model title text :
  generate_graph_data ModelNone (ContentRecord title (Text text))
  = assemble title (fallback_hierarchy text).
Proof.
  unfold generate_graph_data, Py.try_except.
  change (generate_hierarchical_graph_structure ModelNone
            (rec_content (ContentRecord title (Text text))))
    with (hierarchy_dict (main_concepts text) (sub_concepts text)).
  change (Py.has_key "error" (hierarchy_dict _ _)) with false.
  cbn [rec_title]. unfold fallback_hierarchy.
  by destruct (assemble_hierarchy_dict title (main_concepts text)
                 (sub_concepts text)) as [g ->].
Qed.

End without_model.

(** C3 (corrected).  The claim: without a model the returned graph has
    at least 3 nodes for every text.  It has at least 2: the two
    synthetic nodes are added only when the root is alone, and a text with
    one paragraph gives the root and one node.  As amended: without a
    model the pipeline returns, for every text, a graph with at least 2
    nodes. *)
Theorem graph_without_model_has_two_nodes `{Runtime} title text :
  ∃ g, generate_graph_data ModelNone (ContentRecord title (Text text)) = Some g
       ∧ 2 ≤ length (nodes g).
Proof.
  rewrite generate_graph_data_without_model.
  destruct (assemble_hierarchy_dict title (main_concepts text)
              (sub_concepts text)) as [g Hg].
  exists g. split; [done|]. by eapply assemble_two_nodes.
Qed.

(** C3, the counterexample: the text A. B. C. gives 2 nodes. *)
Lemma graph_without_model_three_nodes_counterexample :
  ∃ g, @generate_graph_data Examples.runtime ModelNone
         (Examples.text_record "A. B. C.") = Some g
       ∧ ¬ (3 ≤ length (nodes g)).
Proof.
  eexists. split; [vm_compute; reflexivity|]. simpl. lia.
Qed.

(** C4 (corrected).  The claim: when the model answers with an empty
    [hierarchy_levels] and the fallback builder runs on A. B. C., the
    fallback has one level-1 node and the graph has exactly 3 nodes and 3
    links.  The fallback has one level-1 node indeed, so the root is not
    alone, no synthetic node is added, and the graph has exactly 2 nodes
    and 1 link, from the root to that node. *)
Theorem empty_reply_scenario `{Runtime} title :
  sentences "A. B. C." = []
  ∧ paragraphs "A. B. C." = ["A. B. C."]
  ∧ generate_hierarchical_graph_structure Examples.reply_empty_hierarchy
      (Text "A. B. C.")
    = fallback_hierarchy "A. B. C."
  ∧ hierarchy_entries
      (default [] (Py.iter (Py.dict_get (fallback_hierarchy "A. B. C.")
                              "hierarchy_levels" (PyList []))))
    = [(PyInt 1, level_1_node 0 "A. B. C.")]
  ∧ ∃ g root n,
      generate_graph_data Examples.reply_empty_hierarchy
        (ContentRecord title (Text "A. B. C.")) = Some g
      ∧ nodes g = [root; n]
      ∧ node_name n = PyStr "A. B. C."
      ∧ links g = [hierarchy_link (node_id n)].
Proof.
  repeat split; [vm_compute; reflexivity..|].
  eexists _, _, _. split; [vm_compute; reflexivity|]. done.
Qed.

(** C4, the counterexample: in the scenario the graph has neither 3
    nodes nor 3 links. *)
Lemma empty_reply_scenario_counterexample :
  ∃ g, @generate_graph_data Examples.runtime Examples.reply_empty_hierarchy
         (Examples.text_record "A. B. C.") = Some g
       ∧ ¬ (length (nodes g) = 3 ∧ length (links g) = 3).
Proof.
  eexists. split; [vm_compute; reflexivity|]. simpl. intros [? _]. lia.
Qed.

(** ** Relationships *)

(** The values of [node_id_map] are numerals, hence true in a test. *)
Lemma node_id_map_numerals root levels st :
  Py.for_each process_level levels (initial_assembly root) = Some st →
  ∀ k i, node_id_map st !! k = Some i → ∃ a, i = Py.str a.
Proof.
  apply (for_each_invariant process_level
           (λ st, ∀ k i, node_id_map st !! k = Some i → ∃ a, i = Py.str a)).
  - intros s level_data s' _ Hs. unfold process_level. intros Hrun.
    destruct (Py.get level_data "level" _) as [level_num|]; simplify_eq/=.
    destruct (Py.get level_data "nodes" _) as [level_nodes|]; simplify_eq/=.
    destruct (Py.iter level_nodes) as [nds|]; simplify_eq/=.
    revert Hrun.
    apply (for_each_invariant (process_node level_num)
             (λ st, ∀ k i, node_id_map st !! k = Some i → ∃ a, i = Py.str a));
      [|done].
    intros s1 nd s2 _ Hs1 (n & key & _ & _ & ->)%process_node_inv k i.
    simpl. intros [[_ <-]|[_ Hk]]%lookup_insert_Some; eauto.
  - intros k i Hk. simpl in Hk.
    apply lookup_singleton_Some in Hk as [_ <-]. by exists 0.
Qed.

Lemma strength_values_lookup (strength : string) :
  default 2%Z (strength_values !! KStr strength) = strength_value strength.
Proof.
  unfold strength_values, strength_value.
  repeat (rewrite lookup_insert; case_decide; simplify_eq/=;
          [by repeat case_decide|]).
  rewrite lookup_singleton.
  repeat case_decide; by simplify_eq/=.
Qed.

(** The test [if source_id and target_id and source_id != target_id] on
    two ids of the map. *)
Lemma relationship_link_resolved m (d : pydict) (source target strength : string)
    (source_id target_id : string) :
  Py.dict_get d "source" (PyStr "") = PyStr source →
  Py.dict_get d "target" (PyStr "") = PyStr target →
  Py.dict_get d "strength" (PyStr "medium") = PyStr strength →
  m !! KStr source = Some source_id →
  m !! KStr target = Some target_id →
  source_id ≠ "" → target_id ≠ "" →
  relationship_link m (PyDict d)
  = Some (if decide (source_id = target_id) then None
          else Some (Link source_id target_id (strength_value strength)
                       (Some (Py.dict_get d "relationship_type" (PyStr "related")))
                       (Some (Py.dict_get d "description" (PyStr ""))))).
Proof.
  intros Hsource Htarget Hstrength Hs Ht Hs0 Ht0.
  unfold relationship_link. cbn [Py.get mbind option_bind].
  rewrite Hsource, Htarget. cbn [Py.hashkey mbind option_bind].
  rewrite Hs, Ht, Hstrength.
  destruct source_id as [|c1 s1]; [done|].
  destruct target_id as [|c2 s2]; [done|].
  cbn [Py.truthy andb].
  case_bool_decide; case_decide; try done.
  unfold table_get. cbn [Py.hashkey mbind option_bind].
  by rewrite strength_values_lookup.
Qed.

Lemma relationship_link_unresolved m (d : pydict) (source target : string) :
  Py.dict_get d "source" (PyStr "") = PyStr source →
  Py.dict_get d "target" (PyStr "") = PyStr target →
  m !! KStr source = None ∨ m !! KStr target = None →
  relationship_link m (PyDict d) = Some None.
Proof.
  intros Hsource Htarget Hnone.
  unfold relationship_link. cbn [Py.get mbind option_bind].
  rewrite Hsource, Htarget. cbn [Py.hashkey mbind option_bind].
  destruct Hnone as [-> | ->]; [done|]. by destruct (m !! KStr source).
Qed.

Lemma relationship_strings_inv r d source target strength :
  relationship_strings r = Some (d, source, target, strength) →
  r = PyDict d
  ∧ Py.dict_get d "source" (PyStr "") = PyStr source
  ∧ Py.dict_get d "target" (PyStr "") = PyStr target
  ∧ Py.dict_get d "strength" (PyStr "medium") = PyStr strength.
Proof.
  unfold relationship_strings. intros Hr.
  destruct r as [| | | | |d']; try done.
  destruct (Py.dict_get d' "source" _) as [| | |s| |] eqn:Hs; try done.
  destruct (Py.dict_get d' "target" _) as [| | |t| |] eqn:Ht; try done.
  destruct (Py.dict_get d' "strength" _) as [| | |w| |] eqn:Hw; try done.
  by simplify_eq.
Qed.

(** One round of the loop over the relationships does what the
    specification says, and never raises on a relationship of strings. *)
Lemma relationship_link_specified root levels st r :
  Py.for_each process_level levels (initial_assembly root) = Some st →
  is_Some (relationship_strings r) →
  relationship_link (node_id_map st) r
  = Some (specified_link (node_id_map st) r).
Proof.
  intros Hst [[[[d source] target] strength] Hr].
  pose proof (node_id_map_numerals _ _ _ Hst) as Hnum.
  unfold specified_link. rewrite Hr.
  apply relationship_strings_inv in Hr as (-> & Hsource & Htarget & Hstrength).
  destruct (node_id_map st !! KStr source) as [source_id|] eqn:Hs;
    [destruct (node_id_map st !! KStr target) as [target_id|] eqn:Ht|].
  - destruct (Hnum _ _ Hs) as [a ->]. destruct (Hnum _ _ Ht) as [b ->].
    eapply relationship_link_resolved; eauto using str_nonempty.
  - eapply relationship_link_unresolved; eauto.
  - eapply relationship_link_unresolved; eauto.
Qed.

Lemma process_relationships_specified root levels st rels ls :
  Py.for_each process_level levels (initial_assembly root) = Some st →
  Forall (λ r, is_Some (relationship_strings r)) rels →
  Py.for_each (process_relationship (node_id_map st)) rels ls
  = Some (ls ++ omap (specified_link (node_id_map st)) rels).
Proof.
  intros Hst Hrels. revert ls.
  induction Hrels as [|r rels Hr _ IH]; intros ls; cbn [Py.for_each].
  - by rewrite app_nil_r.
  - assert (process_relationship (node_id_map st) ls r
            = Some (ls ++ option_list (specified_link (node_id_map st) r)))
      as -> by (unfold process_relationship;
                by rewrite (relationship_link_specified _ _ _ _ Hst Hr)).
    cbn [mbind option_bind]. rewrite IH, <-app_assoc. do 2 f_equal.
    unfold omap. simpl. by destruct (specified_link _ r).
Qed.

(** The conversion of a hierarchy whose relationships are of strings:
    once the root and the levels are processed it returns, and its links
    are the ones the levels gave, then the links of the relationships,
    then the synthetic ones when the root is alone. *)
Lemma assemble_specified_links title hierarchy_data root levels st rels :
  main_node title hierarchy_data = Some root →
  Py.iter (Py.dict_get hierarchy_data "hierarchy_levels" (PyList []))
  = Some levels →
  Py.for_each process_level levels (initial_assembly root) = Some st →
  Py.iter (Py.dict_get hierarchy_data "relationships" (PyList [])) = Some rels →
  Forall (λ r, is_Some (relationship_strings r)) rels →
  ∃ g, assemble title hierarchy_data = Some g
       ∧ links g
         = a_links st
           ++ omap (specified_link (node_id_map st)) rels
           ++ (if decide (length (a_nodes st) = 1) then basic_links else []).
Proof.
  intros Hroot Hlevels Hst Hrels Hstrings.
  pose proof (process_relationships_specified _ _ _ _ (a_links st) Hst Hstrings)
    as Hloop.
  destruct (assemble_returns _ _ _ _ _ _ _ Hroot Hlevels Hst Hrels Hloop)
    as [g Hg].
  exists g. split; [done|].
  apply assemble_inv in Hg
    as (root' & levels' & st' & rels' & outs & Hroot' & Hlevels' & Hst' & Hrels'
        & Houts & _ & Hlinks).
  rewrite Hroot in Hroot'. injection Hroot' as <-.
  rewrite Hlevels in Hlevels'. injection Hlevels' as <-.
  rewrite Hst in Hst'. injection Hst' as <-.
  rewrite Hrels in Hrels'. injection Hrels' as <-.
  rewrite Hlinks. do 2 f_equal.
  clear -Hst Hstrings Houts. revert outs Houts.
  induction Hstrings as [|r rels Hr _ IH]; intros outs Houts.
  - by injection Houts as <-.
  - cbn [mapM] in Houts.
    rewrite (relationship_link_specified _ _ _ _ Hst Hr) in Houts.
    cbn [mbind option_bind] in Houts.
    destruct (mapM _ rels) as [outs'|] eqn:Hrest; [|done].
    cbn [mbind option_bind mret option_ret] in Houts. injection Houts as <-.
    unfold omap in *. simpl. rewrite (IH outs' eq_refl). done.
Qed.

(** C5.  In the conversion of a hierarchy whose relationships have
    strings as source, target and strength, once the root and the levels
    are processed the conversion returns a graph, no relationship raising
    an exception; after the links the levels gave, and before the
    synthetic ones, the links of the graph are, in the order of the
    relationships, one link for each relationship whose source and target
    are both keys of the node-id mapping bound to two different ids, and
    none for the others.  That link joins these two ids, its value is 3
    for strong, 2 for medium, 1 for weak and 2 otherwise, and its type is
    the relationship_type.  A relationship with an unbound end or with
    equal ends gives no link. *)
Theorem assemble_links_iff_resolved title hierarchy_data root levels st rels :
  main_node title hierarchy_data = Some root →
  Py.iter (Py.dict_get hierarchy_data "hierarchy_levels" (PyList []))
  = Some levels →
  Py.for_each process_level levels (initial_assembly root) = Some st →
  Py.iter (Py.dict_get hierarchy_data "relationships" (PyList [])) = Some rels →
  Forall (λ r, is_Some (relationship_strings r)) rels →
  ∃ g,
    assemble title hierarchy_data = Some g
    ∧ links g
      = a_links st
        ++ omap (specified_link (node_id_map st)) rels
        ++ (if decide (length (a_nodes st) = 1) then basic_links else [])
    ∧ ∀ r d source target strength,
        r ∈ rels →
        relationship_strings r = Some (d, source, target, strength) →
        (∀ l, specified_link (node_id_map st) r = Some l ↔
              ∃ source_id target_id,
                node_id_map st !! KStr source = Some source_id
                ∧ node_id_map st !! KStr target = Some target_id
                ∧ source_id ≠ target_id
                ∧ l = Link source_id target_id (strength_value strength)
                        (Some (Py.dict_get d "relationship_type" (PyStr "related")))
                        (Some (Py.dict_get d "description" (PyStr ""))))
        ∧ (node_id_map st !! KStr source = None
           ∨ node_id_map st !! KStr target = None
           ∨ source = target →
           specified_link (node_id_map st) r = None).
Proof.
  intros Hroot Hlevels Hst Hrels Hstrings.
  destruct (assemble_specified_links _ _ _ _ _ _ Hroot Hlevels Hst Hrels
              Hstrings) as (g & Hg & Hlinks).
  exists g. split; [done|]. split; [done|].
  intros r d source target strength _ Hr.
  unfold specified_link. rewrite Hr.
  destruct (node_id_map st !! KStr source) as [source_id|] eqn:Hs;
    [destruct (node_id_map st !! KStr target) as [target_id|] eqn:Ht|].
  - split.
    + intros l. destruct (decide (source_id = target_id)) as [Heq|Hne]; split.
      * done.
      * intros (? & ? & ? & ? & Hne & _). by simplify_eq.
      * intros ?. simplify_eq. eauto 10.
      * intros (? & ? & ? & ? & _ & ->). by simplify_eq.
    + intros [?|[?|Heq]]; [done..|]. subst target.
      rewrite Hs in Ht. simplify_eq. by rewrite decide_True.
  - split; [|done]. intros l. split; [done|]. by intros (? & ? & ? & ? & _).
  - split; [|done]. intros l. split; [done|]. by intros (? & ? & ? & _).
Qed.

Lemma assemble_links_iff_resolved_witness :
  ∃ g, assemble None Examples.with_dangling_reference = Some g
       ∧ Examples.link_summary g
         = [("0", "1", 3%Z, Some (PyStr "hierarchy"));
            ("0", "2", 3%Z, Some (PyStr "hierarchy"));
            ("1", "2", 1%Z, Some (PyStr "related"));
            ("0", "3", 2%Z, Some (PyStr "related"))].
Proof.
  destruct (main_node None Examples.with_dangling_reference)
    as [root|] eqn:Hroot; [|by vm_compute in Hroot].
  destruct (Py.iter (Py.dict_get Examples.with_dangling_reference
                       "hierarchy_levels" (PyList [])))
    as [levels|] eqn:Hlevels; [|by vm_compute in Hlevels].
  destruct (Py.for_each process_level levels (initial_assembly root))
    as [st|] eqn:Hst;
    [|vm_compute in Hroot, Hlevels; simplify_eq; by vm_compute in Hst].
  destruct (Py.iter (Py.dict_get Examples.with_dangling_reference
                       "relationships" (PyList [])))
    as [rels|] eqn:Hrels; [|by vm_compute in Hrels].
  assert (Forall (λ r, is_Some (relationship_strings r)) rels) as Hstrings.
  { vm_compute in Hrels. injection Hrels as <-.
    repeat constructor; by eexists. }
  destruct (assemble_links_iff_resolved None Examples.with_dangling_reference
              root levels st rels Hroot Hlevels Hst Hrels Hstrings)
    as (g & Hg & Hlinks & _).
  exists g. split; [done|].
  unfold Examples.link_summary. rewrite Hlinks.
  vm_compute in Hroot, Hlevels, Hrels. simplify_eq.
  vm_compute in Hst. injection Hst as <-. by vm_compute.
Defined.

(** The scenario of the well-formed hierarchy. *)
Example photosynthesis_graph :
  ∃ g, assemble None Examples.photosynthesis = Some g
       ∧ Examples.node_summary g
         = [("0", PyStr "Photosynthesis", 50%Z, Some "#1e3a8a");
            ("1", PyStr "Light reactions", 35%Z, Some "#3b82f6");
            ("2", PyStr "Calvin cycle", 22%Z, Some "#f59e0b")]
       ∧ Examples.link_summary g
         = [("0", "1", 3%Z, Some (PyStr "hierarchy"));
            ("0", "2", 3%Z, Some (PyStr "hierarchy"));
            ("1", "2", 3%Z, Some (PyStr "feeds"))].
Proof. eexists. repeat split; vm_compute; reflexivity. Qed.

(** The scenario of the dangling reference: the relationship from the
    undeclared id and the one from a node to itself leave no link; the
    node without id is reached by its lowercased title. *)
Example dangling_reference_dropped :
  ∃ g, assemble (Some (PyStr "Title")) Examples.with_dangling_reference = Some g
       ∧ Examples.node_summary g
         = [("0", PyStr "Title", 50%Z, Some "#1e3a8a");
            ("1", PyStr "Alpha", 28%Z, Some "#3b82f6");
            ("2", PyStr "Beta", 28%Z, Some "#3b82f6");
            ("3", PyStr "Gamma", 22%Z, Some "#6b7280")]
       ∧ Examples.link_summary g
         = [("0", "1", 3%Z, Some (PyStr "hierarchy"));
            ("0", "2", 3%Z, Some (PyStr "hierarchy"));
            ("1", "2", 1%Z, Some (PyStr "related"));
            ("0", "3", 2%Z, Some (PyStr "related"))].
Proof. eexists. repeat split; vm_compute; reflexivity. Qed.

(** ** The pre-seeded key *)

Lemma concept_node_name counter level_num node_data n :
  concept_node counter level_num node_data = Some n →
  Py.get node_data "title" (PyStr ("Node " +:+ Py.str counter))
  = Some (node_name n).
Proof.
  unfold concept_node. intros Hn.
  destruct (Py.get node_data "title" _) as [node_title|]; simplify_eq/=.
  repeat (match type of Hn with
          | (mbind _ ?x) = Some _ => destruct x; simplify_eq/=
          end).
  done.
Qed.

(** A round of the inner loop binds the declared key of its node. *)
Lemma process_node_declared level_num st node_data st' :
  process_node level_num st node_data = Some st' →
  ∃ key, declared_key (node_counter st) node_data = Some key
         ∧ node_id_map st'
           = <[key := Py.str (node_counter st)]> (node_id_map st).
Proof.
  intros (n & key & Hn & Hkey & ->)%process_node_inv.
  exists key. split; [|done].
  unfold declared_key. rewrite (concept_node_name _ _ _ _ Hn). done.
Qed.

Lemma level_entries_elem level_data level_num level_nodes nds nd :
  Py.get level_data "level" (PyInt 1) = Some level_num →
  Py.get level_data "nodes" (PyList []) = Some level_nodes →
  Py.iter level_nodes = Some nds →
  nd ∈ nds →
  (level_num, nd) ∈ level_entries level_data.
Proof.
  intros Hlevel Hnodes Hnds Hnd. unfold level_entries.
  rewrite Hlevel. cbn [mbind option_bind]. rewrite Hnodes.
  cbn [mbind option_bind]. rewrite Hnds. simpl.
  apply list_elem_of_fmap. eauto.
Qed.

(** A key no hierarchy node declares keeps its binding. *)
Lemma undeclared_key_kept key root levels st :
  (∀ entry counter, entry ∈ hierarchy_entries levels →
                    declared_key counter entry.2 ≠ Some key) →
  Py.for_each process_level levels (initial_assembly root) = Some st →
  node_id_map st !! key = node_id_map (initial_assembly root) !! key.
Proof.
  intros Hundeclared.
  apply (for_each_invariant process_level
           (λ st, node_id_map st !! key
                  = node_id_map (initial_assembly root) !! key)); [|done].
  intros s level_data s' Hlevel_data Hs. unfold process_level. intros Hrun.
  destruct (Py.get level_data "level" _) as [level_num|] eqn:Hlevel;
    simplify_eq/=.
  destruct (Py.get level_data "nodes" _) as [level_nodes|] eqn:Hnodes;
    simplify_eq/=.
  destruct (Py.iter level_nodes) as [nds|] eqn:Hnds; simplify_eq/=.
  revert Hrun.
  apply (for_each_invariant (process_node level_num)
           (λ st, node_id_map st !! key
                  = node_id_map (initial_assembly root) !! key)); [|done].
  intros s1 nd s2 Hnd Hs1 (key' & Hkey' & Hmap)%process_node_declared.
  rewrite Hmap, lookup_insert_ne; [done|].
  intros ->.
  apply (Hundeclared (level_num, nd) (node_counter s1)); [|done].
  apply list_elem_of_bind. exists level_data. split; [|done].
  by eapply level_entries_elem.
Qed.

(** C10.  The node-id mapping starts with the key main bound to the root
    id 0.  When no hierarchy node declares the key main (by its id, or by
    its lowercased title when it has no id), the key is still bound to 0
    after the levels are processed; the conversion of a hierarchy whose
    relationships have strings as source, target and strength then
    returns a graph, and for every relationship from or to main whose
    other end is bound to another id the graph has a link that starts or
    ends at the root, joins it to that id and has the value of the
    strength. *)
Theorem main_key_resolves_to_root title hierarchy_data root levels st rels :
  main_node title hierarchy_data = Some root →
  Py.iter (Py.dict_get hierarchy_data "hierarchy_levels" (PyList []))
  = Some levels →
  Py.for_each process_level levels (initial_assembly root) = Some st →
  Py.iter (Py.dict_get hierarchy_data "relationships" (PyList [])) = Some rels →
  Forall (λ r, is_Some (relationship_strings r)) rels →
  (∀ entry counter, entry ∈ hierarchy_entries levels →
                    declared_key counter entry.2 ≠ Some (KStr "main")) →
  node_id_map (initial_assembly root) = {[ KStr "main" := "0" ]}
  ∧ node_id_map st !! KStr "main" = Some "0"
  ∧ ∃ g,
      assemble title hierarchy_data = Some g
      ∧ ∀ r d source target strength other_id,
          r ∈ rels →
          relationship_strings r = Some (d, source, target, strength) →
          other_id ≠ "0" →
          (source = "main" →
           node_id_map st !! KStr target = Some other_id →
           ∃ l, l ∈ links g
                ∧ link_source l = "0" ∧ link_target l = other_id
                ∧ link_value l = strength_value strength)
          ∧ (target = "main" →
             node_id_map st !! KStr source = Some other_id →
             ∃ l, l ∈ links g
                  ∧ link_source l = other_id ∧ link_target l = "0"
                  ∧ link_value l = strength_value strength).
Proof.
  intros Hroot Hlevels Hst Hrels Hstrings Hundeclared.
  pose proof (undeclared_key_kept _ _ _ _ Hundeclared Hst) as Hmain.
  simpl in Hmain. rewrite lookup_singleton_eq in Hmain.
  split; [done|]. split; [done|].
  destruct (assemble_specified_links _ _ _ _ _ _ Hroot Hlevels Hst Hrels
              Hstrings) as (g & Hg & Hlinks).
  exists g. split; [done|].
  intros r d source target strength other_id Hr Hfields Hne.
  assert (∀ l, specified_link (node_id_map st) r = Some l → l ∈ links g)
    as Hin.
  { intros l Hl. rewrite Hlinks.
    apply elem_of_app. right. apply elem_of_app. left.
    apply list_elem_of_omap. eauto. }
  split; intros -> Hother.
  - eexists. split.
    + apply Hin. unfold specified_link. rewrite Hfields, Hmain, Hother.
      by rewrite decide_False by (by intros <-).
    + done.
  - eexists. split.
    + apply Hin. unfold specified_link. rewrite Hfields, Hmain, Hother.
      by rewrite decide_False by done.
    + done.
Qed.

(** A node that declares the id main takes the key over. *)
Example main_key_rebound :
  ∃ st, Py.for_each process_level Examples.declares_main
          (initial_assembly Examples.photosynthesis_root) = Some st
        ∧ node_id_map st !! KStr "main" = Some "1".
Proof. eexists. split; vm_compute; reflexivity. Qed.

Lemma main_key_resolves_to_root_witness :
  ∃ g l, assemble None Examples.with_dangling_reference = Some g
         ∧ l ∈ links g
         ∧ link_source l = "0" ∧ link_target l = "3"
         ∧ link_value l = 2%Z.
Proof.
  destruct (main_node None Examples.with_dangling_reference)
    as [root|] eqn:Hroot; [|by vm_compute in Hroot].
  destruct (Py.iter (Py.dict_get Examples.with_dangling_reference
                       "hierarchy_levels" (PyList [])))
    as [levels|] eqn:Hlevels; [|by vm_compute in Hlevels].
  destruct (Py.for_each process_level levels (initial_assembly root))
    as [st|] eqn:Hst;
    [|vm_compute in Hroot, Hlevels; simplify_eq; by vm_compute in Hst].
  destruct (Py.iter (Py.dict_get Examples.with_dangling_reference
                       "relationships" (PyList [])))
    as [rels|] eqn:Hrels; [|by vm_compute in Hrels].
  assert (Forall (λ r, is_Some (relationship_strings r)) rels) as Hstrings.
  { vm_compute in Hrels. injection Hrels as <-.
    repeat constructor; by eexists. }
  assert (∀ entry counter,
            entry ∈ hierarchy_entries levels →
            declared_key counter entry.2 ≠ Some (KStr "main")) as Hundeclared.
  { intros entry counter Hentry.
    vm_compute in Hlevels. injection Hlevels as <-.
    vm_compute in Hentry.
    repeat (apply elem_of_cons in Hentry as [->|Hentry]; [by vm_compute|]).
    by apply elem_of_nil in Hentry. }
  destruct (main_key_resolves_to_root None Examples.with_dangling_reference
              root levels st rels Hroot Hlevels Hst Hrels Hstrings Hundeclared)
    as (_ & _ & g & Hg & Hlinks).
  assert (node_id_map st !! KStr "c" = Some "3") as Hc.
  { vm_compute in Hroot, Hlevels. simplify_eq.
    vm_compute in Hst. injection Hst as <-. by vm_compute. }
  destruct (Hlinks (PyDict [("source", PyStr "main"); ("target", PyStr "c");
                            ("strength", PyStr "odd")])
              [("source", PyStr "main"); ("target", PyStr "c");
               ("strength", PyStr "odd")]
              "main" "c" "odd" "3") as [Hfrom _].
  - vm_compute in Hrels. injection Hrels as <-. do 3 right. by left.
  - reflexivity.
  - done.
  - destruct (Hfrom eq_refl Hc) as (l & Hl & Hsource & Htarget & Hvalue).
    by exists g, l.
Defined.

(** ** Sizes and colours *)

Ltac table_lookup :=
  repeat (rewrite lookup_insert || rewrite lookup_singleton);
  repeat case_decide; by simplify_eq/=.

Lemma size_map_lookup importance size :
  table_get size_map importance 28%Z = Some size →
  size = importance_size importance.
Proof.
  unfold table_get. intros Hsize.
  destruct (Py.hashkey importance) as [k|] eqn:Hk; simplify_eq/=.
  unfold size_map, importance_size.
  destruct importance; simplify_eq/=; table_lookup.
Qed.

Lemma level_colors_lookup level color :
  table_get level_colors level "#6b7280" = Some color →
  color = default "#6b7280" (level_color level).
Proof.
  unfold table_get, level_color. intros Hcolor.
  destruct (Py.hashkey level) as [k|] eqn:Hk; simplify_eq/=.
  unfold level_colors. destruct k; table_lookup.
Qed.

Lemma type_colors_lookup type level_color color :
  table_get type_colors type level_color = Some color →
  color = default level_color (type_color type).
Proof.
  unfold table_get. intros Hcolor.
  destruct (Py.hashkey type) as [k|] eqn:Hk; simplify_eq/=.
  unfold type_colors, type_color.
  destruct type; simplify_eq/=; table_lookup.
Qed.

Lemma concept_node_styled entry n :
  converted entry n → styled entry n.
Proof.
  destruct entry as [level_num node_data]. intros [counter Hn].
  unfold concept_node in Hn. simpl in *.
  destruct (Py.get node_data "title" _) as [node_title|]; simplify_eq/=.
  destruct (Py.get node_data "importance" _) as [importance|] eqn:Himp;
    simplify_eq/=.
  destruct (table_get size_map _ _) as [size|] eqn:Hsize; simplify_eq/=.
  destruct (Py.get node_data "type" _) as [type|] eqn:Htype; simplify_eq/=.
  destruct (table_get level_colors _ _) as [lc|] eqn:Hlc; simplify_eq/=.
  destruct (table_get type_colors _ _) as [color|] eqn:Hcolor; simplify_eq/=.
  repeat (match type of Hn with
          | (mbind _ ?x) = Some _ => destruct x; simplify_eq/=
          end).
  exists importance. repeat split; simpl; [done|done| |].
  - by apply size_map_lookup.
  - f_equal. unfold color_of.
    rewrite (type_colors_lookup _ _ _ Hcolor).
    by rewrite (level_colors_lookup _ _ Hlc).
Qed.

(** C6.  In the graph converted from a hierarchy the first node is the
    root, with id 0, level 0, size 50 and colour #1e3a8a; it is followed
    by one node per hierarchy node, in order, whose size is 35, 28 or 22
    for the importance high, medium or low and 28 otherwise, and whose
    colour is the one of its type in the type table, else the one of its
    level in the level table, else #6b7280; the links start with one
    link from the root, of value 3 and type hierarchy, for each of these
    nodes whose level equals 1, and for no other: the links after them
    come from the relationships and from the synthetic nodes. *)
Theorem converted_hierarchy_styled title hierarchy_data g :
  assemble title hierarchy_data = Some g →
  ∃ root levels ns m rels outs,
    Py.iter (Py.dict_get hierarchy_data "hierarchy_levels" (PyList []))
    = Some levels
    ∧ nodes g = root :: ns ++ (if decide (ns = []) then basic_nodes else [])
    ∧ node_id root = "0" ∧ node_level root = PyInt 0
    ∧ node_size root = 50%Z ∧ node_color root = Some "#1e3a8a"
    ∧ Forall2 styled (hierarchy_entries levels) ns
    ∧ Py.iter (Py.dict_get hierarchy_data "relationships" (PyList []))
      = Some rels
    ∧ mapM (relationship_link m) rels = Some outs
    ∧ links g
      = ((λ n, Link "0" (node_id n) 3 (Some (PyStr "hierarchy")) None)
           <$> filter (λ n, Py.eq_one (node_level n) = true) ns)
        ++ omap id outs
        ++ (if decide (ns = []) then basic_links else []).
Proof.
  intros (root & levels & ns & m & rels & outs & Hroot & Hlevels & Hconv
          & Hrels & Houts & Hnodes & Hlinks)%assemble_shape.
  apply main_node_root in Hroot as (? & ? & ? & ?).
  exists root, levels, ns, m, rels, outs.
  repeat split; try done.
  eapply Forall2_impl; [done|]. apply concept_node_styled.
Qed.

Lemma converted_hierarchy_styled_witness :
  ∃ g root a b,
    assemble None Examples.photosynthesis = Some g
    ∧ nodes g = [root; a; b]
    ∧ node_size a = 35%Z ∧ node_size b = 22%Z.
Proof.
  destruct (assemble None Examples.photosynthesis) as [g|] eqn:Hg;
    [|by vm_compute in Hg].
  destruct (converted_hierarchy_styled None Examples.photosynthesis g Hg)
    as (root & levels & ns & _ & _ & _ & _ & Hnodes & _).
  vm_compute in Hg. injection Hg as <-.
  by eexists _, _, _, _.
Defined.

(** ** The fallback hierarchy *)

Lemma length_app_string (a b : string) :
  String.length (a +:+ b) = String.length a + String.length b.
Proof.
  induction a as [|c a IH]; [done|].
  change (String c a +:+ b) with (String c (a +:+ b)). simpl. by rewrite IH.
Qed.

Lemma length_take_string (n : nat) (s : string) :
  String.length (Str.take n s) = n `min` String.length s.
Proof.
  revert s. induction n as [|n IH]; intros [|c s]; simpl; [done..|].
  by rewrite IH.
Qed.

Lemma level_entries_dict level_num title nds :
  level_entries (PyDict [("level", level_num); ("title", title);
                         ("nodes", PyList nds)])
  = pair level_num <$> nds.
Proof. reflexivity. Qed.

(** The nodes of a fallback hierarchy: those of the main concepts at
    level 1, then those of the sub concepts at level 2. *)
Lemma fallback_entries main sub :
  hierarchy_entries (hierarchy_levels main sub)
  = (pair (PyInt 1) <$> imap level_1_node main)
    ++ (pair (PyInt 2) <$> imap level_2_node sub).
Proof.
  unfold hierarchy_levels, hierarchy_entries.
  destruct main as [|c main], sub as [|c' sub];
    repeat case_decide; try done; cbn [app mbind list_bind];
    rewrite ?level_entries_dict, ?app_nil_r; done.
Qed.

(** C7.  A level-1 node of the fallback hierarchy built from a concept
    of more than 60 characters has the id main_i of its index i, the
    first 60 characters of the concept followed by three dots as its
    title, which has 63 characters, the whole concept as its description,
    the type concept, and the importance high when i is below 2 and medium
    otherwise; in the graph returned without a model, the node at
    position i + 1 has that title as its name and the whole concept as
    its content. *)
Theorem fallback_title_truncated `{Runtime} title text i concept :
  main_concepts text !! i = Some concept →
  60 < String.length concept →
  let h := level_1_node i concept in
  let short := Str.take 60 concept +:+ "..." in
  hierarchy_entries (hierarchy_levels (main_concepts text) (sub_concepts text))
    !! i = Some (PyInt 1, h)
  ∧ Py.subscript h "id" = Some (PyStr ("main_" +:+ Py.str i))
  ∧ Py.subscript h "title" = Some (PyStr short)
  ∧ String.length short = 63
  ∧ Py.subscript h "description" = Some (PyStr concept)
  ∧ Py.subscript h "type" = Some (PyStr "concept")
  ∧ Py.subscript h "importance"
    = Some (PyStr (if decide (i < 2) then "high" else "medium"))
  ∧ ∃ g n,
      generate_graph_data ModelNone (ContentRecord title (Text text)) = Some g
      ∧ nodes g !! S i = Some n
      ∧ node_name n = PyStr short
      ∧ node_content n = PyStr concept.
Proof.
  intros Hconcept Hlong h short.
  assert (shorten 60 concept = short) as Hshort
    by (unfold shorten; by rewrite decide_True).
  assert (hierarchy_entries
            (hierarchy_levels (main_concepts text) (sub_concepts text))
            !! i = Some (PyInt 1, h)) as Hentry.
  { rewrite fallback_entries, lookup_app_l.
    - by rewrite list_lookup_fmap, list_lookup_imap, Hconcept.
    - rewrite length_fmap, length_imap. by eapply lookup_lt_Some. }
  split; [done|].
  split; [done|].
  split; [by unfold h, level_1_node; cbn; rewrite Hshort|].
  split.
  { unfold short.
    rewrite length_app_string, length_take_string, Nat.min_l by lia. done. }
  do 3 (split; [done|]).
  rewrite generate_graph_data_without_model.
  destruct (assemble_hierarchy_dict title (main_concepts text)
              (sub_concepts text)) as [g Hg].
  exists g. unfold fallback_hierarchy. rewrite Hg.
  apply assemble_shape in Hg
    as (root & levels & ns & m & rels & outs & _ & Hlevels & Hconv & _ & _
        & Hnodes & _).
  cbn in Hlevels. injection Hlevels as <-.
  destruct (Forall2_lookup_l _ _ _ _ _ Hconv Hentry) as (n & Hn & [k Hk]).
  apply concept_node_level_1 in Hk as [Hname Hcontent].
  exists n. rewrite Hnodes. cbn [lookup list_lookup].
  split; [done|].
  split; [by apply lookup_app_l_Some|].
  by rewrite Hname, Hcontent, Hshort.
Qed.

Lemma fallback_title_truncated_witness :
  ∃ g n,
    @generate_graph_data Examples.runtime ModelNone
      (Examples.text_record Examples.long_paragraph) = Some g
    ∧ nodes g !! 1 = Some n
    ∧ node_content n = PyStr Examples.long_paragraph.
Proof.
  assert (main_concepts Examples.long_paragraph !! 0
          = Some Examples.long_paragraph) as Hconcept by (vm_compute; reflexivity).
  assert (60 < String.length Examples.long_paragraph) as Hlong
    by (simpl; lia).
  destruct (@fallback_title_truncated Examples.runtime (Some (PyStr "Notes"))
              Examples.long_paragraph 0 Examples.long_paragraph
              Hconcept Hlong)
    as (_ & _ & _ & _ & _ & _ & _ & g & n & Hg & Hn & _ & Hcontent).
  by exists g, n.
Defined.

Lemma relationships_range main sub :
  relationships main sub
  = relationship <$> seq 0 (length main `min` length sub).
Proof.
  unfold relationships, hierarchy_levels.
  destruct main as [|c main], sub as [|c' sub];
    repeat case_decide; simpl in *; try done; lia.
Qed.


Lemma hierarchy_dict_is_hierarchy main sub :
  is_hierarchy (hierarchy_dict main sub).
Proof. unfold is_hierarchy. cbn. eauto 10. Qed.

(** On a text the [try] block of the fallback builder never raises. *)
Lemma fallback_try_text text :
  fallback_try (Text text) = Some (fallback_hierarchy text).
Proof. reflexivity. Qed.

(** On a stored document it can: [main_sections] may be a number. *)
Example fallback_try_raises :
  fallback_try (Document Examples.malformed_stored_document) = None
  ∧ _create_enhanced_fallback_hierarchy
      (Document Examples.malformed_stored_document) = minimal_hierarchy.
Proof. split; reflexivity. Qed.

(** C9.  The fallback hierarchy builder returns a Hierarchy object for
    every input, a text or a structured document: the one its [try]
    block builds when the block does not raise, and otherwise the
    hard-coded minimal hierarchy, which has exactly one level with
    exactly one node, of id main_topic, type concept and importance high,
    and no relationship. *)
Theorem fallback_builder_total content :
  is_hierarchy (_create_enhanced_fallback_hierarchy content)
  ∧ match fallback_try content with
    | Some built => _create_enhanced_fallback_hierarchy content = built
    | None => _create_enhanced_fallback_hierarchy content = minimal_hierarchy
    end
  ∧ ∃ level node,
      Py.lookup "hierarchy_levels" minimal_hierarchy = Some (PyList [level])
      ∧ Py.subscript level "nodes" = Some (PyList [node])
      ∧ Py.subscript node "id" = Some (PyStr "main_topic")
      ∧ Py.subscript node "type" = Some (PyStr "concept")
      ∧ Py.subscript node "importance" = Some (PyStr "high")
      ∧ Py.lookup "relationships" minimal_hierarchy = Some (PyList []).
Proof.
  split; [|split].
  - unfold _create_enhanced_fallback_hierarchy, fallback_try.
    destruct content as [text|d]; cbn [mbind option_bind].
    + apply hierarchy_dict_is_hierarchy.
    + destruct (_extract_from_structured_content d); cbn [mbind option_bind].
      * apply hierarchy_dict_is_hierarchy.
      * unfold is_hierarchy. cbn. eauto 10.
  - unfold _create_enhanced_fallback_hierarchy.
    by destruct (fallback_try content).
  - eexists _, _. repeat split; reflexivity.
Qed.

(** The truncation scenario: a sentence of 200 characters gives a name
    of 63 characters and keeps its 200 characters as content. *)
Example truncation_of_200_characters :
  String.length Examples.sentence_200 = 200
  ∧ ∃ g n name,
      @generate_graph_data Examples.runtime ModelNone
        (Examples.text_record Examples.sentence_200) = Some g
      ∧ nodes g !! 1 = Some n
      ∧ node_name n = PyStr name
      ∧ String.length name = 63
      ∧ name = Str.take 60 Examples.sentence_200 +:+ "..."
      ∧ node_content n = PyStr Examples.sentence_200.
Proof.
  split; [reflexivity|].
  eexists _, _, _. repeat split; vm_compute; reflexivity.
Qed.

(** * Further properties *)

(** ** The graphs built without a hierarchy are trees *)

Lemma tree_links_snoc ls l a :
  tree_links ls →
  link_target l = Py.str (S (length ls)) →
  link_source l = Py.str a → a ≤ length ls →
  tree_links (ls ++ [l]).
Proof.
  intros Hls Htarget Hsource Ha i l' Hl'.
  destruct (decide (i < length ls)) as [Hi|Hi].
  - rewrite lookup_app_l in Hl' by done. by apply Hls.
  - rewrite lookup_app_r in Hl' by lia.
    destruct (i - length ls) as [|k] eqn:Hk; simplify_eq/=.
    assert (i = length ls) as -> by lia. eauto.
Qed.

Lemma emit_grown off st n l a :
  grown off st →
  link_source l = Py.str a → a < off + b_next st →
  link_target l = Py.str (off + b_next st) →
  grown off (emit n l st).
Proof.
  intros (Hnext & Hcount & Htree) Hsource Ha Htarget.
  split; [|split]; simpl.
  - rewrite length_app. simpl. lia.
  - rewrite !length_app. simpl. lia.
  - apply (tree_links_snoc _ _ a); [done| |done|lia].
    rewrite Htarget. f_equal. lia.
Qed.

Lemma create_simple_graph_from_text_grown text title g :
  create_simple_graph_from_text text title = Some g →
  length (links g) + 1 = length (nodes g) ∧ tree_links (links g).
Proof.
  destruct text as [| | |text| |]; simpl; intros Hg; simplify_eq.
  simpl. apply (foldl_invariant (grown 1)).
  - intros st paragraph Hst. unfold add_paragraph.
    eapply (emit_grown 1 _ _ _ 0);
      [done|done|lia|simpl; f_equal; lia].
  - split; [done|]. split; [done|]. intros i l Hl. done.
Qed.

Lemma add_points_grown parent st points st' :
  grown 0 st ∧ parent < b_next st →
  Py.for_each (add_point parent) points st = Some st' →
  grown 0 st' ∧ parent < b_next st'.
Proof.
  intros Hst.
  apply (for_each_invariant (add_point parent)
           (λ st, grown 0 st ∧ parent < b_next st)); [|done].
  intros s point s' _ [Hs Hparent]. unfold add_point. intros Hrun.
  destruct (Py.ellipsis 30 point) as [name|]; simplify_eq/=.
  split; [|lia].
  eapply (emit_grown 0 _ _ _ parent); [done|done|simpl; lia|done].
Qed.

Lemma add_sections_grown sd st st' :
  grown 0 st ∧ 0 < b_next st →
  add_sections sd st = Some st' →
  grown 0 st' ∧ 0 < b_next st'.
Proof.
  intros Hst. unfold add_sections.
  destruct (Py.truthy _); [|by intros; simplify_eq].
  destruct (Py.iter _) as [secs|]; simpl; [|done].
  destruct (Py.for_each _ secs _) as [st_i|] eqn:Hsecs; simpl; [|done].
  intros ?; simplify_eq.
  revert Hsecs.
  apply (for_each_invariant add_section
           (λ st_i, grown 0 st_i.1 ∧ 0 < b_next st_i.1)); [|done].
  intros [s i] section [s' i'] _ [Hs Hpos] Hrun. simpl in *.
  unfold add_section in Hrun.
  destruct (Py.get section "section_title" _) as [name|]; simplify_eq/=.
  destruct (Py.get section "content" _) as [c|]; simplify_eq/=.
  destruct (Py.ellipsis 200 c) as [content|]; simplify_eq/=.
  destruct (Py.get section "key_points" _) as [key_points|]; simplify_eq/=.
  destruct (if Py.truthy key_points then _ else _) as [points|];
    simplify_eq/=.
  destruct (Py.for_each _ points _) as [s1|] eqn:Hpoints; simplify_eq/=.
  apply add_points_grown in Hpoints as [Hs1 Hlt]; [split; [done|lia]|].
  split; [|simpl; lia].
  eapply (emit_grown 0 _ _ _ 0); [done|done|simpl; lia|done].
Qed.

Lemma add_glossary_grown sd st st' :
  grown 0 st ∧ 0 < b_next st →
  add_glossary sd st = Some st' →
  grown 0 st' ∧ 0 < b_next st'.
Proof.
  intros [Hst Hpos]. unfold add_glossary.
  destruct (Py.truthy _); [|by intros; simplify_eq].
  destruct (Py.items _) as [its|]; simpl; [|done].
  intros Hrun.
  cut (grown 0 st' ∧ b_next st < b_next st'); [intros []; split; [done|lia]|].
  revert Hrun.
  apply (for_each_invariant (add_concept (b_next st))
           (λ st1, grown 0 st1 ∧ b_next st < b_next st1)).
  - intros st1 [concept definition] st2 _ [Hst1 Hlt] Hrun.
    simpl in Hrun. simplify_eq. split; [|simpl; lia].
    eapply (emit_grown 0 _ _ _ (b_next st)); [done|done|simpl; lia|done].
  - split; [|simpl; lia].
    eapply (emit_grown 0 _ _ _ 0); [done|done|simpl; lia|done].
Qed.

Lemma add_takeaways_grown sd st st' :
  grown 0 st ∧ 0 < b_next st →
  add_takeaways sd st = Some st' →
  grown 0 st' ∧ 0 < b_next st'.
Proof.
  intros [Hst Hpos]. unfold add_takeaways.
  destruct (Py.truthy _); [|by intros; simplify_eq].
  destruct (Py.iter _) as [ts|]; simpl; [|done].
  intros Hrun. apply add_points_grown in Hrun as [? ?]; [split; [done|lia]|].
  split; [|simpl; lia].
  eapply (emit_grown 0 _ _ _ 0); [done|done|simpl; lia|done].
Qed.

Lemma legacy_structured_grown title structured_data g :
  legacy_structured title structured_data = Some g →
  length (links g) + 1 = length (nodes g) ∧ tree_links (links g).
Proof.
  destruct structured_data as [| | | | |sd]; simpl; try done. intros Hrun.
  destruct (add_sections sd _) as [st1|] eqn:H1; simplify_eq/=.
  destruct (add_glossary sd st1) as [st2|] eqn:H2; simplify_eq/=.
  destruct (add_takeaways sd st2) as [st3|] eqn:H3; simplify_eq/=.
  apply add_sections_grown in H1.
  - apply (add_glossary_grown _ _ _ H1) in H2.
    apply (add_takeaways_grown _ _ _ H2) in H3. apply H3.
  - split; [|simpl; lia]. split; [done|]. split; [done|].
    intros i l Hl. done.
Qed.

(** X1.  A graph of the legacy structured builder or of the simple text
    builder is a rooted tree laid out in the order of its nodes: the
    nodes are numbered from 0, there is one link less than nodes, and the
    link number i ends at the node i + 1 and starts at an earlier node,
    so that every node but the root has exactly one parent, built before
    it. *)
Theorem graphs_without_hierarchy_are_trees (g : graph) :
  built_without_hierarchy g →
  numbered (nodes g)
  ∧ length (links g) + 1 = length (nodes g)
  ∧ tree_links (links g).
Proof.
  intros [title sd g' Hg|text title g' Hg].
  - split; [by apply legacy_structured_numbered in Hg as [? _]|].
    by eapply legacy_structured_grown.
  - split; [by apply create_simple_graph_from_text_numbered in Hg as [? _]|].
    by eapply create_simple_graph_from_text_grown.
Qed.

Lemma graphs_without_hierarchy_are_trees_witness :
  ∃ g, legacy_structured None Examples.small_document = Some g
       ∧ length (links g) + 1 = length (nodes g).
Proof.
  destruct (legacy_structured None Examples.small_document) as [g|] eqn:Hg;
    [|by vm_compute in Hg].
  exists g. split; [done|].
  apply (graphs_without_hierarchy_are_trees g).
  by apply (without_hierarchy_document None Examples.small_document).
Defined.

(** ** No link joins a node to itself *)

Lemma tree_links_no_self_loop ls :
  tree_links ls → Forall (λ l, link_source l ≠ link_target l) ls.
Proof.
  intros Htree. apply Forall_lookup. intros i l Hl.
  destruct (Htree i l Hl) as (-> & a & Ha & ->).
  intros Heq%str_inj. lia.
Qed.

Lemma relationship_links_no_self_loop m rels outs :
  mapM (relationship_link m) rels = Some outs →
  Forall (λ l, link_source l ≠ link_target l) (omap id outs).
Proof.
  intros Houts%mapM_Some.
  induction Houts as [|r out rels outs Hr _ IH]; simpl; [done|].
  destruct out as [l|]; simpl; [|done].
  constructor; [|done].
  by apply relationship_link_inv in Hr as (_ & _ & _ & _ & ?).
Qed.

(** X2.  No graph of the three builders has a link from a node to
    itself: the links from the root end at later nodes, the links of the
    relationships are kept only between two different ids, and the
    legacy links go from a parent to a node built after it. *)
Theorem built_no_self_loop (g : graph) :
  built g → Forall (λ l, link_source l ≠ link_target l) (links g).
Proof.
  intros [title hd g' Hg|title sd g' Hg|text title g' Hg].
  - pose proof (well_numbered_root_invariant _ (assemble_numbered _ _ _ Hg))
      as (root' & rest & Hnodes & _ & _ & Hrest).
    apply assemble_shape in Hg
      as (root & levels & ns & m & rels & outs & _ & _ & _ & _ & Houts
          & Hnodes' & ->).
    rewrite Hnodes' in Hnodes. injection Hnodes as _ <-.
    apply Forall_app in Hrest as [Hns _].
    rewrite !Forall_app. split; [|split].
    + unfold level_1_links. apply Forall_fmap, Forall_forall.
      intros n [_ Hn]%list_elem_of_filter. simpl.
      rewrite Forall_forall in Hns. intros Heq. by apply (Hns n).
    + by eapply relationship_links_no_self_loop.
    + case_decide; [|done]. by repeat constructor.
  - apply tree_links_no_self_loop. by eapply legacy_structured_grown.
  - apply tree_links_no_self_loop.
    by eapply create_simple_graph_from_text_grown.
Qed.

Lemma built_no_self_loop_witness :
  ∃ g, assemble None Examples.with_dangling_reference = Some g
       ∧ Forall (λ l, link_source l ≠ link_target l) (links g).
Proof.
  destruct (assemble None Examples.with_dangling_reference) as [g|] eqn:Hg;
    [|by vm_compute in Hg].
  exists g. split; [done|].
  apply built_no_self_loop.
  by apply (built_from_hierarchy None Examples.with_dangling_reference).
Defined.

(** ** The simple text builder *)

Lemma add_paragraphs_nodes ps st :
  b_nodes (foldl add_paragraph st ps)
  = b_nodes st ++ imap (λ i, paragraph_node (b_next st + i)) ps
  ∧ b_links (foldl add_paragraph st ps)
    = b_links st
      ++ imap (λ i _, plain_link "0" (Py.str (b_next st + i + 1)) 2) ps.
Proof.
  revert st. induction ps as [|p ps IH]; intros st; simpl.
  - by rewrite !app_nil_r.
  - destruct (IH (add_paragraph st p)) as [-> ->]. simpl.
    rewrite <-!app_assoc. simpl. rewrite Nat.add_0_r.
    split; do 2 f_equal; apply imap_ext; intros i x _; simpl.
    + f_equal. lia.
    + do 2 f_equal. lia.
Qed.

(** X3.  On every string the simple text builder returns a star: the
    root, with the title as its name and at most the first 200
    characters of the text as its content, then one node for each of the
    first 10 paragraphs, numbered from 1 and holding the whole paragraph,
    the first five as sub_topic of size 25 and the others as key_point of
    size 20, each joined to the root by a link of value 2. *)
Theorem create_simple_graph_from_text_star (text : string) (title : pyval) :
  let ps := take 10 (paragraphs text) in
  create_simple_graph_from_text (PyStr text) title
  = Some (Graph
            (plain_node "0" title (PyStr "main_topic") (PyInt 0) 40
                        (PyStr (shorten 200 text))
             :: imap paragraph_node ps)
            (imap (λ i _, plain_link "0" (Py.str (i + 1)) 2) ps)
            None None None)
  ∧ length ps ≤ 10
  ∧ String.length (shorten 200 text) ≤ 203.
Proof.
  intros ps. split; [|split].
  - unfold create_simple_graph_from_text. fold ps.
    destruct (add_paragraphs_nodes ps
                (Builder [plain_node "0" title (PyStr "main_topic") (PyInt 0) 40
                                     (PyStr (shorten 200 text))] [] 0))
      as [-> ->].
    done.
  - unfold ps. rewrite length_take. lia.
  - unfold shorten. case_decide; [|lia].
    rewrite length_app_string, length_take_string, Nat.min_l by lia. done.
Qed.

(** ** The size of a converted hierarchy *)

Lemma chars_length s : length (Str.chars s) = String.length s.
Proof. induction s as [|c s IH]; simpl; [done|]. by rewrite IH. Qed.

Lemma iter_length v l n :
  Py.iter v = Some l → Py.len v = Some n → n = length l.
Proof.
  destruct v; simpl; intros; simplify_eq; [|done|];
    by rewrite length_fmap, ?chars_length.
Qed.

(** A loop over levels that hold no node changes nothing. *)
Lemma process_levels_no_entries levels st st' :
  Py.for_each process_level levels st = Some st' →
  hierarchy_entries levels = [] →
  st' = st.
Proof.
  revert st. induction levels as [|level_data levels IH]; intros st Hrun Hnone;
    cbn [Py.for_each] in Hrun; [by simplify_eq|].
  unfold hierarchy_entries in Hnone. cbn [mbind list_bind] in Hnone.
  apply app_eq_nil in Hnone as [Hlevel Hlevels].
  destruct (process_level st level_data) as [st1|] eqn:Hstep; [|done].
  cbn [mbind option_bind] in Hrun. apply IH in Hrun; [|done]. subst st'.
  unfold process_level in Hstep. unfold level_entries in Hlevel.
  destruct (Py.get level_data "level" _) as [level_num|]; simplify_eq/=.
  destruct (Py.get level_data "nodes" _) as [level_nodes|]; simplify_eq/=.
  destruct (Py.iter level_nodes) as [nds|]; simplify_eq/=.
  apply fmap_nil_inv in Hlevel. subst nds. by simplify_eq/=.
Qed.

(** With the root alone in the mapping no relationship gives a link:
    its two ends can only be the root. *)
Lemma relationship_links_of_root rels outs :
  mapM (relationship_link {[ KStr "main" := "0" ]}) rels = Some outs →
  omap id outs = [].
Proof.
  intros Houts%mapM_Some.
  induction Houts as [|r out rels outs Hr _ IH]; simpl; [done|].
  destruct out as [l|]; simpl; [|done].
  apply relationship_link_inv in Hr as (sk & tk & Hs & Ht & Hne).
  apply lookup_singleton_Some in Hs as [_ Hs].
  apply lookup_singleton_Some in Ht as [_ Ht]. congruence.
Qed.

Lemma relationship_links_length m rels outs :
  mapM (relationship_link m) rels = Some outs →
  length (omap id outs) ≤ length rels.
Proof.
  intros Houts%mapM_Some.
  induction Houts as [|r out rels outs _ _ IH]; [done|].
  unfold omap in *. destruct out; simpl; lia.
Qed.

Lemma assemble_metadata title hierarchy_data g :
  assemble title hierarchy_data = Some g →
  ∃ levels md,
    Py.iter (Py.dict_get hierarchy_data "hierarchy_levels" (PyList []))
    = Some levels
    ∧ graph_metadata g = Some md
    ∧ total_levels md = length levels
    ∧ total_concepts md = length (nodes g).
Proof.
  unfold assemble. intros Hrun.
  destruct (main_node _ _) as [root|]; simplify_eq/=.
  destruct (Py.iter (Py.dict_get _ "hierarchy_levels" _)) as [levels|] eqn:Hlevels;
    simplify_eq/=.
  destruct (Py.for_each process_level _ _) as [st|]; simplify_eq/=.
  destruct (Py.iter (Py.dict_get _ "relationships" _)) as [rels|];
    simplify_eq/=.
  destruct (Py.for_each (process_relationship _) _ _) as [ls|]; simplify_eq/=.
  destruct (decide (length (a_nodes st) = 1));
    destruct (Py.len _) as [total|] eqn:Htotal; simplify_eq/=;
    destruct (Py.get _ "complexity_level" _) as [c|]; simplify_eq/=;
    pose proof (iter_length _ _ _ Hlevels Htotal) as ->;
    eexists _, _; eauto.
Qed.

(** X4.  A conversion that returns gives one graph node for each node
    of the hierarchy, after the root, and at most one link for each node
    of a level 1 and each relationship; when the hierarchy has no node at
    all, the graph is the root with the two synthetic nodes and the three
    synthetic links, whatever the relationships are.  The metadata count
    the levels of the hierarchy, empty ones too, and the nodes of the
    graph, the root and the synthetic ones included. *)
Theorem assemble_size title hierarchy_data g :
  assemble title hierarchy_data = Some g →
  ∃ root levels rels md,
    main_node title hierarchy_data = Some root
    ∧ Py.iter (Py.dict_get hierarchy_data "hierarchy_levels" (PyList []))
      = Some levels
    ∧ Py.iter (Py.dict_get hierarchy_data "relationships" (PyList []))
      = Some rels
    ∧ (if decide (hierarchy_entries levels = [])
       then nodes g = root :: basic_nodes ∧ links g = basic_links
       else length (nodes g) = 1 + length (hierarchy_entries levels)
            ∧ length (links g)
              ≤ length (filter (λ e, Py.eq_one e.1 = true)
                               (hierarchy_entries levels))
                + length rels)
    ∧ graph_metadata g = Some md
    ∧ total_levels md = length levels
    ∧ total_concepts md = length (nodes g).
Proof.
  intros Hg.
  destruct (assemble_metadata _ _ _ Hg) as (levels' & md & Hlevels' & Hmd & Htl & Htc).
  apply assemble_inv in Hg
    as (root & levels & st & rels & outs & Hroot & Hlevels & Hst & Hrels
        & Houts & Hnodes & Hlinks).
  rewrite Hlevels in Hlevels'. injection Hlevels' as <-.
  exists root, levels, rels, md.
  do 3 (split; [done|]). split; [|done].
  destruct (decide (hierarchy_entries levels = [])) as [Hentries|Hentries].
  - apply process_levels_no_entries in Hst; [|done]. subst st.
    simpl in *. rewrite Hnodes, Hlinks.
    by rewrite (relationship_links_of_root _ _ Houts).
  - apply process_levels_shape in Hst as (ns & Hns & Hconv & Hls).
    simpl in Hns, Hls.
    pose proof (Forall2_length _ _ _ Hconv) as Hlen.
    assert (ns ≠ []) as Hne by (intros ->; by destruct (hierarchy_entries levels)).
    assert (length (a_nodes st) ≠ 1) as Hlen1
      by (rewrite Hns; destruct ns; simpl; [done|lia]).
    rewrite Hnodes, Hlinks, !decide_False, !app_nil_r, Hns, Hls by done.
    simpl. split; [lia|].
    rewrite length_app.
    pose proof (relationship_links_length _ _ _ Houts).
    enough (length (level_1_links ns)
            = length (filter (λ e, Py.eq_one e.1 = true) (hierarchy_entries levels)))
      by lia.
    unfold level_1_links. rewrite length_fmap.
    clear -Hconv. induction Hconv as [|e n es ns [k Hk] _ IH]; [done|].
    rewrite !filter_cons, (concept_node_level _ _ _ _ Hk).
    case_decide; simpl; by rewrite IH.
Qed.

Lemma assemble_size_witness :
  ∃ g md, assemble None Examples.with_dangling_reference = Some g
          ∧ graph_metadata g = Some md
          ∧ total_concepts md = length (nodes g).
Proof.
  destruct (assemble None Examples.with_dangling_reference) as [g|] eqn:Hg;
    [|by vm_compute in Hg].
  destruct (assemble_size None Examples.with_dangling_reference g Hg)
    as (_ & _ & _ & md & _ & _ & _ & _ & Hmd & _ & Hcount).
  by exists g, md.
Defined.

(** ** The fallback hierarchy and its graph *)

Lemma append_inj (p a b : string) : p +:+ a = p +:+ b → a = b.
Proof. induction p as [|c p IH]; simpl; [done|]. intros [=]. auto. Qed.

Lemma prefixed_id_inj (p : string) (i j : nat) :
  p +:+ Py.str i = p +:+ Py.str j → i = j.
Proof. by intros ?%append_inj%str_inj. Qed.

(** The sizes of the two lists of concepts: at most 4 main concepts,
    and either no sub concept or 4 of each. *)
Lemma concepts_sizes text :
  length (main_concepts text) ≤ 4
  ∧ (sub_concepts text = []
     ∨ length (main_concepts text) = 4 ∧ length (sub_concepts text) = 4).
Proof.
  unfold main_concepts, sub_concepts.
  repeat case_decide; rewrite ?length_take, ?length_drop; try lia;
    split; try lia; by left.
Qed.

Section keyed_nodes.
Variable level_num : pyval.
Variable mk : nat → string → pyval.
Variable p : string.
Hypothesis process_mk : ∀ st i c,
  ∃ n, process_node level_num st (mk i c)
       = Some (Assembly (a_nodes st ++ [n])
                 (a_links st
                  ++ (if Py.eq_one level_num
                      then [hierarchy_link (Py.str (node_counter st))]
                      else []))
                 (<[KStr (p +:+ Py.str i) := Py.str (node_counter st)]>
                    (node_id_map st))
                 (S (node_counter st))).

(** The loop over the nodes [mk off c0, mk (off + 1) c1, ...] of a
    level: the node number [j] gets the next counter and its id as key. *)
Lemma process_keyed_nodes cs off st :
  ∃ st',
    Py.for_each (process_node level_num) (imap (λ i, mk (off + i)) cs) st
    = Some st'
    ∧ node_counter st' = node_counter st + length cs
    ∧ length (a_nodes st') = length (a_nodes st) + length cs
    ∧ a_links st'
      = a_links st
        ++ (if Py.eq_one level_num
            then (λ i, hierarchy_link (Py.str (node_counter st + i)))
                   <$> seq 0 (length cs)
            else [])
    ∧ (∀ j, j < length cs →
            node_id_map st' !! KStr (p +:+ Py.str (off + j))
            = Some (Py.str (node_counter st + j)))
    ∧ (∀ k, (∀ j, j < length cs → k ≠ KStr (p +:+ Py.str (off + j))) →
            node_id_map st' !! k = node_id_map st !! k).
Proof.
  revert off st. induction cs as [|c cs IH]; intros off st.
  - exists st. simpl. rewrite !Nat.add_0_r.
    repeat split; [|intros; lia].
    destruct (Py.eq_one level_num); by rewrite app_nil_r.
  - cbn [imap Py.for_each]. rewrite Nat.add_0_r.
    destruct (process_mk st off c) as [n ->]. cbn [mbind option_bind].
    rewrite (imap_ext _ (λ i, mk (S off + i)))
      by (intros; simpl; f_equal; lia).
    destruct (IH (S off)
                (Assembly (a_nodes st ++ [n])
                   (a_links st
                    ++ (if Py.eq_one level_num
                        then [hierarchy_link (Py.str (node_counter st))]
                        else []))
                   (<[KStr (p +:+ Py.str off) := Py.str (node_counter st)]>
                      (node_id_map st))
                   (S (node_counter st))))
      as (st' & -> & Hcounter & Hnodes & Hlinks & Hkeys & Hothers).
    cbn [node_counter a_nodes a_links node_id_map] in *.
    exists st'. split; [done|]. split; [simpl; lia|].
    split; [rewrite Hnodes, length_app; simpl; lia|].
    split; [|split].
    + rewrite Hlinks, <-app_assoc. f_equal.
      destruct (Py.eq_one level_num); [|done].
      cbn [length seq fmap list_fmap app]. rewrite Nat.add_0_r. f_equal.
      rewrite <-fmap_S_seq, <-list_fmap_compose.
      apply list_fmap_ext. intros _ i _. simpl. do 2 f_equal. lia.
    + intros [|j] Hj.
      * rewrite Hothers, Nat.add_0_r, lookup_insert_eq; [by rewrite Nat.add_0_r|].
        intros j' _ [= Heq%prefixed_id_inj]. lia.
      * replace (off + S j) with (S off + j) by lia.
        rewrite Hkeys by (simpl in Hj; lia). f_equal. f_equal. lia.
    + intros k Hk. rewrite Hothers.
      * rewrite lookup_insert_ne; [done|].
        intros <-. apply (Hk 0); [simpl; lia|]. by rewrite Nat.add_0_r.
      * intros j Hj. replace (S off + j) with (off + S j) by lia.
        apply Hk. simpl. lia.
Qed.

End keyed_nodes.

Lemma process_level_1_node st i c :
  ∃ n, process_node (PyInt 1) st (level_1_node i c)
       = Some (Assembly (a_nodes st ++ [n])
                 (a_links st ++ [hierarchy_link (Py.str (node_counter st))])
                 (<[KStr ("main_" +:+ Py.str i) := Py.str (node_counter st)]>
                    (node_id_map st))
                 (S (node_counter st))).
Proof.
  destruct (process_node_level_1 st i c) as [st' Hrun]. rewrite Hrun.
  apply process_node_inv in Hrun as (n & key & Hn & Hkey & ->).
  apply concept_node_level_1 in Hn as [Hname _].
  rewrite Hname in Hkey. cbn in Hkey. simplify_eq. by exists n.
Qed.

Lemma process_level_2_node st i c :
  ∃ n, process_node (PyInt 2) st (level_2_node i c)
       = Some (Assembly (a_nodes st ++ [n])
                 (a_links st ++ [])
                 (<[KStr ("sub_" +:+ Py.str i) := Py.str (node_counter st)]>
                    (node_id_map st))
                 (S (node_counter st))).
Proof.
  destruct (process_node_level_2 st i c) as [st' Hrun]. rewrite Hrun.
  apply process_node_inv in Hrun as (n & key & Hn & Hkey & ->).
  pose proof (concept_node_name _ _ _ _ Hn) as Hname. cbn in Hname.
  injection Hname as Hname. rewrite <-Hname in Hkey.
  cbn in Hkey. simplify_eq. by exists n.
Qed.

Lemma process_fallback_levels_eq main sub st :
  Py.for_each process_level (hierarchy_levels main sub) st
  = Py.for_each (process_node (PyInt 1)) (imap level_1_node main) st
    ≫= Py.for_each (process_node (PyInt 2)) (imap level_2_node sub).
Proof.
  unfold hierarchy_levels.
  destruct main as [|c main], sub as [|c' sub]; repeat case_decide; try done;
    cbn [app Py.for_each]; rewrite ?process_level_dict.
  - change (Py.for_each _ (imap level_1_node []) st) with (Some st).
    cbn [mbind option_bind].
    by destruct (Py.for_each (process_node (PyInt 2)) _ st).
  - destruct (Py.for_each (process_node (PyInt 1)) _ st) as [st1|]; [|done].
    cbn [mbind option_bind]. rewrite process_level_dict.
    by destruct (Py.for_each (process_node (PyInt 2)) _ st1).
Qed.

(** The loop over the levels of a fallback hierarchy: one node for each
    concept, one link from the root for each main concept, and the ids
    main_j and sub_j recorded with the numbers of their nodes. *)
Lemma process_fallback_levels_shape main sub st :
  ∃ st',
    Py.for_each process_level (hierarchy_levels main sub) st = Some st'
    ∧ length (a_nodes st') = length (a_nodes st) + length main + length sub
    ∧ a_links st'
      = a_links st
        ++ ((λ i, hierarchy_link (Py.str (node_counter st + i)))
              <$> seq 0 (length main))
    ∧ (∀ j, j < length main →
            node_id_map st' !! KStr ("main_" +:+ Py.str j)
            = Some (Py.str (node_counter st + j)))
    ∧ (∀ j, j < length sub →
            node_id_map st' !! KStr ("sub_" +:+ Py.str j)
            = Some (Py.str (node_counter st + length main + j))).
Proof.
  rewrite process_fallback_levels_eq.
  destruct (process_keyed_nodes (PyInt 1) level_1_node "main_"
              process_level_1_node main 0 st)
    as (st1 & Hrun1 & Hcounter1 & Hnodes1 & Hlinks1 & Hkeys1 & _).
  change (imap _ main) with (imap level_1_node main) in Hrun1.
  rewrite Hrun1. cbn [mbind option_bind].
  destruct (process_keyed_nodes (PyInt 2) level_2_node "sub_"
              process_level_2_node sub 0 st1)
    as (st2 & Hrun2 & Hcounter2 & Hnodes2 & Hlinks2 & Hkeys2 & Hothers2).
  change (imap _ sub) with (imap level_2_node sub) in Hrun2.
  exists st2. split; [done|]. split; [lia|]. split; [|split].
  - rewrite Hlinks2, Hlinks1. cbn [Py.eq_one Z.eqb Pos.eqb]. by rewrite app_nil_r.
  - intros j Hj. rewrite Hothers2; [by apply (Hkeys1 j)|].
    intros j' _ [=].
  - intros j Hj. specialize (Hkeys2 j Hj). change (0 + j) with j in Hkeys2.
    by rewrite Hkeys2, Hcounter1.
Qed.

Lemma mapM_fmap_Some {A B C} (f : B → option C) (h : A → B) (g : A → C)
    (l : list A) :
  (∀ x, x ∈ l → f (h x) = Some (g x)) → mapM f (h <$> l) = Some (g <$> l).
Proof.
  induction l as [|x l IH]; intros Hf; [done|].
  rewrite !fmap_cons. cbn [mapM]. rewrite (Hf x) by left.
  cbn [mbind option_bind]. rewrite IH by (intros; apply Hf; by right). done.
Qed.

Lemma omap_id_fmap_Some {A B} (g : A → B) (l : list A) :
  omap id ((λ x, Some (g x)) <$> l) = g <$> l.
Proof. induction l as [|x l IH]; [done|]. rewrite !fmap_cons. simpl. by f_equal. Qed.

(** The link of the relationship number [i] of a fallback hierarchy,
    whose main concepts are [count] and whose nodes are numbered from
    [first]. *)
Lemma relationship_link_of_fallback m first count i :
  m !! KStr ("main_" +:+ Py.str i) = Some (Py.str (first + i)) →
  m !! KStr ("sub_" +:+ Py.str i) = Some (Py.str (first + count + i)) →
  0 < count →
  relationship_link m (relationship i)
  = Some (Some (Link (Py.str (first + i)) (Py.str (first + count + i)) 2
                  (Some (PyStr "related")) (Some (PyStr "")))).
Proof.
  intros Hs Ht Hcount. unfold relationship.
  rewrite (relationship_link_resolved m
             [("source", PyStr ("main_" +:+ Py.str i));
              ("target", PyStr ("sub_" +:+ Py.str i));
              ("relationship_type", PyStr "related");
              ("strength", PyStr "medium")]
             ("main_" +:+ Py.str i) ("sub_" +:+ Py.str i) "medium" _ _
             eq_refl eq_refl eq_refl Hs Ht)
    by apply str_nonempty.
  rewrite decide_False by (intros ?%str_inj; lia). done.
Qed.

(** The graph the conversion gives for a fallback hierarchy. *)
Lemma assemble_fallback_shape title main sub g :
  assemble title (hierarchy_dict main sub) = Some g →
  length (nodes g)
  = 1 + length main + length sub
    + (if decide (length main + length sub = 0) then 2 else 0)
  ∧ links g
    = ((λ i, hierarchy_link (Py.str (1 + i))) <$> seq 0 (length main))
      ++ ((λ i, Link (Py.str (1 + i)) (Py.str (1 + length main + i)) 2
                     (Some (PyStr "related")) (Some (PyStr "")))
            <$> seq 0 (length main `min` length sub))
      ++ (if decide (length main + length sub = 0) then basic_links else []).
Proof.
  intros (root & levels & st & rels & outs & _ & Hlevels & Hst & Hrels
          & Houts & Hnodes & Hlinks)%assemble_inv.
  cbn in Hlevels, Hrels. injection Hlevels as <-. injection Hrels as <-.
  destruct (process_fallback_levels_shape main sub (initial_assembly root))
    as (st' & Hst' & Hlen & Hroot & Hmain & Hsub).
  rewrite Hst in Hst'. injection Hst' as <-.
  cbn [initial_assembly a_nodes a_links node_counter length app] in *.
  rewrite relationships_range in Houts.
  rewrite (mapM_fmap_Some _ _
             (λ i, Some (Link (Py.str (1 + i)) (Py.str (1 + length main + i)) 2
                           (Some (PyStr "related")) (Some (PyStr "")))))
    in Houts.
  2:{ intros i Hi%elem_of_seq.
      apply relationship_link_of_fallback; [apply Hmain|apply Hsub|]; lia. }
  injection Houts as <-.
  rewrite omap_id_fmap_Some in Hlinks.
  split.
  - rewrite Hnodes, length_app, Hlen.
    repeat case_decide; simpl; lia.
  - rewrite Hlinks, Hroot.
    repeat case_decide; (done || lia).
Qed.

(** X5.  Without a model the graph of a text is fixed by its concepts.
    There are at most 4 main concepts, and either no sub concept or 4 of
    each.  With no main concept the graph is the root, the two synthetic
    nodes and the three synthetic links.  Otherwise it has the root and
    one node for each concept, the main ones first; its links are one
    hierarchy link of value 3 from the root to each main concept, then
    one related link of value 2 and empty description from the main
    concept number i to the sub concept number i, for every i that
    numbers both. *)
Theorem graph_without_model_shape `{Runtime} title text :
  let main := main_concepts text in
  let sub := sub_concepts text in
  ∃ g,
    generate_graph_data ModelNone (ContentRecord title (Text text)) = Some g
    ∧ length (nodes g)
      = (if decide (main = []) then 3 else 1 + length main + length sub)
    ∧ links g
      = (if decide (main = []) then basic_links
         else ((λ i, Link "0" (Py.str (1 + i)) 3 (Some (PyStr "hierarchy")) None)
                 <$> seq 0 (length main))
              ++ ((λ i, Link (Py.str (1 + i)) (Py.str (1 + length main + i)) 2
                             (Some (PyStr "related")) (Some (PyStr "")))
                    <$> seq 0 (length main `min` length sub)))
    ∧ length main ≤ 4
    ∧ (sub = [] ∨ length main = 4 ∧ length sub = 4).
Proof.
  intros main sub.
  rewrite generate_graph_data_without_model.
  destruct (assemble_hierarchy_dict title main sub) as [g Hg].
  exists g. unfold fallback_hierarchy. fold main sub. split; [done|].
  apply assemble_fallback_shape in Hg as [Hnodes Hlinks].
  destruct (concepts_sizes text) as [Hmain Hsub]. fold main sub in Hmain, Hsub.
  rewrite Hnodes, Hlinks.
  repeat split; [| |done..].
  - destruct Hsub as [->|[? ?]]; destruct main; simpl in *;
      repeat case_decide; done || lia.
  - destruct Hsub as [->|[? ?]]; destruct main; simpl in *;
      repeat case_decide; try done; try lia; by rewrite ?app_nil_r.
Qed.

Lemma id_buckets (f : nat → pyval) (count : nat) :
  (f <$> seq 0 (2 `min` count)) ++ (f <$> seq 2 (count - 2))
  = f <$> seq 0 count.
Proof.
  rewrite <-fmap_app. f_equal.
  destruct (decide (count ≤ 2)).
  - replace (count - 2) with 0 by lia. rewrite Nat.min_r, app_nil_r by lia. done.
  - rewrite Nat.min_l by lia. replace count with (2 + (count - 2)) at 2 by lia.
    by rewrite seq_app.
Qed.

Lemma fallback_ids main sub :
  mapM (λ e, Py.subscript e.2 "id")
       (hierarchy_entries (hierarchy_levels main sub))
  = Some (main_ids 0 (length main) ++ sub_ids 0 (length sub)).
Proof.
  rewrite fallback_entries. apply mapM_Some, Forall2_app.
  - unfold main_ids. rewrite Nat.sub_0_r.
    apply Forall2_fmap_l, Forall2_fmap_r, Forall2_same_length_lookup_2.
    + by rewrite length_imap, length_seq.
    + intros i e j He Hj. rewrite list_lookup_imap in He.
      destruct (_ !! i) as [c|]; [|done]. injection He as <-.
      apply lookup_seq in Hj as [-> _]. done.
  - unfold sub_ids. rewrite Nat.sub_0_r.
    apply Forall2_fmap_l, Forall2_fmap_r, Forall2_same_length_lookup_2.
    + by rewrite length_imap, length_seq.
    + intros i e j He Hj. rewrite list_lookup_imap in He.
      destruct (_ !! i) as [c|]; [|done]. injection He as <-.
      apply lookup_seq in Hj as [-> _]. done.
Qed.

Lemma fallback_ids_NoDup (m s : nat) :
  NoDup (main_ids 0 m ++ sub_ids 0 s).
Proof.
  apply NoDup_app. split; [|split].
  - apply NoDup_fmap_2; [|apply NoDup_seq].
    intros i j [=]. by eapply prefixed_id_inj.
  - intros x (i & -> & _)%list_elem_of_fmap (j & [=] & _)%list_elem_of_fmap.
  - apply NoDup_fmap_2; [|apply NoDup_seq].
    intros i j [=]. by eapply prefixed_id_inj.
Qed.

Lemma fallback_buckets (m s : nat) :
  main_ids 0 (2 `min` m) ++ (main_ids 2 m ++ sub_ids 0 (2 `min` s))
  ++ sub_ids 2 s
  = main_ids 0 m ++ sub_ids 0 s.
Proof.
  unfold main_ids, sub_ids. rewrite !Nat.sub_0_r, <-!app_assoc, app_assoc.
  by rewrite !id_buckets.
Qed.

Lemma fallback_beginners main sub :
  Forall2 (λ e i, i ∈ main_ids 0 (2 `min` length main)
                  ↔ Py.subscript e.2 "importance" = Some (PyStr "high"))
    (hierarchy_entries (hierarchy_levels main sub))
    (main_ids 0 (length main) ++ sub_ids 0 (length sub)).
Proof.
  rewrite fallback_entries. apply Forall2_app.
  - unfold main_ids at 2. rewrite Nat.sub_0_r.
    apply Forall2_fmap_l, Forall2_fmap_r, Forall2_same_length_lookup_2.
    + by rewrite length_imap, length_seq.
    + intros i e j He Hj. rewrite list_lookup_imap in He.
      destruct (_ !! i) as [c|]; [|done]. injection He as <-.
      apply lookup_seq in Hj as [-> Hi]. unfold compose. cbn -[Nat.min].
      unfold main_ids. rewrite Nat.sub_0_r. split.
      * intros (j & [= ->%prefixed_id_inj] & Hj%elem_of_seq)%list_elem_of_fmap.
        rewrite decide_True by lia. done.
      * intros Hhigh. apply list_elem_of_fmap. exists i. split; [done|].
        apply elem_of_seq. case_decide; [lia|done].
  - unfold sub_ids. rewrite Nat.sub_0_r.
    apply Forall2_fmap_l, Forall2_fmap_r, Forall2_same_length_lookup_2.
    + by rewrite length_imap, length_seq.
    + intros i e j He Hj. rewrite list_lookup_imap in He.
      destruct (_ !! i) as [c|]; [|done]. injection He as <-.
      unfold compose. simpl. split; [|done].
      by intros (j' & [=] & _)%list_elem_of_fmap.
Qed.

(** X6.  In every hierarchy of the fallback builder the three
    difficulty buckets, read one after the other, list the ids of the
    nodes of the levels in their order, each id once; the beginner bucket
    holds the ids of the nodes of importance high and no other. *)
Theorem fallback_difficulty_partition content :
  ∃ levels beginner intermediate advanced,
    Py.lookup "hierarchy_levels" (_create_enhanced_fallback_hierarchy content)
    = Some (PyList levels)
    ∧ Py.lookup "difficulty_progression"
        (_create_enhanced_fallback_hierarchy content)
      = Some (PyDict [("beginner_nodes", PyList beginner);
                      ("intermediate_nodes", PyList intermediate);
                      ("advanced_nodes", PyList advanced)])
    ∧ mapM (λ e, Py.subscript e.2 "id") (hierarchy_entries levels)
      = Some (beginner ++ intermediate ++ advanced)
    ∧ NoDup (beginner ++ intermediate ++ advanced)
    ∧ Forall2 (λ e i, i ∈ beginner
                      ↔ Py.subscript e.2 "importance" = Some (PyStr "high"))
        (hierarchy_entries levels) (beginner ++ intermediate ++ advanced).
Proof.
  unfold _create_enhanced_fallback_hierarchy.
  destruct (fallback_try content) as [h|] eqn:Htry.
  - assert (∃ main sub, h = hierarchy_dict main sub) as (main & sub & ->).
    { unfold fallback_try in Htry.
      destruct content as [text|d]; simplify_eq/=; [by eexists _, _|].
      destruct (_extract_from_structured_content d); simplify_eq/=.
      by eexists _, _. }
    eexists _, _, _, _. split; [reflexivity|]. split; [reflexivity|].
    rewrite fallback_buckets.
    split; [apply fallback_ids|]. split; [apply fallback_ids_NoDup|].
    apply fallback_beginners.
  - eexists _, _, _, _. split; [reflexivity|]. split; [reflexivity|].
    split; [reflexivity|]. split.
    + apply NoDup_singleton.
    + simpl. constructor; [|constructor]. split; [done|].
      intros _. by left.
Qed.

(** ** The levels of the legacy builder *)

Lemma has_level_app ns n a z :
  has_level ns a z → has_level (ns ++ [n]) a z.
Proof. intros (p & Hp & Hz). exists p. split; [by apply lookup_app_l_Some|done]. Qed.

Lemma emit_layered st n l a z :
  layered st →
  has_level (b_nodes st) a z → (0 ≤ z ≤ 1)%Z →
  link_source l = Py.str a → link_target l = Py.str (b_next st) →
  node_level n = PyInt (z + 1) → link_value l = (3 - z)%Z →
  layered (emit n l st) ∧ has_level (b_nodes (emit n l st)) (b_next st) (z + 1).
Proof.
  intros (Hgrown & Hleveled & Hroot) Ha Hz Hsource Htarget Hlevel Hvalue.
  pose proof Hgrown as (Hnext & Hcount & _). simpl in Hnext.
  assert (has_level (b_nodes st ++ [n]) (b_next st) (z + 1)) as Hnew.
  { exists n. split; [|done]. rewrite Hnext. by apply list_lookup_middle. }
  split; [|done]. split; [|split].
  - destruct Ha as (parent & Hparent%lookup_lt_Some & _).
    eapply (emit_grown 0 _ _ _ a); [done|done|simpl; lia|done].
  - intros i l' Hl'. simpl in Hl'.
    destruct (decide (i < length (b_links st))) as [Hi|Hi].
    + rewrite lookup_app_l in Hl' by done.
      destruct (Hleveled i l' Hl') as (a' & z' & ? & ? & ? & ? & ?).
      exists a', z'. split; [done|]. split; [done|].
      split; [by apply has_level_app|]. split; [by apply has_level_app|done].
    + rewrite lookup_app_r in Hl' by lia.
      destruct (i - length (b_links st)) as [|k] eqn:Hk; simplify_eq/=.
      exists a, z. split; [done|]. split; [done|].
      split; [by apply has_level_app|]. split; [|done].
      replace (S i) with (b_next st) by lia. done.
  - by apply has_level_app.
Qed.

Lemma add_points_layered parent st points st' :
  layered st ∧ has_level (b_nodes st) parent 1 →
  Py.for_each (add_point parent) points st = Some st' →
  layered st' ∧ has_level (b_nodes st') parent 1.
Proof.
  intros Hst.
  apply (for_each_invariant (add_point parent)
           (λ st, layered st ∧ has_level (b_nodes st) parent 1)); [|done].
  intros s point s' _ [Hs Hparent]. unfold add_point. intros Hrun.
  destruct (Py.ellipsis 30 point) as [name|]; simplify_eq/=.
  split; [|by apply has_level_app].
  by eapply (emit_layered _ _ _ parent 1).
Qed.

Lemma add_sections_layered sd st st' :
  layered st → add_sections sd st = Some st' → layered st'.
Proof.
  intros Hst. unfold add_sections.
  destruct (Py.truthy _); [|by intros; simplify_eq].
  destruct (Py.iter _) as [secs|]; simpl; [|done].
  destruct (Py.for_each _ secs _) as [st_i|] eqn:Hsecs; simpl; [|done].
  intros ?; simplify_eq.
  revert Hsecs.
  apply (for_each_invariant add_section (λ st_i, layered st_i.1)); [|done].
  intros [s i] section [s' i'] _ Hs Hrun. simpl in *.
  unfold add_section in Hrun.
  destruct (Py.get section "section_title" _) as [name|]; simplify_eq/=.
  destruct (Py.get section "content" _) as [c|]; simplify_eq/=.
  destruct (Py.ellipsis 200 c) as [content|]; simplify_eq/=.
  destruct (Py.get section "key_points" _) as [key_points|]; simplify_eq/=.
  destruct (if Py.truthy key_points then _ else _) as [points|];
    simplify_eq/=.
  destruct (Py.for_each _ points _) as [s1|] eqn:Hpoints; simplify_eq/=.
  apply add_points_layered in Hpoints as [Hs1 _]; [done|].
  eapply (emit_layered _ _ _ 0 0); [done|apply Hs|lia|done..].
Qed.

Lemma add_glossary_layered sd st st' :
  layered st → add_glossary sd st = Some st' → layered st'.
Proof.
  intros Hst. unfold add_glossary.
  destruct (Py.truthy _); [|by intros; simplify_eq].
  destruct (Py.items _) as [its|]; simpl; [|done].
  intros Hrun.
  cut (layered st' ∧ has_level (b_nodes st') (b_next st) 1); [by intros []|].
  revert Hrun.
  apply (for_each_invariant (add_concept (b_next st))
           (λ st1, layered st1 ∧ has_level (b_nodes st1) (b_next st) 1)).
  - intros st1 [concept definition] st2 _ [Hst1 Hparent] Hrun.
    simpl in Hrun. simplify_eq. split; [|by apply has_level_app].
    by eapply (emit_layered _ _ _ (b_next st) 1).
  - eapply (emit_layered _ _ _ 0 0); [done|apply Hst|lia|done..].
Qed.

Lemma add_takeaways_layered sd st st' :
  layered st → add_takeaways sd st = Some st' → layered st'.
Proof.
  intros Hst. unfold add_takeaways.
  destruct (Py.truthy _); [|by intros; simplify_eq].
  destruct (Py.iter _) as [ts|]; simpl; [|done].
  intros Hrun. apply add_points_layered in Hrun as [? _]; [done|].
  eapply (emit_layered _ _ _ 0 0); [done|apply Hst|lia|done..].
Qed.

(** X7.  In a graph of the legacy structured builder the level of a
    node is its depth in the tree: the root has the level 0, and the link
    number i goes from a node of level 0 or 1 to the node number i + 1,
    whose level is one more; its value is 3 when it leaves the root and 2
    when it leaves a node of level 1.  No node is deeper than 2. *)
Theorem legacy_levels_are_depths title structured_data g :
  legacy_structured title structured_data = Some g →
  has_level (nodes g) 0 0
  ∧ ∀ i l, links g !! i = Some l →
           ∃ a z, (0 ≤ z ≤ 1)%Z
                  ∧ link_source l = Py.str a
                  ∧ has_level (nodes g) a z
                  ∧ has_level (nodes g) (S i) (z + 1)
                  ∧ link_value l = (3 - z)%Z.
Proof.
  destruct structured_data as [| | | | |sd]; simpl; try done. intros Hrun.
  destruct (add_sections sd _) as [st1|] eqn:H1; simplify_eq/=.
  destruct (add_glossary sd st1) as [st2|] eqn:H2; simplify_eq/=.
  destruct (add_takeaways sd st2) as [st3|] eqn:H3; simplify_eq/=.
  apply add_sections_layered in H1.
  - apply (add_glossary_layered _ _ _ H1) in H2.
    apply (add_takeaways_layered _ _ _ H2) in H3.
    destruct H3 as (_ & Hleveled & Hroot). done.
  - split; [|split].
    + split; [done|]. split; [done|]. intros i l Hl. done.
    + intros i l Hl. done.
    + by eexists.
Qed.

Lemma legacy_levels_are_depths_witness :
  ∃ g, legacy_structured None Examples.small_document = Some g
       ∧ has_level (nodes g) 0 0.
Proof.
  destruct (legacy_structured None Examples.small_document) as [g|] eqn:Hg;
    [|by vm_compute in Hg].
  exists g. split; [done|].
  by apply (legacy_levels_are_depths None Examples.small_document).
Defined.

(** ** When the pipeline returns *)

Lemma fallback_try_inv content h :
  fallback_try content = Some h → ∃ main sub, h = hierarchy_dict main sub.
Proof.
  unfold fallback_try. intros Htry.
  destruct content as [text|d]; simplify_eq/=; [by eexists _, _|].
  destruct (_extract_from_structured_content d); simplify_eq/=.
  by eexists _, _.
Qed.

Lemma assemble_fallback_returns title content :
  is_Some (assemble title (_create_enhanced_fallback_hierarchy content))
  ∧ Py.has_key "error" (_create_enhanced_fallback_hierarchy content) = false.
Proof.
  unfold _create_enhanced_fallback_hierarchy.
  destruct (fallback_try content) as [h|] eqn:Htry.
  - apply fallback_try_inv in Htry as (main & sub & ->).
    split; [apply assemble_hierarchy_dict|done].
  - split; [|done]. vm_compute. eauto.
Qed.

(** X8.  Without a model the pipeline returns a graph for every record,
    whether its content is a text or a structured document, well formed
    or not: the fallback hierarchy is always built and always converted.
    The graph has at least 2 nodes, the root invariant and link
    referential integrity. *)
Theorem pipeline_total_without_model `{Runtime} (content : content_record) :
  ∃ g, generate_graph_data ModelNone content = Some g
       ∧ 2 ≤ length (nodes g)
       ∧ root_invariant g
       ∧ link_integrity g.
Proof.
  destruct (assemble_fallback_returns (rec_title content) (rec_content content))
    as [[g Hg] Hno_error].
  assert (generate_graph_data ModelNone content = Some g) as Hrun.
  { unfold generate_graph_data, Py.try_except.
    change (generate_hierarchical_graph_structure ModelNone (rec_content content))
      with (_create_enhanced_fallback_hierarchy (rec_content content)).
    by rewrite Hno_error, Hg. }
  exists g. split; [done|]. split; [by eapply assemble_two_nodes|].
  by eapply generate_graph_data_sound.
Qed.



(** * The upload validators *)

Import Validators Upload.

(** ** Suffixes and extensions *)

Lemma lower_char_dot (c : ascii) :
  Str.lower_char c = "."%char ↔ c = "."%char.
Proof.
  destruct c as [[] [] [] [] [] [] [] []]; vm_compute; split; congruence.
Qed.

Lemma rsplit1_cases sep s :
  Str.rsplit1 sep s = [s] ∨ ∃ h t, Str.rsplit1 sep s = [h; t].
Proof.
  induction s as [|c s IH]; simpl; [by left|].
  destruct IH as [->|(h & t & ->)]; [case_decide; eauto|eauto].
Qed.

Lemma is_infix_char sep c s :
  Str.is_infix (String sep "") (String c s)
  = bool_decide (sep = c) || Str.is_infix (String sep "") s.
Proof. simpl. by rewrite andb_true_r. Qed.

Lemma rsplit1_no_sep sep s :
  Str.is_infix (String sep "") s = false → Str.rsplit1 sep s = [s].
Proof.
  induction s as [|c s IH]; [done|].
  rewrite is_infix_char. intros [Hc Hs]%orb_false_elim.
  apply bool_decide_eq_false in Hc. simpl. rewrite (IH Hs).
  by rewrite decide_False by done.
Qed.

Lemma rsplit1_sep sep s :
  Str.is_infix (String sep "") s = true → ∃ h t, Str.rsplit1 sep s = [h; t].
Proof.
  induction s as [|c s IH]; [done|].
  rewrite is_infix_char. intros [Hc%bool_decide_eq_true|Hs]%orb_prop; simpl.
  - destruct (rsplit1_cases sep s) as [->|(h & t & ->)]; [|eauto].
    rewrite decide_True by done. eauto.
  - destruct (IH Hs) as (h & t & ->). eauto.
Qed.

(** A string ends with a separator followed by [e], which has no
    separator, exactly when its last cut leaves [e]. *)
Lemma ends_with_rsplit1 sep e s :
  Str.is_infix (String sep "") e = false →
  Str.ends_with (String sep e) s = true ↔ ∃ h, Str.rsplit1 sep s = [h; e].
Proof.
  intros He. induction s as [|c s IH].
  - simpl. split; [done|]. by intros [h [=]].
  - cbn [Str.ends_with Str.rsplit1]. rewrite orb_true_iff, IH. split.
    + intros [[= <- <-]%String.eqb_eq|[h ->]]; [|eauto].
      rewrite (rsplit1_no_sep _ _ He), decide_True by done. eauto.
    + intros [h Hh].
      destruct (rsplit1_cases sep s) as [Hs|(h' & t & Hs)]; rewrite Hs in Hh.
      * case_decide; simplify_eq. left. by apply String.eqb_eq.
      * simplify_eq. eauto.
Qed.

Lemma rsplit1_lower s :
  Str.rsplit1 "." (Str.lower s) = Str.lower <$> Str.rsplit1 "." s.
Proof.
  induction s as [|c s IH]; [done|].
  cbn [Str.lower Str.rsplit1]. rewrite IH.
  destruct (rsplit1_cases "." s) as [->|(h & t & ->)]; [|done].
  cbn [fmap list_fmap].
  destruct (decide (c = "."%char)) as [->|Hc].
  - by rewrite decide_True by done.
  - rewrite decide_False by (by rewrite lower_char_dot). done.
Qed.

Lemma is_infix_lower s :
  Str.is_infix "." (Str.lower s) = Str.is_infix "." s.
Proof.
  induction s as [|c s IH]; [done|].
  cbn [Str.lower]. rewrite !is_infix_char, IH. f_equal.
  apply bool_decide_ext. split; [intros Hc|intros <-; done].
  symmetry. by apply lower_char_dot.
Qed.

Lemma bool_eq_decide (b : bool) (P : Prop) `{!Decision P} :
  (b = true ↔ P) → b = bool_decide P.
Proof. intros [? ?]. destruct b; case_bool_decide; intuition. Qed.

(** The extension [validate_upload] reads is [e] exactly when the
    lowered name ends with a dot and [e]. *)
Lemma file_extension_suffix e filename :
  e ≠ "" → Str.is_infix "." e = false →
  Str.ends_with (String "." e) (Str.lower filename)
  = bool_decide (file_extension filename = e).
Proof.
  intros Hne He. apply bool_eq_decide. unfold file_extension.
  rewrite (ends_with_rsplit1 _ _ _ He), rsplit1_lower.
  destruct (Str.is_infix "." filename) eqn:Hdot.
  - destruct (rsplit1_sep _ _ Hdot) as (h & t & ->). simpl. split.
    + by intros [h' [= _ ->]].
    + intros ->. eauto.
  - rewrite (rsplit1_no_sep _ _ Hdot). split; [by intros [h [=]]|done].
Qed.

Lemma elem_of_video_extensions ext :
  ext ∈ Config.ALLOWED_VIDEO_EXTENSIONS
  ↔ ext ∈ ["mp4"; "avi"; "mov"; "wmv"; "flv"; "webm"].
Proof.
  unfold Config.ALLOWED_VIDEO_EXTENSIONS.
  rewrite !elem_of_union, !elem_of_singleton, !elem_of_cons, elem_of_nil.
  tauto.
Qed.

Lemma elem_of_pdf_extensions ext :
  ext ∈ Config.ALLOWED_PDF_EXTENSIONS ↔ ext = "pdf".
Proof. unfold Config.ALLOWED_PDF_EXTENSIONS. by rewrite elem_of_singleton. Qed.

Lemma file_extension_empty : file_extension "" = "".
Proof. reflexivity. Qed.

(** Membership in a list of literals. *)
Ltac in_list := repeat first [by left | right].
Ltac not_in_list H :=
  repeat (apply elem_of_cons in H as [H|H]; [done|]); by apply elem_of_nil in H.

(** The extensions the upload code names: none is empty and none has a
    dot. *)
Lemma named_extension e :
  e ∈ ["mp4"; "avi"; "mov"; "wmv"; "flv"; "webm"; "mkv"; "pdf"] →
  e ≠ "" ∧ Str.is_infix "." e = false.
Proof.
  intros He.
  repeat (apply elem_of_cons in He as [->|He]; [done|]).
  by apply elem_of_nil in He.
Qed.

Lemma video_extension_named e :
  e ∈ ["mp4"; "avi"; "mov"; "wmv"; "flv"; "webm"] →
  e ∈ ["mp4"; "avi"; "mov"; "wmv"; "flv"; "webm"; "mkv"; "pdf"].
Proof.
  intros He.
  repeat (apply elem_of_cons in He as [->|He];
          [in_list|]).
  by apply elem_of_nil in He.
Qed.

Section upload.
Variable secure_filename : string → string.

(** The sanitised name ends with a dot and one of the six video
    extensions exactly when its extension is allowed for a video. *)
Lemma video_suffix_allowed filename :
  (∃ e, e ∈ ["mp4"; "avi"; "mov"; "wmv"; "flv"; "webm"]
        ∧ Str.ends_with (String "." e) (Str.lower filename) = true)
  ↔ file_extension filename ∈ Config.ALLOWED_VIDEO_EXTENSIONS.
Proof.
  rewrite elem_of_video_extensions. split.
  - intros (e & He & Hend).
    destruct (named_extension e (video_extension_named e He)) as [Hne Hdot].
    rewrite file_extension_suffix in Hend by done.
    apply bool_decide_eq_true in Hend. by rewrite Hend.
  - intros Hext. exists (file_extension filename). split; [done|].
    destruct (named_extension _ (video_extension_named _ Hext)) as [Hne Hdot].
    rewrite file_extension_suffix by done. by apply bool_decide_eq_true.
Qed.

(** X10.  [validate_upload] accepts a file exactly when its name and
    its sanitised name are not empty and, for the type video, the
    sanitised name ends, whatever the case of its letters, with a dot and
    one of mp4, avi, mov, wmv, flv, webm, and for the type pdf, with .pdf.
    For any other type the extension is not looked at. *)
Theorem validate_upload_accepts (name content_type : string) :
  validate_upload secure_filename (Some name) content_type = Valid
  ↔ name ≠ ""
    ∧ secure_filename name ≠ ""
    ∧ (content_type = "video" →
       ∃ e, e ∈ ["mp4"; "avi"; "mov"; "wmv"; "flv"; "webm"]
            ∧ Str.ends_with (String "." e) (Str.lower (secure_filename name))
              = true)
    ∧ (content_type = "pdf" →
       Str.ends_with ".pdf" (Str.lower (secure_filename name)) = true).
Proof.
  unfold validate_upload.
  rewrite (file_extension_suffix "pdf") by done.
  rewrite video_suffix_allowed, bool_decide_eq_true.
  pose proof (elem_of_pdf_extensions (file_extension (secure_filename name)))
    as Hpdf.
  repeat case_decide; subst; split; try done; intuition.
Qed.

End upload.

Lemma validate_upload_accepts_witness :
  validate_upload id (Some "Lecture.MP4") "video" = Valid.
Proof.
  apply (validate_upload_accepts id "Lecture.MP4" "video").
  split; [done|]. split; [done|]. split; [|done].
  intros _. exists "mp4". split; [by left|reflexivity].
Defined.

Section upload_route.
Variable secure_filename : string → string.

(** The route of a named file sent without text, read off the
    extension of its sanitised name. *)
Lemma frontend_upload_route_extension name text_content :
  name ≠ "" → text_content = None ∨ text_content = Some "" →
  frontend_upload_route secure_filename (Some name) text_content
  = let ext := file_extension (secure_filename name) in
    if decide (ext ∈ Config.ALLOWED_VIDEO_EXTENSIONS) then File_upload "video"
    else if decide (ext = "mkv") then Refused Invalid_video_format
    else if decide (ext = "pdf") then File_upload "pdf"
    else Unsupported_file_type.
Proof.
  intros Hname Htext. unfold frontend_upload_route, validate_upload.
  destruct name as [|c name]; [done|].
  replace (match text_content with Some (String _ _) => true | _ => false end)
    with false by (by destruct Htext as [-> | ->]).
  cbn [negb andb existsb video_suffixes].
  rewrite (file_extension_suffix "mp4"), (file_extension_suffix "avi"),
    (file_extension_suffix "mov"), (file_extension_suffix "mkv"),
    (file_extension_suffix "webm"), (file_extension_suffix "flv"),
    (file_extension_suffix "wmv"), (file_extension_suffix "pdf") by done.
  destruct (decide (String c name = "")) as [?|_]; [done|].
  destruct (decide (secure_filename (String c name) = "")) as [Hempty|_];
    [by rewrite Hempty|].
  generalize (file_extension (secure_filename (String c name))). intros ext.
  cbn zeta.
  destruct (decide (ext ∈ Config.ALLOWED_VIDEO_EXTENSIONS)) as [Hvideo|Hvideo].
  - apply elem_of_video_extensions in Hvideo.
    repeat (apply elem_of_cons in Hvideo as [->|Hvideo]; [done|]).
    by apply elem_of_nil in Hvideo.
  - assert (∀ e, e ∈ ["mp4"; "avi"; "mov"; "wmv"; "flv"; "webm"] → ext ≠ e)
      as Hother.
    { intros e He ->. by apply Hvideo, elem_of_video_extensions. }
    rewrite (bool_decide_false (ext = "mp4")),
      (bool_decide_false (ext = "avi")), (bool_decide_false (ext = "mov")),
      (bool_decide_false (ext = "webm")), (bool_decide_false (ext = "flv")),
      (bool_decide_false (ext = "wmv"))
      by (apply Hother; in_list).
    cbn [orb].
    destruct (decide (ext = "mkv")) as [->|Hmkv]; [done|].
    rewrite (bool_decide_false (ext = "mkv")) by done. cbn [orb].
    destruct (decide (ext = "pdf")) as [->|Hpdf]; [done|].
    by rewrite bool_decide_false by done.
Qed.

End upload_route.

Section upload_form.
Variable secure_filename : string → string.

(** X11.  The upload form.  A text that is not empty is taken, whatever
    file comes with it.  A named file sent without text is processed as a
    video exactly when its sanitised name ends, whatever the case of its
    letters, with .mp4, .avi, .mov, .wmv, .flv or .webm, and as a pdf
    exactly when it ends with .pdf; the validator refuses it only when it
    ends with .mkv, which the form takes for a video, and always with the
    message of the video formats; every other name is unsupported. *)
Theorem frontend_upload_routes (file : option string) (name text : string) :
  let lowered := Str.lower (secure_filename name) in
  let route := frontend_upload_route secure_filename (Some name) None in
  (text ≠ "" →
   frontend_upload_route secure_filename file (Some text) = Text_upload)
  ∧ (name ≠ "" →
     frontend_upload_route secure_filename (Some name) (Some "") = route
     ∧ (route = File_upload "video"
        ↔ ∃ e, e ∈ ["mp4"; "avi"; "mov"; "wmv"; "flv"; "webm"]
               ∧ Str.ends_with (String "." e) lowered = true)
     ∧ (route = File_upload "pdf" ↔ Str.ends_with ".pdf" lowered = true)
     ∧ (∀ error, route = Refused error
                 ↔ error = Invalid_video_format
                   ∧ Str.ends_with ".mkv" lowered = true)
     ∧ (route = Unsupported_file_type
        ↔ ∀ e, e ∈ ["mp4"; "avi"; "mov"; "wmv"; "flv"; "webm"; "mkv"; "pdf"] →
               Str.ends_with (String "." e) lowered = false)).
Proof.
  intros lowered route. split.
  { intros Htext. destruct text as [|c text]; [done|].
    unfold frontend_upload_route. by destruct file as [[|? ?]|]. }
  intros Hname. unfold route, lowered.
  rewrite !frontend_upload_route_extension by auto.
  split; [done|].
  rewrite video_suffix_allowed.
  rewrite (file_extension_suffix "pdf"), (file_extension_suffix "mkv") by done.
  rewrite !bool_decide_eq_true.
  assert (∀ e, e ∈ ["mp4"; "avi"; "mov"; "wmv"; "flv"; "webm"; "mkv"; "pdf"] →
               Str.ends_with (String "." e) (Str.lower (secure_filename name))
               = bool_decide (file_extension (secure_filename name) = e))
    as Hsuffix.
  { intros e [Hne Hdot]%named_extension. by apply file_extension_suffix. }
  cbn zeta.
  generalize dependent (file_extension (secure_filename name)). intros ext Hsuffix.
  assert ("mkv" ∉ Config.ALLOWED_VIDEO_EXTENSIONS) as Hmkv
    by (rewrite elem_of_video_extensions; intros Hin; not_in_list Hin).
  assert ("pdf" ∉ Config.ALLOWED_VIDEO_EXTENSIONS) as Hpdf
    by (rewrite elem_of_video_extensions; intros Hin; not_in_list Hin).
  assert ((∀ e, e ∈ ["mp4"; "avi"; "mov"; "wmv"; "flv"; "webm"; "mkv"; "pdf"] →
                Str.ends_with (String "." e) (Str.lower (secure_filename name))
                = false)
          ↔ (ext ∉ Config.ALLOWED_VIDEO_EXTENSIONS) ∧ ext ≠ "mkv" ∧ ext ≠ "pdf")
    as ->.
  { split.
    - intros Hnone. split; [|split].
      + intros Hext%elem_of_video_extensions.
        specialize (Hnone ext (video_extension_named _ Hext)).
        rewrite Hsuffix in Hnone by (by apply video_extension_named).
        by apply bool_decide_eq_false in Hnone.
      + intros ->.
        assert ("mkv" ∈ ["mp4"; "avi"; "mov"; "wmv"; "flv"; "webm"; "mkv"; "pdf"])
          as Hin by in_list.
        specialize (Hnone _ Hin). rewrite (Hsuffix _ Hin) in Hnone.
        by apply bool_decide_eq_false in Hnone.
      + intros ->.
        assert ("pdf" ∈ ["mp4"; "avi"; "mov"; "wmv"; "flv"; "webm"; "mkv"; "pdf"])
          as Hin by in_list.
        specialize (Hnone _ Hin). rewrite (Hsuffix _ Hin) in Hnone.
        by apply bool_decide_eq_false in Hnone.
    - intros (Hvideo & ? & ?) e He. rewrite Hsuffix by done.
      apply bool_decide_eq_false. intros ->.
      repeat (apply elem_of_cons in He as [He|He]; [simplify_eq|]).
      all: try done.
      all: try (apply Hvideo, elem_of_video_extensions;
                in_list).
      by apply elem_of_nil in He. }
  repeat case_decide; subst; repeat split; try done; try tauto;
    try (intros; intuition congruence);
    by intros [_ ?%bool_decide_eq_true].
Qed.

End upload_form.

Lemma frontend_upload_routes_witness :
  frontend_upload_route id (Some "Talk.MKV") None
  = Refused Invalid_video_format.
Proof.
  destruct (frontend_upload_routes id None "Talk.MKV" "notes") as [_ Hfile].
  destruct Hfile as (_ & _ & _ & Hrefused & _); [done|].
  apply Hrefused. split; reflexivity.
Defined.

(** [allowed_file] in the words of [validate_upload]: it never raises,
    and it reads the same extension. *)
Lemma allowed_file_extension filename file_type :
  allowed_file filename file_type
  = Some (if decide (file_type = "video")
          then bool_decide (file_extension filename
                            ∈ Config.ALLOWED_VIDEO_EXTENSIONS)
          else if decide (file_type = "pdf")
               then bool_decide (file_extension filename
                                 ∈ Config.ALLOWED_PDF_EXTENSIONS)
               else false).
Proof.
  unfold allowed_file, file_extension.
  destruct (Str.is_infix "." filename) eqn:Hdot; cbn [negb].
  - destruct (rsplit1_sep _ _ Hdot) as (h & t & ->). cbn.
    by repeat case_decide.
  - by repeat case_decide.
Qed.

Section allowed.
Variable secure_filename : string → string.

(** X12.  [allowed_file] never raises.  On a file whose name and
    sanitised name are not empty, [validate_upload] and [allowed_file]
    agree for the types video and pdf; for any other type
    [validate_upload] accepts the file and [allowed_file] does not. *)
Theorem validate_upload_allowed_file (name content_type : string) :
  name ≠ "" → secure_filename name ≠ "" →
  ∃ allowed,
    allowed_file (secure_filename name) content_type = Some allowed
    ∧ if decide (content_type = "video" ∨ content_type = "pdf")
      then validate_upload secure_filename (Some name) content_type = Valid
           ↔ allowed = true
      else validate_upload secure_filename (Some name) content_type = Valid
           ∧ allowed = false.
Proof.
  intros Hname Hsecure. rewrite allowed_file_extension.
  eexists. split; [done|]. unfold validate_upload.
  destruct (decide (name = "")); [done|].
  destruct (decide (secure_filename name = "")); [done|].
  repeat case_decide; subst; try done; try tauto;
    rewrite ?bool_decide_eq_true; try (split; [done|tauto]);
    try (split; intros; done).
  all: split; [intros _|done]; by apply dec_stable.
Qed.

End allowed.

Lemma validate_upload_allowed_file_witness :
  ∃ allowed, allowed_file "slides.pdf" "pdf" = Some allowed
             ∧ (validate_upload id (Some "slides.pdf") "pdf" = Valid
                ↔ allowed = true).
Proof.
  destruct (validate_upload_allowed_file id "slides.pdf" "pdf")
    as (allowed & Hallowed & Hagree); [done..|].
  exists allowed. split; [done|]. exact Hagree.
Defined.

(** * The text cleaner *)

Import ContentProcessor.

(** ** Reversal and concatenation *)

Lemma append_cons c (x y : string) : String c x +:+ y = String c (x +:+ y).
Proof. reflexivity. Qed.

Lemma append_nil_r (x : string) : x +:+ "" = x.
Proof. induction x as [|c x IH]; [done|]. by rewrite append_cons, IH. Qed.

Lemma append_assoc (x y z : string) : (x +:+ y) +:+ z = x +:+ (y +:+ z).
Proof. induction x as [|c x IH]; [done|]. by rewrite !append_cons, IH. Qed.

Lemma rev_app_append (x y : string) :
  String.rev_app x y = String.rev x +:+ y.
Proof.
  unfold String.rev. revert y. induction x as [|c x IH]; intros y; [done|].
  cbn [String.rev_app]. rewrite (IH (String c y)), (IH (String c "")).
  by rewrite append_assoc.
Qed.

Lemma rev_cons c (x : string) :
  String.rev (String c x) = String.rev x +:+ String c "".
Proof. unfold String.rev at 1. cbn [String.rev_app]. apply rev_app_append. Qed.

Lemma rev_append (x y : string) :
  String.rev (x +:+ y) = String.rev y +:+ String.rev x.
Proof.
  induction x as [|c x IH]; [by rewrite append_nil_r|].
  by rewrite append_cons, !rev_cons, IH, append_assoc.
Qed.

Lemma rev_involutive (x : string) : String.rev (String.rev x) = x.
Proof.
  induction x as [|c x IH]; [done|].
  by rewrite rev_cons, rev_append, IH.
Qed.

(** ** The characters of a string *)

Lemma chars_all_app P (x y : string) :
  chars_all P (x +:+ y) = chars_all P x && chars_all P y.
Proof.
  induction x as [|c x IH]; [done|].
  rewrite append_cons. simpl. by rewrite IH, andb_assoc.
Qed.

Lemma chars_all_rev P (x : string) :
  chars_all P (String.rev x) = chars_all P x.
Proof.
  induction x as [|c x IH]; [done|].
  rewrite rev_cons, chars_all_app, IH. simpl.
  by rewrite andb_true_r, andb_comm.
Qed.

Lemma chars_all_impl (P Q : ascii → bool) (s : string) :
  (∀ c, P c = true → Q c = true) →
  chars_all P s = true → chars_all Q s = true.
Proof.
  intros HPQ. induction s as [|c s IH]; [done|]. simpl.
  intros [? ?]%andb_prop. apply andb_true_intro. auto.
Qed.

Lemma chars_all_lstrip P (s : string) :
  chars_all P s = true → chars_all P (Str.lstrip s) = true.
Proof.
  induction s as [|c s IH]; [done|]. simpl.
  destruct (Str.is_space c); [|done]. intros [_ ?]%andb_prop. auto.
Qed.

Lemma chars_all_strip P (s : string) :
  chars_all P s = true → chars_all P (Str.strip s) = true.
Proof.
  intros Hs. unfold Str.strip. rewrite chars_all_rev.
  apply chars_all_lstrip. rewrite chars_all_rev. by apply chars_all_lstrip.
Qed.

Lemma chars_all_remove P c (s : string) :
  chars_all P s = true → chars_all P (Str.remove c s) = true.
Proof.
  induction s as [|a s IH]; [done|]. simpl.
  intros [? ?]%andb_prop. case_decide; simpl; [auto|].
  apply andb_true_intro. auto.
Qed.

Lemma chars_all_removed c (s : string) :
  chars_all (λ a, negb (bool_decide (a = c))) (Str.remove c s) = true.
Proof.
  induction s as [|a s IH]; [done|]. simpl.
  case_decide; simpl; [done|]. by rewrite bool_decide_false.
Qed.

Lemma remove_none c (s : string) :
  chars_all (λ a, negb (bool_decide (a = c))) s = true → Str.remove c s = s.
Proof.
  induction s as [|a s IH]; [done|]. simpl.
  intros [Ha ?]%andb_prop. apply negb_true_iff, bool_decide_eq_false in Ha.
  rewrite decide_False by done. f_equal. auto.
Qed.

Lemma chars_all_and P Q (s : string) :
  chars_all (λ c, P c && Q c) s = chars_all P s && chars_all Q s.
Proof.
  induction s as [|c s IH]; [done|]. simpl. rewrite IH.
  destruct (P c), (Q c), (chars_all P s), (chars_all Q s); done.
Qed.

Lemma chars_all_join P sep (ws : list string) :
  chars_all P sep = true →
  Forall (λ w, chars_all P w = true) ws →
  chars_all P (Str.join sep ws) = true.
Proof.
  intros Hsep Hws. induction Hws as [|w ws Hw Hws IH]; [done|].
  destruct ws as [|w' ws]; [done|].
  change (Str.join sep (w :: w' :: ws))
    with (w +:+ sep +:+ Str.join sep (w' :: ws)).
  by rewrite !chars_all_app, Hw, Hsep, IH.
Qed.

(** ** The words of a text *)

Lemma words_go_all P (cur s : string) :
  chars_all P cur = true → chars_all P s = true →
  Forall (λ w, chars_all P w = true) (Str.words_go cur s).
Proof.
  revert cur. induction s as [|c s IH]; intros cur Hcur Hs; simpl.
  - destruct cur; constructor; [by rewrite chars_all_rev|done].
  - simpl in Hs. apply andb_prop in Hs as [Hc Hs].
    destruct (Str.is_space c).
    + destruct cur; [by apply IH|].
      constructor; [by rewrite chars_all_rev|by apply IH].
    + apply IH; [simpl; by rewrite Hc|done].
Qed.

(** A word is not empty and has no white space. *)
Lemma words_go_words (cur s : string) :
  chars_all (λ c, negb (Str.is_space c)) cur = true →
  Forall (λ w, w ≠ "" ∧ chars_all (λ c, negb (Str.is_space c)) w = true)
         (Str.words_go cur s).
Proof.
  assert (∀ c x, String.rev (String c x) ≠ "") as Hrev.
  { intros c x Heq. apply (f_equal String.rev) in Heq.
    by rewrite rev_involutive in Heq. }
  revert cur. induction s as [|c s IH]; intros cur Hcur; simpl.
  - destruct cur; constructor; [|done].
    split; [apply Hrev|by rewrite chars_all_rev].
  - destruct (Str.is_space c) eqn:Hc.
    + destruct cur; [by apply IH|].
      constructor; [|by apply IH].
      split; [apply Hrev|by rewrite chars_all_rev].
    + apply IH. simpl. by rewrite Hc.
Qed.

Lemma words_go_word (w cur rest : string) :
  chars_all (λ c, negb (Str.is_space c)) w = true →
  Str.words_go cur (w +:+ rest) = Str.words_go (String.rev_app w cur) rest.
Proof.
  revert cur. induction w as [|c w IH]; intros cur Hw; [done|].
  simpl in Hw. apply andb_prop in Hw as [Hc Hw].
  rewrite append_cons. cbn [Str.words_go String.rev_app].
  apply negb_true_iff in Hc. rewrite Hc. by apply IH.
Qed.

(** Splitting the words joined by single spaces gives them back. *)
Lemma words_join (ws : list string) :
  Forall (λ w, w ≠ "" ∧ chars_all (λ c, negb (Str.is_space c)) w = true) ws →
  Str.words (Str.join " " ws) = ws.
Proof.
  assert (∀ w : string, w ≠ "" →
            ∃ c cur, String.rev_app w "" = String c cur
                     ∧ String.rev (String c cur) = w) as Hword.
  { intros w Hne.
    destruct (String.rev_app w "") as [|c cur] eqn:Hrev.
    - apply (f_equal String.rev) in Hrev.
      change (String.rev_app w "") with (String.rev w) in Hrev.
      by rewrite rev_involutive in Hrev.
    - exists c, cur. split; [done|]. rewrite <-Hrev. apply rev_involutive. }
  unfold Str.words. intros Hws.
  induction Hws as [|w ws [Hne Hw] Hws IH]; [done|].
  destruct (Hword w Hne) as (c & cur & Hrev & Hback).
  destruct ws as [|w' ws].
  - replace (Str.join " " [w]) with (w +:+ "") by apply append_nil_r.
    rewrite words_go_word, Hrev by done. simpl. by rewrite Hback.
  - change (Str.join " " (w :: w' :: ws))
      with (w +:+ String " " (Str.join " " (w' :: ws))).
    rewrite words_go_word, Hrev by done.
    cbn [Str.words_go]. change (Str.is_space " ") with true. cbn iota.
    by rewrite Hback, IH.
Qed.

(** ** Stripping *)

Lemma lstrip_starts_clean (s : string) : starts_clean (Str.lstrip s).
Proof.
  induction s as [|c s IH]; [done|]. simpl.
  by destruct (Str.is_space c) eqn:Hc.
Qed.

Lemma lstrip_clean (s : string) : starts_clean s → Str.lstrip s = s.
Proof. destruct s as [|c s]; [done|]. simpl. by intros ->. Qed.

Lemma lstrip_app_char (u v : string) c :
  Str.is_space c = false →
  Str.lstrip (u +:+ String c v) = Str.lstrip u +:+ String c v.
Proof.
  intros Hc. induction u as [|a u IH]; [simpl; by rewrite Hc|].
  rewrite append_cons. simpl. by destruct (Str.is_space a).
Qed.

(** Stripping the right end leaves a clean left end clean. *)
Lemma rstrip_starts_clean (a : string) :
  starts_clean a → starts_clean (String.rev (Str.lstrip (String.rev a))).
Proof.
  destruct a as [|c a]; [done|]. simpl. intros Hc.
  by rewrite rev_cons, lstrip_app_char, rev_append by done.
Qed.

Lemma strip_starts_clean (s : string) : starts_clean (Str.strip s).
Proof. apply rstrip_starts_clean, lstrip_starts_clean. Qed.

Lemma strip_idem (s : string) : Str.strip (Str.strip s) = Str.strip s.
Proof.
  unfold Str.strip at 1.
  rewrite (lstrip_clean (Str.strip s)) by apply strip_starts_clean.
  unfold Str.strip. rewrite rev_involutive.
  by rewrite (lstrip_clean (Str.lstrip _)) by apply lstrip_starts_clean.
Qed.

Lemma strip_clean (s : string) :
  starts_clean s → starts_clean (String.rev s) → Str.strip s = s.
Proof.
  intros Hs Hrev. unfold Str.strip.
  by rewrite (lstrip_clean s), (lstrip_clean (String.rev s)), rev_involutive.
Qed.

Lemma starts_clean_app (x y : string) :
  x ≠ "" → starts_clean x → starts_clean (x +:+ y).
Proof. by destruct x. Qed.

Lemma word_starts_clean (w : string) :
  chars_all (λ c, negb (Str.is_space c)) w = true → starts_clean w.
Proof.
  destruct w as [|c w]; [done|]. simpl.
  by intros [?%negb_true_iff _]%andb_prop.
Qed.

Lemma join_last sep (w : string) (ws : list string) :
  ∃ pre w', Str.join sep (w :: ws) = pre +:+ w' ∧ w' ∈ w :: ws.
Proof.
  revert w. induction ws as [|w2 ws IH]; intros w.
  - exists "", w. split; [done|by left].
  - destruct (IH w2) as (pre & w' & Hjoin & Hw').
    exists (w +:+ sep +:+ pre), w'. split; [|by right].
    change (Str.join sep (w :: w2 :: ws))
      with (w +:+ sep +:+ Str.join sep (w2 :: ws)).
    by rewrite Hjoin, !append_assoc.
Qed.

(** Words joined by single spaces have clean ends. *)
Lemma strip_join (ws : list string) :
  Forall (λ w, w ≠ "" ∧ chars_all (λ c, negb (Str.is_space c)) w = true) ws →
  Str.strip (Str.join " " ws) = Str.join " " ws.
Proof.
  intros Hws. destruct ws as [|w ws]; [done|].
  apply strip_clean.
  - apply Forall_cons in Hws as [[Hne Hw] _].
    destruct ws as [|w2 ws]; [by apply word_starts_clean|].
    change (Str.join " " (w :: w2 :: ws))
      with (w +:+ " " +:+ Str.join " " (w2 :: ws)).
    by apply starts_clean_app, word_starts_clean.
  - destruct (join_last " " w ws) as (pre & w' & -> & Hw').
    rewrite Forall_forall in Hws. destruct (Hws w' Hw') as [Hne Hw].
    rewrite rev_append. apply starts_clean_app.
    + intros Heq. apply (f_equal String.rev) in Heq.
      by rewrite rev_involutive in Heq.
    + apply word_starts_clean. by rewrite chars_all_rev.
Qed.

(** ** [_clean_text] *)

Lemma clean_char_space : clean_char " " = true.
Proof. reflexivity. Qed.

Lemma clean_text_chars (text : string) :
  chars_all clean_char (_clean_text text) = true.
Proof.
  unfold _clean_text. destruct text as [|c text]; [done|].
  apply chars_all_strip. unfold clean_char.
  rewrite chars_all_and. apply andb_true_intro. split.
  - apply chars_all_removed.
  - apply chars_all_remove, chars_all_join; [done|].
    eapply Forall_impl; [apply (words_go_words "" (String c text)); done|].
    intros w [_ Hw]. simpl in Hw. revert Hw. apply chars_all_impl.
    intros a ->. apply orb_true_r.
Qed.

Lemma clean_text_stripped (text : string) :
  Str.strip (_clean_text text) = _clean_text text.
Proof.
  unfold _clean_text. destruct text as [|c text]; [done|]. apply strip_idem.
Qed.

(** X13.  A cleaned text has no NUL and no white space but single
    characters of space, and it neither begins nor ends with white space:
    stripping it again changes nothing. *)
Theorem clean_text_characters (text : string) :
  chars_all clean_char (_clean_text text) = true
  ∧ Str.strip (_clean_text text) = _clean_text text
  ∧ starts_clean (_clean_text text)
  ∧ starts_clean (String.rev (_clean_text text)).
Proof.
  split; [apply clean_text_chars|]. split; [apply clean_text_stripped|].
  rewrite <-clean_text_stripped. split; [apply strip_starts_clean|].
  unfold Str.strip. rewrite rev_involutive. apply lstrip_starts_clean.
Qed.

(** X14.  On a text without NUL the cleaner joins the words of the
    text with single spaces; cleaning keeps the words, so that the word
    count [process_text] reports is the number of words of the text it
    was given, and cleaning twice is cleaning once. *)
Theorem clean_text_words (text : string) :
  chars_all not_nul text = true →
  _clean_text text = Str.join " " (Str.words text)
  ∧ Str.words (_clean_text text) = Str.words text
  ∧ word_count (process_text text) = length (Str.words text)
  ∧ _clean_text (_clean_text text) = _clean_text text.
Proof.
  intros Hnul.
  pose proof (words_go_words "" text eq_refl) as Hwords.
  fold (Str.words text) in Hwords.
  assert (∀ ws,
            Forall (λ w, w ≠ ""
                         ∧ chars_all (λ c, negb (Str.is_space c)) w = true) ws →
            Forall (λ w, chars_all not_nul w = true) ws →
            Str.strip (Str.remove "000" (Str.join " " ws)) = Str.join " " ws)
    as Hjoin.
  { intros ws Hws Hnuls.
    rewrite remove_none by (by apply (chars_all_join not_nul)).
    by apply strip_join. }
  assert (Forall (λ w, chars_all not_nul w = true) (Str.words text))
    as Hnuls by (by apply words_go_all).
  assert (_clean_text text = Str.join " " (Str.words text)) as Hclean.
  { unfold _clean_text. destruct text as [|c text]; [done|]. by apply Hjoin. }
  assert (Str.words (_clean_text text) = Str.words text) as Hsame
    by (rewrite Hclean; by apply words_join).
  split; [done|]. split; [done|]. split; [simpl; by rewrite Hsame|].
  destruct (decide (_clean_text text = "")) as [Hempty|Hne];
    [by rewrite Hempty|].
  assert (∀ s, s ≠ "" →
               _clean_text s
               = Str.strip (Str.remove "000" (Str.join " " (Str.words s))))
    as Hunfold by (by intros [|c s]).
  rewrite Hunfold, Hsame, Hjoin by done. by rewrite Hclean.
Qed.

Lemma clean_text_words_witness :
  _clean_text "  graph   theory " = "graph theory"
  ∧ word_count (process_text "  graph   theory ") = 2.
Proof.
  destruct (clean_text_words "  graph   theory " eq_refl)
    as (Hclean & _ & Hcount & _).
  split; [by rewrite Hclean|by rewrite Hcount].
Defined.

(** ** A cleaned text in the graph builders *)

Lemma split_go_no_separator (cur s : string) :
  chars_all (λ c, negb (bool_decide (c = "010"%char))) s = true →
  Str.split_go Str.blank_line 0 cur s = [String.rev (String.rev_app s cur)].
Proof.
  revert cur. induction s as [|c s IH]; intros cur Hs; [done|].
  simpl in Hs. apply andb_prop in Hs as [Hc Hs].
  apply negb_true_iff, bool_decide_eq_false in Hc.
  cbn [Str.split_go Str.blank_line Str.is_prefix].
  rewrite bool_decide_false by done. cbn [andb]. by apply IH.
Qed.

Lemma clean_char_no_newline (s : string) :
  chars_all clean_char s = true →
  chars_all (λ c, negb (bool_decide (c = "010"%char))) s = true.
Proof.
  apply chars_all_impl. intros c Hc.
  destruct (decide (c = "010"%char)) as [->|Hne]; [done|].
  by rewrite bool_decide_false.
Qed.

(** X15.  A cleaned text is one paragraph at most: it has no blank
    line, so the paragraphs of the graph builders are the text itself, or
    none when it is empty, and the simple text builder returns the root
    and at most one node for it. *)
Theorem clean_text_single_paragraph (text : string) (title : pyval) :
  let cleaned := _clean_text text in
  AIService.paragraphs cleaned = (if decide (cleaned = "") then [] else [cleaned])
  ∧ ∃ g, create_simple_graph_from_text (PyStr cleaned) title = Some g
         ∧ length (nodes g) = (if decide (cleaned = "") then 1 else 2)
         ∧ length (links g) + 1 = length (nodes g).
Proof.
  intros cleaned.
  pose proof (clean_text_chars text) as Hchars.
  pose proof (clean_text_stripped text) as Hstrip.
  fold cleaned in Hchars, Hstrip.
  assert (AIService.paragraphs cleaned
          = if decide (cleaned = "") then [] else [cleaned]) as Hparagraphs.
  { unfold AIService.paragraphs, Str.split.
    rewrite split_go_no_separator by (by apply clean_char_no_newline).
    change (String.rev_app cleaned "") with (String.rev cleaned).
    rewrite rev_involutive. cbn [fmap list_fmap]. rewrite Hstrip.
    rewrite filter_cons, filter_nil. by repeat case_decide. }
  split; [done|].
  unfold create_simple_graph_from_text. eexists. split; [done|].
  cbn [nodes links].
  rewrite Hparagraphs.
  destruct (add_paragraphs_nodes
              (take 10 (if decide (cleaned = "") then [] else [cleaned]))
              (Builder [plain_node "0" title (PyStr "main_topic") (PyInt 0) 40
                                   (PyStr (AIService.shorten 200 cleaned))] [] 0))
    as [-> ->].
  by case_decide.
Qed.

(** * The text of an answer *)

Import AIReplies.

Lemma chars_all_take P n (s : string) :
  chars_all P s = true → chars_all P (Str.take n s) = true.
Proof.
  revert s. induction n as [|n IH]; intros [|c s]; simpl; try done.
  intros [? ?]%andb_prop. apply andb_true_intro. auto.
Qed.

(** X16.  Whatever the model answers, and without a model, a generated
    title has at most 60 characters and holds neither a double nor a
    single quote. *)
Theorem generate_title_short (model : text_model) (content : string) :
  String.length (generate_title model content) ≤ 60
  ∧ chars_all no_quote (generate_title model content) = true.
Proof.
  destruct model as [|[text|]]; [by split; [simpl; lia|]| |by split; [simpl; lia|]].
  unfold generate_title.
  assert (chars_all no_quote
            (Str.remove "'" (Str.remove "034" (Str.strip text))) = true)
    as Hquotes.
  { unfold no_quote. rewrite chars_all_and. apply andb_true_intro. split.
    - apply chars_all_remove, chars_all_removed.
    - apply chars_all_removed. }
  case_decide; (split; [|by try apply chars_all_take]); [|lia].
  rewrite length_take_string. lia.
Qed.

(** ** [_clean_json_response] *)

Lemma all_space_chars (w : string) :
  all_space w = chars_all Str.is_space w.
Proof. induction w as [|c w IH]; [done|]. simpl. by rewrite IH. Qed.

Lemma all_space_no_backtick (w : string) :
  all_space w = true → chars_all no_backtick w = true.
Proof.
  rewrite all_space_chars. apply chars_all_impl. intros c Hc.
  unfold no_backtick. rewrite bool_decide_false; [done|]. by intros ->.
Qed.

Lemma remove_json_fences_plain (x r : string) :
  chars_all no_backtick x = true →
  remove_json_fences 0 false (x +:+ r) = x +:+ remove_json_fences 0 false r.
Proof.
  induction x as [|c x IH]; [done|].
  intros Hall. simpl in Hall. apply andb_prop in Hall as [Hc Hx].
  apply negb_true_iff, bool_decide_eq_false in Hc.
  rewrite !append_cons. cbn [remove_json_fences andb Str.is_prefix].
  rewrite (bool_decide_false ("`"%char = c)) by done. cbn [andb].
  by rewrite IH.
Qed.

Lemma remove_json_fences_space (w r : string) :
  all_space w = true →
  remove_json_fences 0 true (w +:+ r) = remove_json_fences 0 true r.
Proof.
  induction w as [|c w IH]; [done|].
  intros Hall. simpl in Hall. apply andb_prop in Hall as [Hc Hw].
  rewrite append_cons. cbn [remove_json_fences andb]. rewrite Hc. auto.
Qed.

Lemma is_prefix_cons a b (p s : string) :
  Str.is_prefix (String a p) (String b s)
  = bool_decide (a = b) && Str.is_prefix p s.
Proof. reflexivity. Qed.

Lemma remove_json_fences_keep c (s : string) :
  Str.is_prefix "```json" (String c s) = false →
  remove_json_fences 0 false (String c s)
  = String c (remove_json_fences 0 false s).
Proof. intros Hprefix. cbn [remove_json_fences andb]. by rewrite Hprefix. Qed.

(** The closing fence is not taken for an opening one. *)
Lemma remove_json_fences_closing (w : string) :
  all_space w = true →
  remove_json_fences 0 false ("```" +:+ w) = "```" +:+ w.
Proof.
  intros Hw.
  assert (remove_json_fences 0 false w = w) as Hrest.
  { rewrite <-(append_nil_r w) at 1.
    rewrite remove_json_fences_plain by (by apply all_space_no_backtick).
    apply append_nil_r. }
  change ("```" +:+ w) with (String "`" (String "`" (String "`" w))).
  assert (∀ p, Str.is_prefix (String "j" p) w = false
               ∧ Str.is_prefix (String "`" p) w = false) as Hno.
  { intros p. destruct w as [|c w]; [done|]. simpl in Hw.
    apply andb_prop in Hw as [Hc _]. cbn [Str.is_prefix].
    rewrite !bool_decide_false; [done|by intros <-..]. }
  rewrite !remove_json_fences_keep; [by rewrite Hrest|..];
    rewrite !is_prefix_cons, ?(proj1 (Hno _)), ?(proj2 (Hno _));
    by rewrite ?andb_false_r.
Qed.

Lemma remove_closing_fence_plain (x r : string) :
  chars_all no_backtick x = true →
  remove_closing_fence (x +:+ r) = x +:+ remove_closing_fence r.
Proof.
  induction x as [|c x IH]; [done|].
  intros Hall. simpl in Hall. apply andb_prop in Hall as [Hc Hx].
  apply negb_true_iff, bool_decide_eq_false in Hc.
  rewrite !append_cons. cbn [remove_closing_fence Str.is_prefix].
  rewrite (bool_decide_false ("`"%char = c)) by done. cbn [andb].
  by rewrite IH.
Qed.

Lemma remove_closing_fence_closing (w : string) :
  all_space w = true → remove_closing_fence ("```" +:+ w) = "".
Proof.
  intros Hw.
  change ("```" +:+ w) with (String "`" (String "`" (String "`" w))).
  cbn [remove_closing_fence Str.is_prefix Str.drop].
  rewrite !(bool_decide_true ("`"%char = "`"%char)) by done.
  by rewrite Hw.
Qed.

(** Stripping around two characters that are not white space. *)
Lemma strip_around (pre mid post : string) a b :
  Str.is_space a = false → Str.is_space b = false →
  Str.strip (pre +:+ String a (mid +:+ String b post))
  = Str.lstrip pre +:+ String a (mid +:+ String b
                                   (String.rev (Str.lstrip (String.rev post)))).
Proof.
  intros Ha Hb. unfold Str.strip. rewrite lstrip_app_char by done.
  replace (Str.lstrip pre +:+ String a (mid +:+ String b post))
    with ((Str.lstrip pre +:+ String a mid) +:+ String b post)
    by (by rewrite append_assoc, append_cons).
  rewrite rev_append, rev_cons, append_assoc, append_cons.
  change ("" +:+ String.rev (Str.lstrip pre +:+ String a mid))
    with (String.rev (Str.lstrip pre +:+ String a mid)).
  rewrite lstrip_app_char by done.
  rewrite rev_append, rev_cons, rev_involutive, !append_assoc, !append_cons.
  done.
Qed.

Lemma through_last_none c (s : string) :
  chars_all (λ a, negb (bool_decide (a = c))) s = true →
  through_last c s = None.
Proof.
  induction s as [|a s IH]; [done|].
  intros Hall. simpl in Hall. apply andb_prop in Hall as [Ha Hs].
  apply negb_true_iff, bool_decide_eq_false in Ha.
  simpl. by rewrite IH, decide_False by done.
Qed.

Lemma through_last_app c (m post : string) :
  through_last c post = None →
  through_last c (m +:+ String c post) = Some (m +:+ String c "").
Proof.
  intros Hpost. induction m as [|a m IH].
  - change ("" +:+ String c post) with (String c post). simpl.
    by rewrite Hpost, decide_True by done.
  - rewrite !append_cons. simpl. by rewrite IH.
Qed.

Lemma search_braces_skip (x r : string) :
  chars_all (λ a, negb (bool_decide (a = "{"%char))) x = true →
  search_braces (x +:+ r) = search_braces r.
Proof.
  induction x as [|a x IH]; [done|].
  intros Hall. simpl in Hall. apply andb_prop in Hall as [Ha Hx].
  apply negb_true_iff, bool_decide_eq_false in Ha.
  rewrite append_cons. simpl. rewrite decide_False by done. auto.
Qed.

Lemma no_brace_split (s : string) :
  chars_all no_brace s = true →
  chars_all (λ a, negb (bool_decide (a = "{"%char))) s = true
  ∧ chars_all (λ a, negb (bool_decide (a = "}"%char))) s = true.
Proof. unfold no_brace. rewrite chars_all_and. apply andb_prop. Qed.

(** X17.  The cleaner of answers recovers a JSON object from the text
    around it: when the object has no backtick, the text before and after
    it has neither a backtick nor a brace, and the object comes after an
    opening [```json] fence and white space or after none, and before a
    closing fence and white space or before none, the cleaned answer is
    the object, from its opening brace to its closing one. *)
Theorem clean_json_response_recovers
    (pre w1 m post w3 : string) (opened closed : bool) :
  chars_all no_backtick pre = true → chars_all no_brace pre = true →
  all_space w1 = true →
  chars_all no_backtick m = true →
  chars_all no_backtick post = true → chars_all no_brace post = true →
  all_space w3 = true →
  _clean_json_response
    (pre +:+ (if opened then "```json" +:+ w1 else "")
     +:+ String "{" (m +:+ String "}"
                       (post +:+ (if closed then "```" +:+ w3 else ""))))
  = String "{" (m +:+ String "}" "").
Proof.
  intros Hpre Hpre' Hw1 Hm Hpost Hpost' Hw3.
  assert (remove_json_fences 0 false
            (post +:+ (if closed then "```" +:+ w3 else ""))
          = post +:+ (if closed then "```" +:+ w3 else "")) as Htail1.
  { rewrite remove_json_fences_plain by done. f_equal.
    destruct closed; [by apply remove_json_fences_closing|done]. }
  assert (remove_closing_fence
            (post +:+ (if closed then "```" +:+ w3 else "")) = post)
    as Htail2.
  { rewrite remove_closing_fence_plain by done.
    destruct closed; [rewrite remove_closing_fence_closing by done|];
      apply append_nil_r. }
  assert (∀ after_fence,
            remove_json_fences 0 after_fence
              (String "{" (m +:+ String "}"
                             (post +:+ (if closed then "```" +:+ w3 else ""))))
            = String "{" (m +:+ String "}"
                            (post +:+ (if closed then "```" +:+ w3 else ""))))
    as Hobject1.
  { intros after_fence.
    cbn [remove_json_fences Str.is_prefix].
    change (Str.is_space "{") with false. rewrite andb_false_r.
    rewrite bool_decide_false by done. cbn [andb]. f_equal.
    rewrite remove_json_fences_plain by done. f_equal.
    change (String "}" ?s) with ("}" +:+ s).
    rewrite remove_json_fences_plain by done. by rewrite Htail1. }
  assert (remove_json_fences 0 false
            (pre +:+ (if opened then "```json" +:+ w1 else "")
             +:+ String "{" (m +:+ String "}"
                               (post +:+ (if closed then "```" +:+ w3 else ""))))
          = pre +:+ String "{" (m +:+ String "}"
                                  (post +:+ (if closed then "```" +:+ w3 else ""))))
    as Hstep1.
  { rewrite remove_json_fences_plain by done. f_equal.
    destruct opened; [|apply Hobject1].
    rewrite append_assoc.
    change ("```json" +:+ ?s)
      with (String "`" (String "`" (String "`" (String "j" (String "s"
             (String "o" (String "n" s))))))).
    cbn [remove_json_fences andb Str.is_prefix].
    rewrite !bool_decide_true by done. cbn [andb].
    by rewrite remove_json_fences_space, Hobject1. }
  assert (remove_closing_fence
            (pre +:+ String "{" (m +:+ String "}"
                                   (post +:+ (if closed then "```" +:+ w3 else ""))))
          = pre +:+ String "{" (m +:+ String "}" post)) as Hstep2.
  { rewrite remove_closing_fence_plain by done. f_equal.
    change (String "{" ?s) with ("{" +:+ s).
    rewrite remove_closing_fence_plain by done. f_equal.
    rewrite remove_closing_fence_plain by done. f_equal.
    change (String "}" ?s) with ("}" +:+ s).
    rewrite remove_closing_fence_plain by done. by rewrite Htail2. }
  unfold _clean_json_response. rewrite Hstep1, Hstep2.
  rewrite strip_around by done.
  destruct (no_brace_split pre Hpre') as [Hopen _].
  destruct (no_brace_split post Hpost') as [_ Hclose].
  rewrite search_braces_skip by (by apply chars_all_lstrip).
  cbn [search_braces]. rewrite decide_True by done.
  rewrite through_last_app; [done|].
  apply through_last_none.
  rewrite chars_all_rev. apply chars_all_lstrip. by rewrite chars_all_rev.
Qed.

Lemma clean_json_response_recovers_witness :
  _clean_json_response
    ("Here it is: ```json" +:+ Str.newline +:+ "{a: {b}}" +:+ Str.newline
     +:+ "```" +:+ Str.newline)
  = "{a: {b}}".
Proof.
  apply (clean_json_response_recovers "Here it is: " Str.newline "a: {b}"
           Str.newline Str.newline true true); reflexivity.
Defined.

(** ** The fallback structure *)

Lemma ellipsis_str n (s : string) :
  Py.ellipsis n (PyStr s) = Some (PyStr (AIService.shorten n s)).
Proof. unfold Py.ellipsis, AIService.shorten. simpl. by case_decide. Qed.

(** X18.  The fallback structure of any text is a document the legacy
    builder accepts.  Its graph has 7 nodes: the root Structured Content,
    the section Main Content with its two key points, and Key Takeaways
    with its two takeaways, of which the first has its name cut at 30
    characters; the root and the section both hold the text, cut at 200
    characters; the empty glossary adds nothing. *)
Theorem fallback_structure_graph title text content_type language :
  ∃ g,
    legacy_structured title
      (PyDict (_create_fallback_structure text content_type language)) = Some g
    ∧ node_name <$> nodes g
      = [PyStr "Structured Content"; PyStr "Main Content";
         PyStr "Content has been processed";
         PyStr "Review the material carefully";
         PyStr "Key Takeaways"; PyStr "Important information extracte...";
         PyStr "Content organized for learning"]
    ∧ node_content <$> nodes g
      = [PyStr (AIService.shorten 200 text); PyStr (AIService.shorten 200 text);
         PyStr "Content has been processed";
         PyStr "Review the material carefully";
         PyStr "Main lessons and insights";
         PyStr "Important information extracted";
         PyStr "Content organized for learning"]
    ∧ node_level <$> nodes g
      = [PyInt 0; PyInt 1; PyInt 2; PyInt 2; PyInt 1; PyInt 2; PyInt 2]
    ∧ (λ l, (link_source l, link_target l, link_value l)) <$> links g
      = [("0", "1", 3%Z); ("1", "2", 2%Z); ("1", "3", 2%Z);
         ("0", "4", 3%Z); ("4", "5", 2%Z); ("4", "6", 2%Z)].
Proof.
  unfold legacy_structured, _create_fallback_structure, add_sections.
  cbn -[Py.ellipsis Py.str AIService.shorten].
  rewrite ellipsis_str. cbn -[Py.str AIService.shorten Nat.divmod Nat.max].
  eexists. split; [reflexivity|].
  cbn -[Py.str AIService.shorten Nat.divmod Nat.max].
  repeat split; vm_compute; reflexivity.
Qed.
